(** * FoodExpress delivery: the business layer of [Food_delivery.py]

    A shallow embedding of the non-visual part of the program:
    the JSON record store ([Database]), registration and login
    ([UserSystemFacade]), the observer channel ([Subject],
    [SearchSubject]), the two sort strategies, the catalogue search
    ([FoodDeliveryApp.handle_search]) and the cart-to-order workflow.

    Conventions.
    - A Python [str] is a Rocq [string]: the UTF-8 bytes of the text.
      Byte-wise comparison of UTF-8 agrees with Python's comparison by
      code point, and the character class [[A-Za-z0-9]] only contains
      ASCII, so neither is affected by the encoding.
    - An account is a Python dict with string values: [gmap string string].
      A subscript on a missing key raises [KeyError]; [dict.get] does not.
    - JSON numbers (ratings, prices, ids) are exact rationals or integers;
      Python compares numbers by their exact value.
    - Exceptions are values of [exn]; a function that can raise returns
      in [res]. *)

From Stdlib Require Import Ascii String QArith Qabs Qround.
From stdpp Require Import gmap strings list fin_maps sorting pretty.

Open Scope string_scope.
Open Scope list_scope.

(** ** Exceptions *)

Inductive exn : Type :=
| KeyError (key : string)
| ValueError
| AttributeError.

Inductive res (A : Type) : Type :=
| Ok (a : A)
| Raise (e : exn).
Arguments Ok {A} a.
Arguments Raise {A} e.

Definition res_bind {A B} (m : res A) (k : A → res B) : res B :=
  match m with
  | Ok a => k a
  | Raise e => Raise e
  end.

Notation "'let!' x ':=' m 'in' k" := (res_bind m (fun x => k))
  (at level 10, x name, m at level 100, k at level 200).

(** ** Python dicts with string values *)

Abbreviation dict := (gmap string string).

(** [d[k]] *)
Definition getitem (d : dict) (k : string) : res string :=
  match d !! k with
  | Some v => Ok v
  | None => Raise (KeyError k)
  end.

(** [d.get(k, default)] *)
Definition get_default (d : dict) (k : string) (default : string) : string :=
  match d !! k with
  | Some v => v
  | None => default
  end.

(** ** Persisted records

    A restaurant and its menu items are JSON objects with a fixed set of
    keys; the keys the code probes with [dict.get] are optional. *)

Record menu_item : Type := mkMenuItem {
  item_id : Z;
  item_name : string;
  item_description : string;
  item_price : Q;
  item_category : option string;
}.

Record restaurant : Type := mkRestaurant {
  restaurant_id : Z;
  restaurant_name : string;
  restaurant_description : string;
  restaurant_rating : option Q;
  restaurant_menu : list menu_item;
}.

(** The dict a menu list item carries as its user data
    ([show_restaurant_by_id]) and [add_to_cart] appends to the cart. *)
Record cart_line : Type := mkCartLine {
  line_id : Z;
  line_name : string;
  line_price : Q;
  line_restaurant : string;
}.

(** An order is the dict literal of [confirm_order]; its values are
    strings, except for the cart under ['items']. *)
Inductive order_value : Type :=
| VStr (s : string)
| VItems (items : list cart_line).

Abbreviation order := (gmap string order_value).

(** ** Database: three JSON files, each holding one list *)

Record Database : Type := mkDatabase {
  users_file : list dict;
  restaurants_file : list restaurant;
  orders_file : list order;
}.

Definition load_users (db : Database) : list dict := users_file db.

Definition save_users (users : list dict) (db : Database) : Database :=
  {| users_file := users;
     restaurants_file := restaurants_file db;
     orders_file := orders_file db |}.

Definition load_restaurants_file (db : Database) : list restaurant :=
  restaurants_file db.

Definition load_orders (db : Database) : list order := orders_file db.

Definition save_orders (orders : list order) (db : Database) : Database :=
  {| users_file := users_file db;
     restaurants_file := restaurants_file db;
     orders_file := orders |}.

(** ** The password pattern [^[A-Za-z0-9]+$] under [re.match] *)

Definition is_alnum (c : Ascii.ascii) : bool :=
  let n := Ascii.nat_of_ascii c in
  ((65 <=? n)%nat && (n <=? 90)%nat)
  || ((97 <=? n)%nat && (n <=? 122)%nat)
  || ((48 <=? n)%nat && (n <=? 57)%nat).

(** What is left after the longest run of class characters. The class is
    repeated greedily; giving a character back never helps, because [$]
    cannot match in front of a class character. *)
Fixpoint skip_alnum (s : string) : string :=
  match s with
  | String c rest => if is_alnum c then skip_alnum rest else s
  | EmptyString => EmptyString
  end.

(** [$] without [re.MULTILINE]: at the end of the string, and also just
    before a line feed that is the last character. *)
Definition at_dollar (s : string) : bool :=
  match s with
  | EmptyString => true
  | String c EmptyString => Ascii.eqb c "010"%char
  | _ => false
  end.

(** [re.match(r'^[A-Za-z0-9]+$', s)] as a truth value. *)
Definition re_match_password (s : string) : bool :=
  match s with
  | String c rest => is_alnum c && at_dollar (skip_alnum rest)
  | EmptyString => false
  end.

(** The character class as the error message words it: one or more
    characters, every one a Latin letter or a digit. *)
Fixpoint all_alnum (s : string) : bool :=
  match s with
  | String c rest => is_alnum c && all_alnum rest
  | EmptyString => true
  end.

Definition only_letters_and_digits (s : string) : bool :=
  match s with
  | EmptyString => false
  | _ => all_alnum s
  end.

(** ** UserSystemFacade *)

Record AbstractUser : Type := mkUser {
  first_name : string;
  last_name : string;
  birth_date : string;
  email : string;
  login : string;
  password : string;
  address : string;
  role : string;
}.

(** [AbstractUser.__init__] *)
Definition AbstractUser_init (data : dict) : res AbstractUser :=
  let! fn := getitem data "first_name" in
  let! ln := getitem data "last_name" in
  let! bd := getitem data "birth_date" in
  let! em := getitem data "email" in
  let! lg := getitem data "login" in
  let! pw := getitem data "password" in
  let! ad := getitem data "address" in
  Ok (mkUser fn ln bd em lg pw ad (get_default data "role" "user")).

Inductive user : Type :=
| RegularUser (fields : AbstractUser)
| AdminUser (fields : AbstractUser).

Definition user_fields (u : user) : AbstractUser :=
  match u with
  | RegularUser f => f
  | AdminUser f => f
  end.

(** [RegularUserCreator.create_user] and [AdminUserCreator.create_user] *)
Definition regular_create_user (user_data : dict) : res user :=
  let! f := AbstractUser_init user_data in Ok (RegularUser f).

Definition admin_create_user (user_data : dict) : res user :=
  let! f := AbstractUser_init user_data in Ok (AdminUser f).

Definition msg_login_exists : string := "Логин уже существует".
Definition msg_passwords_differ : string := "Пароли не совпадают".
Definition msg_password_chars : string :=
  "Пароль должен содержать только латинские буквы и цифры".
Definition msg_registered : string := "Регистрация прошла успешно".

(** [any(u['login'] == user_data['login'] for u in users)]: the generator
    is consumed up to the first true element; each element subscripts the
    stored account first and the candidate second. *)
Fixpoint any_login_equal (users : list dict) (user_data : dict) : res bool :=
  match users with
  | [] => Ok false
  | u :: rest =>
      let! stored := getitem u "login" in
      let! wanted := getitem user_data "login" in
      if String.eqb stored wanted then Ok true
      else any_login_equal rest user_data
  end.

(** [register_user]: the outcome and the database afterwards. An
    exception leaves through the first component. *)
Definition register_user (user_data : dict) (db : Database)
  : res (bool * string) * Database :=
  let users := load_users db in
  match any_login_equal users user_data with
  | Raise e => (Raise e, db)
  | Ok true => (Ok (false, msg_login_exists), db)
  | Ok false =>
    match getitem user_data "password" with
    | Raise e => (Raise e, db)
    | Ok pw =>
      match getitem user_data "repeat_password" with
      | Raise e => (Raise e, db)
      | Ok repeated =>
        if negb (String.eqb pw repeated) then
          (Ok (false, msg_passwords_differ), db)
        else if negb (re_match_password pw) then
          (Ok (false, msg_password_chars), db)
        else
          let user_data := delete "repeat_password" user_data in
          let user_data := <["role" := "user"]> user_data in
          let users := users ++ [user_data] in
          (Ok (true, msg_registered), save_users users db)
      end
    end
  end.

(** [next((u for u in users if u['login'] == login and
    u['password'] == password), None)] *)
Fixpoint next_matching (users : list dict) (lg pw : string)
  : res (option dict) :=
  match users with
  | [] => Ok None
  | u :: rest =>
      let! stored := getitem u "login" in
      if String.eqb stored lg then
        let! secret := getitem u "password" in
        if String.eqb secret pw then Ok (Some u)
        else next_matching rest lg pw
      else next_matching rest lg pw
  end.

(** [login_user]; it only reads the database. *)
Definition login_user (lg pw : string) (db : Database)
  : res (option user) * Database :=
  let users := load_users db in
  (match next_matching users lg pw with
   | Raise e => Raise e
   | Ok None => Ok None
   | Ok (Some user_data) =>
       if bool_decide (user_data = ∅) then Ok None
       else if bool_decide (user_data !! "role" = Some "admin") then
         let! u := admin_create_user user_data in Ok (Some u)
       else
         let! u := regular_create_user user_data in Ok (Some u)
   end, db).

(** ** Subject and SearchSubject

    Observers are compared by [list.remove] with [==], the identity of
    the object; here they are the elements of a type with decidable
    equality. [update o msg] is what the call [o.update(msg)] does to the
    rest of the program, whose state is [W]. *)

Section Subject.
Context {observer : Type} `{EqDecision observer}.

Record Subject : Type := mkSubject {
  _observers : list observer;
}.

Definition Subject_init : Subject := {| _observers := [] |}.

(** [self._observers.append(observer)] *)
Definition attach (o : observer) (s : Subject) : Subject :=
  {| _observers := _observers s ++ [o] |}.

(** [list.remove]: drops the first equal element, [ValueError] when
    there is none. *)
Fixpoint list_remove (x : observer) (l : list observer)
  : res (list observer) :=
  match l with
  | [] => Raise ValueError
  | y :: l' =>
      if decide (y = x) then Ok l'
      else let! r := list_remove x l' in Ok (y :: r)
  end.

Definition detach (o : observer) (s : Subject) : res Subject :=
  let! l := list_remove o (_observers s) in Ok {| _observers := l |}.

Context {message W : Type}.
Variable update : observer → message → W → W.

(** [for observer in self._observers: observer.update(message)] *)
Definition notify (msg : message) (s : Subject) (w : W) : W :=
  fold_left (fun w o => update o msg w) (_observers s) w.

Record SearchSubject : Type := mkSearchSubject {
  subject : Subject;
  results : message;
}.

(** [self.results = results; self.notify(results)] *)
Definition update_results (r : message) (ss : SearchSubject) (w : W)
  : SearchSubject * W :=
  let ss := {| subject := subject ss; results := r |} in
  (ss, notify r (subject ss) w).
End Subject.

Arguments Subject observer : clear implicits.
Arguments SearchSubject observer message : clear implicits.

(** A history of [attach] and [detach] calls on one subject. *)
Inductive subject_call (observer : Type) : Type :=
| Attach (o : observer)
| Detach (o : observer).
Arguments Attach {observer} o.
Arguments Detach {observer} o.

Fixpoint run_calls {observer} `{EqDecision observer}
    (calls : list (subject_call observer)) (s : Subject observer)
  : res (Subject observer) :=
  match calls with
  | [] => Ok s
  | Attach o :: rest => run_calls rest (attach o s)
  | Detach o :: rest => let! s' := detach o s in run_calls rest s'
  end.

(** A listener that does nothing but record that it was called, and
    with what. *)
Definition record_call {observer message}
    (o : observer) (msg : message) (log : list (observer * message))
  : list (observer * message) :=
  log ++ [(o, msg)].

(** ** sorted() and the two strategies

    [sorted] compares keys with [<] only and is stable. The insertion
    sort below is the reference stable sort: for keys that [<] orders
    totally up to ties, every stable sort returns the same list
    ([stable_sort_unique]).
    With [reverse=True] the list is reversed, sorted, and reversed back,
    which keeps equal keys in their original order. *)

Section Sorted.
Context {A K : Type}.
Variable key : A → K.
Variable lt : K → K → bool.

Fixpoint insort (x : A) (l : list A) : list A :=
  match l with
  | [] => [x]
  | y :: l' =>
      if lt (key y) (key x) then y :: insort x l' else x :: y :: l'
  end.

Definition stable_sort (l : list A) : list A := foldr insort [] l.

Definition sorted (reverse : bool) (items : list A) : list A :=
  if reverse then rev (stable_sort (rev items)) else stable_sort items.
End Sorted.

Definition Qltb (x y : Q) : bool := negb (Qle_bool y x).

(** [lambda x: x['name']] *)
Definition name_key (x : restaurant) : string := restaurant_name x.

(** [lambda x: x.get('rating', 4.0)] *)
Definition rating_key (x : restaurant) : Q :=
  match restaurant_rating x with
  | Some r => r
  | None => 4.0%Q
  end.

Inductive SortStrategy : Type :=
| SortByName
| SortByRating.

Definition SortByName_sort (items : list restaurant) : list restaurant :=
  sorted name_key String.ltb false items.

Definition SortByRating_sort (items : list restaurant) : list restaurant :=
  sorted rating_key Qltb true items.

Definition sort (strategy : SortStrategy) (items : list restaurant)
  : list restaurant :=
  match strategy with
  | SortByName => SortByName_sort items
  | SortByRating => SortByRating_sort items
  end.

Record SortContext : Type := mkSortContext {
  _strategy : SortStrategy;
}.

Definition set_strategy (strategy : SortStrategy) (c : SortContext)
  : SortContext :=
  {| _strategy := strategy |}.

Definition execute_sort (c : SortContext) (items : list restaurant)
  : list restaurant :=
  sort (_strategy c) items.

(** ** FoodDeliveryApp: the state behind the window

    The fields are the attributes of the window object that the
    handlers read or write. A widget is the value it holds: a line edit
    its text, a label its text or whether it is shown, a list widget its
    items, the stacked widget its current page. *)

Inductive page : Type :=
| login_page
| register_page
| main_page
| restaurant_page
| cart_page
| order_confirmation_page
| admin_page.

Global Instance page_eq_dec : EqDecision page.
Proof. solve_decision. Defined.

(** The dicts [handle_search] appends to [results]; the rating of a
    restaurant without one is reported as 4.5. *)
Inductive search_result : Type :=
| restaurant_result (id : Z) (name description : string) (rating : Q)
| dish_result (restaurant_id : Z) (restaurant_name name description : string)
    (price : Q).

(** The user data of a list item; an item added from a plain string has
    none. The caption of an item with user data is not kept. *)
Inductive list_item : Type :=
| text_item (text : string)
| restaurant_item (id : Z)
| dish_item (restaurant_id : Z).

Inductive message_box : Type :=
| warning (title text : string)
| information (title text : string).

(** The only observer the program attaches: the window itself. *)
Inductive window : Type := the_window.

Global Instance window_eq_dec : EqDecision window.
Proof. solve_decision. Defined.

Record App : Type := mkApp {
  db : Database;
  search_subject : SearchSubject window (list search_result);
  current_user : option user;
  cart : list cart_line;
  stacked_widget : page;
  search_input : string;
  sort_combo : nat;
  search_results_label : bool;
  search_results_list_shown : bool;
  search_results_list : list list_item;
  restaurant_list : list list_item;
  cart_list : list string;
  total_label : string;
  order_summary : string;
  delivery_address : string;
  welcome_label : string;
  message_boxes : list message_box;
}.

(** Assignment to one attribute. *)

Definition set_db (v : Database) (a : App) : App :=
  {| db := v;
     search_subject := search_subject a;
     current_user := current_user a;
     cart := cart a;
     stacked_widget := stacked_widget a;
     search_input := search_input a;
     sort_combo := sort_combo a;
     search_results_label := search_results_label a;
     search_results_list_shown := search_results_list_shown a;
     search_results_list := search_results_list a;
     restaurant_list := restaurant_list a;
     cart_list := cart_list a;
     total_label := total_label a;
     order_summary := order_summary a;
     delivery_address := delivery_address a;
     welcome_label := welcome_label a;
     message_boxes := message_boxes a |}.

Definition set_search_subject (v : SearchSubject window (list search_result)) (a : App) : App :=
  {| db := db a;
     search_subject := v;
     current_user := current_user a;
     cart := cart a;
     stacked_widget := stacked_widget a;
     search_input := search_input a;
     sort_combo := sort_combo a;
     search_results_label := search_results_label a;
     search_results_list_shown := search_results_list_shown a;
     search_results_list := search_results_list a;
     restaurant_list := restaurant_list a;
     cart_list := cart_list a;
     total_label := total_label a;
     order_summary := order_summary a;
     delivery_address := delivery_address a;
     welcome_label := welcome_label a;
     message_boxes := message_boxes a |}.

Definition set_current_user (v : option user) (a : App) : App :=
  {| db := db a;
     search_subject := search_subject a;
     current_user := v;
     cart := cart a;
     stacked_widget := stacked_widget a;
     search_input := search_input a;
     sort_combo := sort_combo a;
     search_results_label := search_results_label a;
     search_results_list_shown := search_results_list_shown a;
     search_results_list := search_results_list a;
     restaurant_list := restaurant_list a;
     cart_list := cart_list a;
     total_label := total_label a;
     order_summary := order_summary a;
     delivery_address := delivery_address a;
     welcome_label := welcome_label a;
     message_boxes := message_boxes a |}.

Definition set_cart (v : list cart_line) (a : App) : App :=
  {| db := db a;
     search_subject := search_subject a;
     current_user := current_user a;
     cart := v;
     stacked_widget := stacked_widget a;
     search_input := search_input a;
     sort_combo := sort_combo a;
     search_results_label := search_results_label a;
     search_results_list_shown := search_results_list_shown a;
     search_results_list := search_results_list a;
     restaurant_list := restaurant_list a;
     cart_list := cart_list a;
     total_label := total_label a;
     order_summary := order_summary a;
     delivery_address := delivery_address a;
     welcome_label := welcome_label a;
     message_boxes := message_boxes a |}.

Definition set_stacked_widget (v : page) (a : App) : App :=
  {| db := db a;
     search_subject := search_subject a;
     current_user := current_user a;
     cart := cart a;
     stacked_widget := v;
     search_input := search_input a;
     sort_combo := sort_combo a;
     search_results_label := search_results_label a;
     search_results_list_shown := search_results_list_shown a;
     search_results_list := search_results_list a;
     restaurant_list := restaurant_list a;
     cart_list := cart_list a;
     total_label := total_label a;
     order_summary := order_summary a;
     delivery_address := delivery_address a;
     welcome_label := welcome_label a;
     message_boxes := message_boxes a |}.

Definition set_search_input (v : string) (a : App) : App :=
  {| db := db a;
     search_subject := search_subject a;
     current_user := current_user a;
     cart := cart a;
     stacked_widget := stacked_widget a;
     search_input := v;
     sort_combo := sort_combo a;
     search_results_label := search_results_label a;
     search_results_list_shown := search_results_list_shown a;
     search_results_list := search_results_list a;
     restaurant_list := restaurant_list a;
     cart_list := cart_list a;
     total_label := total_label a;
     order_summary := order_summary a;
     delivery_address := delivery_address a;
     welcome_label := welcome_label a;
     message_boxes := message_boxes a |}.

Definition set_sort_combo (v : nat) (a : App) : App :=
  {| db := db a;
     search_subject := search_subject a;
     current_user := current_user a;
     cart := cart a;
     stacked_widget := stacked_widget a;
     search_input := search_input a;
     sort_combo := v;
     search_results_label := search_results_label a;
     search_results_list_shown := search_results_list_shown a;
     search_results_list := search_results_list a;
     restaurant_list := restaurant_list a;
     cart_list := cart_list a;
     total_label := total_label a;
     order_summary := order_summary a;
     delivery_address := delivery_address a;
     welcome_label := welcome_label a;
     message_boxes := message_boxes a |}.

Definition set_search_results_label (v : bool) (a : App) : App :=
  {| db := db a;
     search_subject := search_subject a;
     current_user := current_user a;
     cart := cart a;
     stacked_widget := stacked_widget a;
     search_input := search_input a;
     sort_combo := sort_combo a;
     search_results_label := v;
     search_results_list_shown := search_results_list_shown a;
     search_results_list := search_results_list a;
     restaurant_list := restaurant_list a;
     cart_list := cart_list a;
     total_label := total_label a;
     order_summary := order_summary a;
     delivery_address := delivery_address a;
     welcome_label := welcome_label a;
     message_boxes := message_boxes a |}.

Definition set_search_results_list_shown (v : bool) (a : App) : App :=
  {| db := db a;
     search_subject := search_subject a;
     current_user := current_user a;
     cart := cart a;
     stacked_widget := stacked_widget a;
     search_input := search_input a;
     sort_combo := sort_combo a;
     search_results_label := search_results_label a;
     search_results_list_shown := v;
     search_results_list := search_results_list a;
     restaurant_list := restaurant_list a;
     cart_list := cart_list a;
     total_label := total_label a;
     order_summary := order_summary a;
     delivery_address := delivery_address a;
     welcome_label := welcome_label a;
     message_boxes := message_boxes a |}.

Definition set_search_results_list (v : list list_item) (a : App) : App :=
  {| db := db a;
     search_subject := search_subject a;
     current_user := current_user a;
     cart := cart a;
     stacked_widget := stacked_widget a;
     search_input := search_input a;
     sort_combo := sort_combo a;
     search_results_label := search_results_label a;
     search_results_list_shown := search_results_list_shown a;
     search_results_list := v;
     restaurant_list := restaurant_list a;
     cart_list := cart_list a;
     total_label := total_label a;
     order_summary := order_summary a;
     delivery_address := delivery_address a;
     welcome_label := welcome_label a;
     message_boxes := message_boxes a |}.

Definition set_restaurant_list (v : list list_item) (a : App) : App :=
  {| db := db a;
     search_subject := search_subject a;
     current_user := current_user a;
     cart := cart a;
     stacked_widget := stacked_widget a;
     search_input := search_input a;
     sort_combo := sort_combo a;
     search_results_label := search_results_label a;
     search_results_list_shown := search_results_list_shown a;
     search_results_list := search_results_list a;
     restaurant_list := v;
     cart_list := cart_list a;
     total_label := total_label a;
     order_summary := order_summary a;
     delivery_address := delivery_address a;
     welcome_label := welcome_label a;
     message_boxes := message_boxes a |}.

Definition set_cart_list (v : list string) (a : App) : App :=
  {| db := db a;
     search_subject := search_subject a;
     current_user := current_user a;
     cart := cart a;
     stacked_widget := stacked_widget a;
     search_input := search_input a;
     sort_combo := sort_combo a;
     search_results_label := search_results_label a;
     search_results_list_shown := search_results_list_shown a;
     search_results_list := search_results_list a;
     restaurant_list := restaurant_list a;
     cart_list := v;
     total_label := total_label a;
     order_summary := order_summary a;
     delivery_address := delivery_address a;
     welcome_label := welcome_label a;
     message_boxes := message_boxes a |}.

Definition set_total_label (v : string) (a : App) : App :=
  {| db := db a;
     search_subject := search_subject a;
     current_user := current_user a;
     cart := cart a;
     stacked_widget := stacked_widget a;
     search_input := search_input a;
     sort_combo := sort_combo a;
     search_results_label := search_results_label a;
     search_results_list_shown := search_results_list_shown a;
     search_results_list := search_results_list a;
     restaurant_list := restaurant_list a;
     cart_list := cart_list a;
     total_label := v;
     order_summary := order_summary a;
     delivery_address := delivery_address a;
     welcome_label := welcome_label a;
     message_boxes := message_boxes a |}.

Definition set_order_summary (v : string) (a : App) : App :=
  {| db := db a;
     search_subject := search_subject a;
     current_user := current_user a;
     cart := cart a;
     stacked_widget := stacked_widget a;
     search_input := search_input a;
     sort_combo := sort_combo a;
     search_results_label := search_results_label a;
     search_results_list_shown := search_results_list_shown a;
     search_results_list := search_results_list a;
     restaurant_list := restaurant_list a;
     cart_list := cart_list a;
     total_label := total_label a;
     order_summary := v;
     delivery_address := delivery_address a;
     welcome_label := welcome_label a;
     message_boxes := message_boxes a |}.

Definition set_delivery_address (v : string) (a : App) : App :=
  {| db := db a;
     search_subject := search_subject a;
     current_user := current_user a;
     cart := cart a;
     stacked_widget := stacked_widget a;
     search_input := search_input a;
     sort_combo := sort_combo a;
     search_results_label := search_results_label a;
     search_results_list_shown := search_results_list_shown a;
     search_results_list := search_results_list a;
     restaurant_list := restaurant_list a;
     cart_list := cart_list a;
     total_label := total_label a;
     order_summary := order_summary a;
     delivery_address := v;
     welcome_label := welcome_label a;
     message_boxes := message_boxes a |}.

Definition set_welcome_label (v : string) (a : App) : App :=
  {| db := db a;
     search_subject := search_subject a;
     current_user := current_user a;
     cart := cart a;
     stacked_widget := stacked_widget a;
     search_input := search_input a;
     sort_combo := sort_combo a;
     search_results_label := search_results_label a;
     search_results_list_shown := search_results_list_shown a;
     search_results_list := search_results_list a;
     restaurant_list := restaurant_list a;
     cart_list := cart_list a;
     total_label := total_label a;
     order_summary := order_summary a;
     delivery_address := delivery_address a;
     welcome_label := v;
     message_boxes := message_boxes a |}.

Definition set_message_boxes (v : list message_box) (a : App) : App :=
  {| db := db a;
     search_subject := search_subject a;
     current_user := current_user a;
     cart := cart a;
     stacked_widget := stacked_widget a;
     search_input := search_input a;
     sort_combo := sort_combo a;
     search_results_label := search_results_label a;
     search_results_list_shown := search_results_list_shown a;
     search_results_list := search_results_list a;
     restaurant_list := restaurant_list a;
     cart_list := cart_list a;
     total_label := total_label a;
     order_summary := order_summary a;
     delivery_address := delivery_address a;
     welcome_label := welcome_label a;
     message_boxes := v |}.

(** ** The handlers of FoodDeliveryApp

    Three operations are taken as given:
    - [lower] is [str.lower];
    - [num_add] is [+] on Python numbers, exact on integers and rounded
      on floats;
    - [format_2f] is the format specification [:.2f]. *)

Definition nl : string := String "010"%char "".

(** [sub in s] on strings *)
Fixpoint contains (sub s : string) : bool :=
  String.prefix sub s
  || match s with
     | String _ rest => contains sub rest
     | EmptyString => false
     end.

Definition message_box_exec (m : message_box) (a : App) : App :=
  set_message_boxes (message_boxes a ++ [m]) a.

Definition addItem_search (i : list_item) (a : App) : App :=
  set_search_results_list (search_results_list a ++ [i]) a.

(** [FoodDeliveryApp.update], the observer callback *)
Definition update (results : list search_result) (a : App) : App :=
  let a := set_search_results_label true a in
  let a := set_search_results_list_shown true a in
  let a := set_search_results_list [] a in
  match results with
  | [] => addItem_search (text_item "Ничего не найдено") a
  | _ =>
      fold_left
        (fun a item =>
           match item with
           | restaurant_result id _ _ _ => addItem_search (restaurant_item id) a
           | dish_result rid _ _ _ _ => addItem_search (dish_item rid) a
           end)
        results a
  end.

Definition window_update (o : window) (results : list search_result)
    (a : App) : App :=
  match o with the_window => update results a end.

(** [FoodDeliveryApp.__init__], the part before the pages are built:
    a fresh subject with the window attached, nobody logged in, an
    empty cart. *)
Definition search_subject_init : SearchSubject window (list search_result) :=
  {| subject := attach the_window Subject_init; results := [] |}.

Section Handlers.
Variable lower : string → string.
Variable num_add : Q → Q → Q.
Variable format_2f : Q → string.

(** The body of the loop over one restaurant in [handle_search]. *)
Definition search_restaurant (query : string)
    (results : list search_result) (r : restaurant) : list search_result :=
  let results :=
    if contains query (lower (restaurant_name r)) then
      results ++ [restaurant_result (restaurant_id r) (restaurant_name r)
                    (restaurant_description r)
                    (match restaurant_rating r with
                     | Some x => x
                     | None => 4.5%Q
                     end)]
    else results in
  fold_left
    (fun results item =>
       if contains query (lower (item_name item)) then
         results ++ [dish_result (restaurant_id r) (restaurant_name r)
                       (item_name item) (item_description item)
                       (item_price item)]
       else results)
    (restaurant_menu r) results.

Definition handle_search (a : App) : App :=
  let query := lower (search_input a) in
  if bool_decide (query = "") then
    let a := set_search_results_label false a in
    let a := set_search_results_list_shown false a in
    set_search_results_list [] a
  else
    let restaurants := load_restaurants_file (db a) in
    let results := fold_left (search_restaurant query) restaurants [] in
    let '(ss, a) := update_results window_update results (search_subject a) a in
    set_search_subject ss a.

(** The user edits the search box: [textChanged] runs [handle_search]. *)
Definition type_search (text : string) (a : App) : App :=
  handle_search (set_search_input text a).

(** [FoodDeliveryApp.load_restaurants] *)
Definition load_restaurants (a : App) : App :=
  let a := set_restaurant_list [] a in
  let restaurants := load_restaurants_file (db a) in
  let context :=
    if Nat.eqb (sort_combo a) 0 then mkSortContext SortByName
    else mkSortContext SortByRating in
  let sorted_restaurants := execute_sort context restaurants in
  fold_left
    (fun a r =>
       set_restaurant_list
         (restaurant_list a ++ [restaurant_item (restaurant_id r)]) a)
    sorted_restaurants a.

(** [self.search_input.clear()]: when the text changes, [textChanged]
    runs [handle_search]. *)
Definition search_input_clear (a : App) : App :=
  if bool_decide (search_input a = "") then a
  else handle_search (set_search_input "" a).

Definition show_main (a : App) : App :=
  match current_user a with
  | Some u =>
      let a :=
        set_welcome_label
          ("Добро пожаловать, " +:+ first_name (user_fields u) +:+ "!") a in
      let a := load_restaurants a in
      let a := search_input_clear a in
      let a := set_search_results_label false a in
      let a := set_search_results_list_shown false a in
      set_stacked_widget main_page a
  | None => a
  end.

Definition show_login (a : App) : App := set_stacked_widget login_page a.

Definition update_cart (a : App) : App :=
  let a := set_cart_list [] a in
  let '(a, total) :=
    fold_left
      (fun '(a, total) item =>
         (set_cart_list
            (cart_list a ++
               [line_name item +:+ " - " +:+ format_2f (line_price item)
                +:+ " ₽" +:+ nl +:+ "Ресторан: " +:+ line_restaurant item]) a,
          num_add total (line_price item)))
      (cart a) (a, 0%Q) in
  set_total_label ("Итого: " +:+ format_2f total +:+ " ₽") a.

Definition add_to_cart (data : cart_line) (a : App) : App :=
  let a := set_cart (cart a ++ [data]) a in
  let a :=
    message_box_exec
      (information "Добавлено в корзину"
         (line_name data +:+ " добавлено в вашу корзину!")) a in
  update_cart a.

Definition show_cart (a : App) : App :=
  set_stacked_widget cart_page (update_cart a).

Definition show_order_confirmation (a : App) : res App :=
  match cart a with
  | [] =>
      Ok (message_box_exec (warning "Корзина пуста" "Ваша корзина пуста!") a)
  | _ =>
      let '(summary, total) :=
        fold_left
          (fun '(summary, total) item =>
             (summary +:+ "• " +:+ line_name item +:+ " - "
                +:+ format_2f (line_price item) +:+ " ₽" +:+ nl,
              num_add total (line_price item)))
          (cart a) ("", 0%Q) in
      let summary := summary +:+ nl +:+ "Итого: " +:+ format_2f total +:+ " ₽" in
      let a := set_order_summary summary a in
      match current_user a with
      | None => Raise AttributeError
      | Some u =>
          let a := set_delivery_address (address (user_fields u)) a in
          Ok (set_stacked_widget order_confirmation_page a)
      end
  end.

(** [confirm_order]; [payment_method] is the current text of the
    payment combo box and [now] the formatted clock reading. *)
Definition confirm_order (payment_method now : string) (a : App) : res App :=
  match current_user a with
  | None => Raise AttributeError
  | Some u =>
      let order : order :=
        <["status" := VStr "В обработке"]>
        (<["payment_method" := VStr payment_method]>
        (<["address" := VStr (address (user_fields u))]>
        (<["items" := VItems (cart a)]>
        (<["date" := VStr now]>
        (<["user" := VStr (login (user_fields u))]> ∅))))) in
      let orders := load_orders (db a) in
      let orders := orders ++ [order] in
      let a := set_db (save_orders orders (db a)) a in
      let a := set_cart [] a in
      let a :=
        message_box_exec
          (information "Заказ подтвержден"
             ("Ваш заказ успешно оформлен!" +:+ nl +:+ "Способ оплаты: "
              +:+ payment_method)) a in
      Ok (show_main a)
  end.

Definition logout (a : App) : App :=
  let a := set_current_user None a in
  let a := set_cart [] a in
  show_login a.

End Handlers.

(** ** UserBuilder *)

Definition UserBuilder_init : dict :=
  <["address" := ""]>
  (<["repeat_password" := ""]>
  (<["password" := ""]>
  (<["login" := ""]>
  (<["email" := ""]>
  (<["birth_date" := ""]>
  (<["last_name" := ""]>
  (<["first_name" := ""]> ∅))))))).

Definition set_first_name (v : string) (user_data : dict) : dict :=
  <["first_name" := v]> user_data.
Definition set_last_name (v : string) (user_data : dict) : dict :=
  <["last_name" := v]> user_data.
Definition set_birth_date (v : string) (user_data : dict) : dict :=
  <["birth_date" := v]> user_data.
Definition set_email (v : string) (user_data : dict) : dict :=
  <["email" := v]> user_data.
Definition set_login (v : string) (user_data : dict) : dict :=
  <["login" := v]> user_data.
Definition set_password (v : string) (user_data : dict) : dict :=
  <["password" := v]> user_data.
Definition set_repeat_password (v : string) (user_data : dict) : dict :=
  <["repeat_password" := v]> user_data.
Definition set_address (v : string) (user_data : dict) : dict :=
  <["address" := v]> user_data.

Definition UserBuilder_build (user_data : dict) : dict := user_data.

(** One call of a setter of the builder. *)
Inductive builder_call : Type :=
| call_set_first_name (v : string)
| call_set_last_name (v : string)
| call_set_birth_date (v : string)
| call_set_email (v : string)
| call_set_login (v : string)
| call_set_password (v : string)
| call_set_repeat_password (v : string)
| call_set_address (v : string).

Definition run_builder_call (c : builder_call) (user_data : dict) : dict :=
  match c with
  | call_set_first_name v => set_first_name v user_data
  | call_set_last_name v => set_last_name v user_data
  | call_set_birth_date v => set_birth_date v user_data
  | call_set_email v => set_email v user_data
  | call_set_login v => set_login v user_data
  | call_set_password v => set_password v user_data
  | call_set_repeat_password v => set_repeat_password v user_data
  | call_set_address v => set_address v user_data
  end.

(** [UserBuilder().set_...(...). ... .build()] *)
Definition run_builder (calls : list builder_call) : dict :=
  UserBuilder_build (fold_left (λ d c, run_builder_call c d) calls UserBuilder_init).

(** ** The builder's dict is shared

    [build] returns [self.user_data] itself, not a copy, and
    [register_user] pops ["repeat_password"] from the dict it is given
    and writes the role into it, right before it appends and saves.
    [register_user_arg] is that dict when [register_user] is done. *)
Definition register_user_arg (user_data : dict) (db : Database) : dict :=
  let users := load_users db in
  match any_login_equal users user_data with
  | Raise _ => user_data
  | Ok true => user_data
  | Ok false =>
    match getitem user_data "password" with
    | Raise _ => user_data
    | Ok pw =>
      match getitem user_data "repeat_password" with
      | Raise _ => user_data
      | Ok repeated =>
        if negb (String.eqb pw repeated) then user_data
        else if negb (re_match_password pw) then user_data
        else
          let user_data := delete "repeat_password" user_data in
          <["role" := "user"]> user_data
      end
    end
  end.

(** A builder that is kept: the setters of [calls] run on its dict and
    [build] hands that dict to [register_user]. The outcome and the
    database afterwards, and the builder's dict afterwards. *)
Definition register_built (calls : list builder_call) (builder : dict)
    (db : Database) : (res (bool * string) * Database) * dict :=
  let user_data :=
    UserBuilder_build
      (fold_left (λ d c, run_builder_call c d) calls builder) in
  (register_user user_data db, register_user_arg user_data db).

(** ** Login and registration handlers

    The texts of the input fields at the moment of the click are
    arguments. [strip] is [str.strip]. *)

Record register_form : Type := mkRegisterForm {
  first_name_input : string;
  last_name_input : string;
  birth_date_input : string;
  email_input : string;
  login_input_reg : string;
  password_input_reg : string;
  repeat_password_input : string;
  address_input : string;
}.

Definition required_fields : list (string * string) :=
  [ ("first_name", "Имя");
    ("last_name", "Фамилия");
    ("email", "Email");
    ("login", "Логин");
    ("password", "Пароль");
    ("repeat_password", "Повторите пароль");
    ("address", "Адрес доставки") ].

(** [sep.join(l)] *)
Fixpoint join (sep : string) (l : list string) : string :=
  match l with
  | [] => ""
  | [x] => x
  | x :: rest => x +:+ sep +:+ join sep rest
  end.

Definition show_register (a : App) : App := set_stacked_widget register_page a.

Definition show_admin_page (a : App) : App := set_stacked_widget admin_page a.

Section Forms.
Variable lower : string → string.
Variable strip : string → string.

(** The loop over [required_fields] in [handle_register]. *)
Fixpoint collect_empty_fields (fields : list (string * string))
    (user_data : dict) (empty_fields : list string) : res (list string) :=
  match fields with
  | [] => Ok empty_fields
  | (field, field_name) :: rest =>
      let! v := getitem user_data field in
      if bool_decide (strip v = "") then
        collect_empty_fields rest user_data (empty_fields ++ [field_name])
      else collect_empty_fields rest user_data empty_fields
  end.

Definition handle_register (f : register_form) (a : App) : res App :=
  let user_data :=
    UserBuilder_build
      (set_address (address_input f)
      (set_repeat_password (repeat_password_input f)
      (set_password (password_input_reg f)
      (set_login (login_input_reg f)
      (set_email (email_input f)
      (set_birth_date (birth_date_input f)
      (set_last_name (last_name_input f)
      (set_first_name (first_name_input f) UserBuilder_init)))))))) in
  let! empty_fields := collect_empty_fields required_fields user_data [] in
  match empty_fields with
  | _ :: _ =>
      Ok (message_box_exec
            (warning "Ошибка регистрации"
               ("Пожалуйста, заполните следующие поля:" +:+ nl
                +:+ join ", " empty_fields)) a)
  | [] =>
      match register_user user_data (db a) with
      | (Raise e, _) => Raise e
      | (Ok (success, message), db') =>
          let a := set_db db' a in
          if success then
            Ok (show_login (message_box_exec (information "Успешно" message) a))
          else
            Ok (message_box_exec (warning "Ошибка регистрации" message) a)
      end
  end.

Definition handle_login (lg pw : string) (a : App) : res App :=
  match (login_user lg pw (db a)).1 with
  | Raise e => Raise e
  | Ok (Some u) =>
      let a := set_current_user (Some u) a in
      if String.eqb (role (user_fields u)) "admin" then Ok (show_admin_page a)
      else Ok (show_main lower a)
  | Ok None =>
      Ok (message_box_exec
            (warning "Ошибка входа" "Неверный логин или пароль") a)
  end.
End Forms.

(** ** Restaurant and MenuItem objects, the restaurant page *)

Record MenuItem : Type := mkMenuItemObject {
  menu_id : Z;
  menu_name : string;
  menu_description : string;
  menu_price : Q;
  menu_category : string;
}.

Record Restaurant : Type := mkRestaurantObject {
  rest_id : Z;
  rest_name : string;
  rest_description : string;
  rest_rating : Q;
  rest_menu : list MenuItem;
}.

(** [MenuItem.__init__] *)
Definition MenuItem_init (data : menu_item) : MenuItem :=
  {| menu_id := item_id data;
     menu_name := item_name data;
     menu_description := item_description data;
     menu_price := item_price data;
     menu_category :=
       match item_category data with
       | Some c => c
       | None => "Основное блюдо"
       end |}.

(** [Restaurant.__init__] *)
Definition Restaurant_init (data : restaurant) : Restaurant :=
  {| rest_id := restaurant_id data;
     rest_name := restaurant_name data;
     rest_description := restaurant_description data;
     rest_rating :=
       match restaurant_rating data with
       | Some x => x
       | None => 4.5%Q
       end;
     rest_menu := map MenuItem_init (restaurant_menu data) |}.

(** [if item.category not in categories: categories[item.category] = []]
    then [categories[item.category].append(item)]. The dict keeps its
    keys in the order of their first insertion: an association list. *)
Fixpoint categories_append (item : MenuItem)
    (categories : list (string * list MenuItem))
  : list (string * list MenuItem) :=
  match categories with
  | [] => [(menu_category item, [item])]
  | (category, items) :: rest =>
      if String.eqb category (menu_category item)
      then (category, items ++ [item]) :: rest
      else (category, items) :: categories_append item rest
  end.

(** The window with the attributes of the restaurant page; [menu_tabs]
    holds, per tab, its label and the user data of its rows. *)
Record Window : Type := mkWindow {
  app : App;
  current_restaurant : option Restaurant;
  restaurant_title : string;
  menu_tabs : list (string * list cart_line);
}.

Definition set_app (v : App) (w : Window) : Window :=
  {| app := v;
     current_restaurant := current_restaurant w;
     restaurant_title := restaurant_title w;
     menu_tabs := menu_tabs w |}.

(** [next((r for r in restaurants if r['id'] == restaurant_id), None)] *)
Fixpoint next_with_id (restaurants : list restaurant) (id : Z)
  : option restaurant :=
  match restaurants with
  | [] => None
  | r :: rest =>
      if Z.eqb (restaurant_id r) id then Some r else next_with_id rest id
  end.

(** The user data of a menu row. *)
Definition menu_row (r : Restaurant) (item : MenuItem) : cart_line :=
  {| line_id := menu_id item;
     line_name := menu_name item;
     line_price := menu_price item;
     line_restaurant := rest_name r |}.

Definition show_restaurant_by_id (id : Z) (w : Window) : Window :=
  let restaurants := load_restaurants_file (db (app w)) in
  match next_with_id restaurants id with
  | Some restaurant_data =>
      let r := Restaurant_init restaurant_data in
      let categories :=
        fold_left (λ categories item, categories_append item categories)
                  (rest_menu r) [] in
      {| app := set_stacked_widget restaurant_page (app w);
         current_restaurant := Some r;
         restaurant_title := rest_name r;
         menu_tabs :=
           map (λ '(category, items), (category, map (menu_row r) items))
               categories |}
  | None => w
  end.

(** What can go wrong in a handler: an exception of the business layer,
    or subscripting [None]. *)
Inductive fault : Type :=
| core_fault (e : exn)
| TypeError.

Inductive run : Type :=
| Running (w : Window)
| Crashed (f : fault).

Definition run_app (w : Window) (r : res App) : run :=
  match r with
  | Ok a => Running (set_app a w)
  | Raise e => Crashed (core_fault e)
  end.

(** The user data of a row added from a plain string is [None]. *)
Definition handle_search_result_click (item : list_item) (w : Window) : run :=
  match item with
  | text_item _ => Crashed TypeError
  | restaurant_item id => Running (show_restaurant_by_id id w)
  | dish_item rid => Running (show_restaurant_by_id rid w)
  end.

Definition show_restaurant (item : list_item) (w : Window) : run :=
  match item with
  | text_item _ => Crashed TypeError
  | restaurant_item id => Running (show_restaurant_by_id id w)
  | dish_item _ => Crashed (core_fault (KeyError "id"))
  end.

(** ** Signals

    What the user can do, one constructor per [connect] of the window.
    A widget takes input only while its page is the current page of the
    stacked widget; the texts typed and the row clicked come with the
    event. *)

Inductive payment : Type :=
| cash_on_delivery
| bank_card.

(** The items of [payment_combo]. *)
Definition payment_text (p : payment) : string :=
  match p with
  | cash_on_delivery => "Наличными при получении"
  | bank_card => "Банковская карта"
  end.

Inductive event : Type :=
| login_btn_clicked (login_text password_text : string)
| create_account_clicked
| register_btn_clicked (f : register_form)
| register_back_clicked
| search_input_edited (text : string)
| search_btn_clicked
| sort_combo_changed (index : nat)
| search_result_clicked (row : nat)
| restaurant_clicked (row : nat)
| cart_btn_clicked
| logout_btn_clicked
| back_to_main_clicked
| menu_row_double_clicked (tab row : nat)
| checkout_btn_clicked
| confirm_back_clicked
| confirm_btn_clicked (p : payment) (now : string)
| admin_back_clicked.

Section Signals.
Variable lower : string → string.
Variable strip : string → string.
Variable num_add : Q → Q → Q.
Variable format_2f : Q → string.

Definition step (e : event) (w : Window) : run :=
  let a := app w in
  match stacked_widget a, e with
  | login_page, login_btn_clicked lg pw =>
      run_app w (handle_login lower lg pw a)
  | login_page, create_account_clicked =>
      Running (set_app (show_register a) w)
  | register_page, register_btn_clicked f =>
      run_app w (handle_register strip f a)
  | register_page, register_back_clicked =>
      Running (set_app (show_login a) w)
  | main_page, search_input_edited text =>
      if bool_decide (text = search_input a) then Running w
      else Running (set_app (type_search lower text a) w)
  | main_page, search_btn_clicked =>
      Running (set_app (handle_search lower a) w)
  | main_page, sort_combo_changed index =>
      if bool_decide (index < 2 ∧ index ≠ sort_combo a) then
        Running (set_app (load_restaurants (set_sort_combo index a)) w)
      else Running w
  | main_page, search_result_clicked row =>
      if search_results_list_shown a then
        match search_results_list a !! row with
        | Some item => handle_search_result_click item w
        | None => Running w
        end
      else Running w
  | main_page, restaurant_clicked row =>
      match restaurant_list a !! row with
      | Some item => show_restaurant item w
      | None => Running w
      end
  | main_page, cart_btn_clicked
  | restaurant_page, cart_btn_clicked =>
      Running (set_app (show_cart num_add format_2f a) w)
  | main_page, logout_btn_clicked =>
      Running (set_app (logout a) w)
  | restaurant_page, back_to_main_clicked
  | cart_page, back_to_main_clicked =>
      Running (set_app (show_main lower a) w)
  | restaurant_page, menu_row_double_clicked tab row =>
      match menu_tabs w !! tab with
      | Some (_, rows) =>
          match rows !! row with
          | Some data => Running (set_app (add_to_cart num_add format_2f data a) w)
          | None => Running w
          end
      | None => Running w
      end
  | cart_page, checkout_btn_clicked =>
      run_app w (show_order_confirmation num_add format_2f a)
  | order_confirmation_page, confirm_back_clicked =>
      Running (set_app (show_cart num_add format_2f a) w)
  | order_confirmation_page, confirm_btn_clicked p now =>
      run_app w (confirm_order lower (payment_text p) now a)
  | admin_page, admin_back_clicked =>
      Running (set_app (logout a) w)
  | _, _ => Running w
  end.

Fixpoint run_events (events : list event) (w : Window) : run :=
  match events with
  | [] => Running w
  | e :: rest =>
      match step e w with
      | Running w' => run_events rest w'
      | Crashed f => Crashed f
      end
  end.
End Signals.

(** ** Vocabulary of the statements *)

(** The logins of the stored accounts, in order. *)
Definition logins (users : list dict) : list string :=
  omap (λ u : dict, u !! "login") users.

Definition logins_distinct (users : list dict) : Prop := NoDup (logins users).

Definition has_login (u : dict) : Prop := is_Some (u !! "login").

(** The record [register_user] appends for a candidate. *)
Definition stored_record (user_data : dict) : dict :=
  <["role" := "user"]> (delete "repeat_password" user_data).

(** The keys every account carries ([AbstractUser.__init__] subscripts
    each of them). *)
Definition account_keys : list string :=
  ["first_name"; "last_name"; "birth_date"; "email"; "login"; "password";
   "address"].

Definition well_formed_account (u : dict) : Prop :=
  Forall (λ k, is_Some (u !! k)) account_keys.

(** The stored account has exactly this login and this password. *)
Definition matches (lg pw : string) (u : dict) : Prop :=
  u !! "login" = Some lg ∧ u !! "password" = Some pw.

(** The object carries the fields of the stored record. *)
Definition holds_fields (u : dict) (f : AbstractUser) : Prop :=
  u !! "first_name" = Some (first_name f) ∧
  u !! "last_name" = Some (last_name f) ∧
  u !! "birth_date" = Some (birth_date f) ∧
  u !! "email" = Some (email f) ∧
  u !! "login" = Some (login f) ∧
  u !! "password" = Some (password f) ∧
  u !! "address" = Some (address f) ∧
  role f = default "user" (u !! "role").

Definition is_admin (acc : user) : bool :=
  match acc with
  | AdminUser _ => true
  | RegularUser _ => false
  end.

(** A registration form as [UserBuilder.build] returns it. *)
Definition build (first last born mail lg pw repeated addr : string) : dict :=
  <["address" := addr]>
  (<["repeat_password" := repeated]>
  (<["password" := pw]>
  (<["login" := lg]>
  (<["email" := mail]>
  (<["birth_date" := born]>
  (<["last_name" := last]>
  (<["first_name" := first]> ∅))))))).

Definition empty_database : Database :=
  {| users_file := []; restaurants_file := []; orders_file := [] |}.

(** The observers named by the [attach] calls of a history, in call
    order, and those named by its [detach] calls. *)
Fixpoint attached {observer} (calls : list (subject_call observer))
  : list observer :=
  match calls with
  | [] => []
  | Attach o :: rest => o :: attached rest
  | Detach _ :: rest => attached rest
  end.

Fixpoint detached {observer} (calls : list (subject_call observer))
  : list observer :=
  match calls with
  | [] => []
  | Attach _ :: rest => detached rest
  | Detach o :: rest => o :: detached rest
  end.

(** How many times [o] occurs in a list. *)
Definition times {observer} `{EqDecision observer}
    (o : observer) (l : list observer) : nat :=
  length (filter (λ y, y = o) l).

Definition sample_calls : list (subject_call nat) :=
  [Attach 1; Attach 2; Attach 1; Detach 1; Attach 3].

(** [x] may stand before [y] in a list sorted by [key]: the key of [y]
    is not below the key of [x]. *)
Definition not_after {A K : Type} (key : A → K) (lt : K → K → bool)
    (x y : A) : Prop :=
  lt (key y) (key x) = false.

Global Instance Qeq_decision (x y : Q) : Decision (x == y)%Q := Qeq_dec x y.

(** The rating a restaurant is ordered by: its own, 4.0 without one. *)
Definition ordering_rating (x : restaurant) : Q :=
  default 4.0%Q (restaurant_rating x).

Definition sample_restaurants : list restaurant :=
  [ mkRestaurant 1 "Sushi Bar" "Rolls" (Some 4.5%Q) [];
    mkRestaurant 2 "Burger House" "Burgers" None [];
    mkRestaurant 3 "Pizza Place" "Pizza" (Some 4.9%Q) [];
    mkRestaurant 4 "Cafe" "Coffee" (Some 4%Q) [] ].

(** [str.lower] on ASCII text, for the closed statements. *)
Definition lower_char (c : Ascii.ascii) : Ascii.ascii :=
  let n := Ascii.nat_of_ascii c in
  if (65 <=? n)%nat && (n <=? 90)%nat then Ascii.ascii_of_nat (n + 32) else c.

Fixpoint lower_ascii (s : string) : string :=
  match s with
  | String c rest => String (lower_char c) (lower_ascii rest)
  | EmptyString => EmptyString
  end.

(** [str.lower] on text of ASCII characters and unaccented Greek
    letters, in UTF-8. Letters are lowered one by one, except the
    capital sigma: after a letter and with no letter following, it
    becomes the final sigma (Unicode's Final_Sigma rule, which
    [str.lower] follows). *)
Definition ascii_letter (c : Ascii.ascii) : bool :=
  let n := Ascii.nat_of_ascii c in
  ((65 <=? n)%nat && (n <=? 90)%nat) || ((97 <=? n)%nat && (n <=? 122)%nat).

(** The two bytes of a capital from alpha (CE 91) to omega (CE A9). *)
Definition greek_capital (c d : Ascii.ascii) : bool :=
  let n := Ascii.nat_of_ascii d in
  (Ascii.nat_of_ascii c =? 206)%nat
  && (145 <=? n)%nat && (n <=? 169)%nat && negb (n =? 162)%nat.

(** The two bytes of a small letter from alpha (CE B1) to omega (CF 89). *)
Definition greek_small (c d : Ascii.ascii) : bool :=
  let n := Ascii.nat_of_ascii d in
  ((Ascii.nat_of_ascii c =? 206)%nat && (177 <=? n)%nat && (n <=? 191)%nat)
  || ((Ascii.nat_of_ascii c =? 207)%nat && (128 <=? n)%nat && (n <=? 137)%nat).

Definition starts_with_letter (s : string) : bool :=
  match s with
  | String c rest =>
      ascii_letter c
      || match rest with
         | String d _ => greek_capital c d || greek_small c d
         | EmptyString => false
         end
  | EmptyString => false
  end.

(** The small letter of a capital other than sigma: the code point plus
    32, which from pi on has the lead byte CF. *)
Definition lower_greek_capital (d : Ascii.ascii) : string :=
  let n := Ascii.nat_of_ascii d in
  if (n <=? 159)%nat
  then String (Ascii.ascii_of_nat 206) (String (Ascii.ascii_of_nat (n + 32)) "")
  else String (Ascii.ascii_of_nat 207) (String (Ascii.ascii_of_nat (n - 32)) "").

Fixpoint lower_greek_from (after_letter : bool) (s : string) : string :=
  match s with
  | EmptyString => EmptyString
  | String c rest =>
      match rest with
      | String d rest' =>
          if greek_capital c d then
            (if (Ascii.nat_of_ascii d =? 163)%nat then
               if after_letter && negb (starts_with_letter rest')
               then "ς" else "σ"
             else lower_greek_capital d)
            +:+ lower_greek_from true rest'
          else if greek_small c d then
            String c (String d (lower_greek_from true rest'))
          else String (lower_char c) (lower_greek_from (ascii_letter c) rest)
      | EmptyString => String (lower_char c) EmptyString
      end
  end.

Definition lower_greek (s : string) : string := lower_greek_from false s.

(** A blank text: nothing but white space, possibly nothing at all. *)
Fixpoint is_blank (s : string) : bool :=
  match s with
  | String c rest => Ascii.is_space c && is_blank rest
  | EmptyString => true
  end.

(** The lower-case form of the name contains the lower-case form of
    the query. *)
Definition matches_query (lower : string → string) (query name : string)
  : bool :=
  contains (lower query) (lower name).

Definition restaurant_hit (r : restaurant) : search_result :=
  restaurant_result (restaurant_id r) (restaurant_name r)
    (restaurant_description r) (default 4.5%Q (restaurant_rating r)).

Definition dish_hit (r : restaurant) (item : menu_item) : search_result :=
  dish_result (restaurant_id r) (restaurant_name r) (item_name item)
    (item_description item) (item_price item).

(** The search as the specification words it: restaurant by restaurant,
    one restaurant result if its name matches, then one dish result for
    every menu item whose name matches, in menu order. *)
Definition search_spec (lower : string → string) (query : string)
    (restaurants : list restaurant) : list search_result :=
  flat_map
    (λ r,
       (if matches_query lower query (restaurant_name r)
        then [restaurant_hit r] else [])
       ++ map (dish_hit r)
            (filter (λ item, matches_query lower query (item_name item) = true)
                    (restaurant_menu r)))
    restaurants.

(** A query text clears the result list. *)
Definition clears_results (lower : string → string) (text : string) : Prop :=
  ∀ a : App, search_results_list (type_search lower text a) = [].

(** The window right after [__init__], on a given database. *)
Definition new_app (d : Database) : App :=
  {| db := d;
     search_subject := search_subject_init;
     current_user := None;
     cart := [];
     stacked_widget := login_page;
     search_input := "";
     sort_combo := 0;
     search_results_label := false;
     search_results_list_shown := false;
     search_results_list := [];
     restaurant_list := [];
     cart_list := [];
     total_label := "Итого: 0.00 ₽";
     order_summary := "";
     delivery_address := "";
     welcome_label := "";
     message_boxes := [] |}.

Definition spaced_catalog : Database :=
  {| users_file := [];
     restaurants_file :=
       [ mkRestaurant 5 "Wok   Box" "Noodles" (Some 4.2%Q)
           [ mkMenuItem 51 "Pad Thai" "Rice noodles" 320%Q None ] ];
     orders_file := [] |}.

(** A restaurant with a Greek name in capitals, the sigma inside a
    word. *)
Definition greek_catalog : Database :=
  {| users_file := [];
     restaurants_file :=
       [ mkRestaurant 7 "ΟΔΟΣΗΜΑ" "Souvlaki" (Some 4.6%Q) [] ];
     orders_file := [] |}.

Definition pizza_catalog : Database :=
  {| users_file := [];
     restaurants_file :=
       [ mkRestaurant 1 "Pizza Place" "Wood oven" None
           [ mkMenuItem 11 "Pizza Margherita" "Tomato, basil" 450%Q None;
             mkMenuItem 12 "Tiramisu" "Dessert" 250%Q (Some "Dessert") ];
         mkRestaurant 2 "Trattoria" "Pasta" (Some 4.7%Q)
           [ mkMenuItem 21 "White pizza" "No tomato" 480%Q None ] ];
     orders_file := [] |}.

(** What the cart workflow must leave alone when the window only
    redraws: the database, the session, the cart, the dialogs shown,
    the order summary and the page. *)
Definition same_session (a b : App) : Prop :=
  db a = db b ∧ current_user a = current_user b ∧ cart a = cart b ∧
  message_boxes a = message_boxes b ∧ order_summary a = order_summary b ∧
  stacked_widget a = stacked_widget b.

(** The running total of [update_cart] and [show_order_confirmation]. *)
Definition cart_total (num_add : Q → Q → Q) (lines : list cart_line) : Q :=
  fold_left (λ total item, num_add total (line_price item)) lines 0%Q.

Definition cart_is_empty_warning : message_box :=
  warning "Корзина пуста" "Ваша корзина пуста!".

(** [:.2f] on an exact value: rounded to the nearest hundredth, ties to
    the even one. *)
Definition format_2f_exact (x : Q) : string :=
  let y := (Qabs x * 100)%Q in
  let f := Qfloor y in
  let r := (y - inject_Z f)%Q in
  let n :=
    if Qlt_le_dec r (1#2) then f
    else if Qlt_le_dec (1#2) r then (f + 1)%Z
    else if Z.even f then f else (f + 1)%Z in
  (if Qlt_le_dec x 0 then "-" else "")
  +:+ pretty (n / 100)%Z +:+ "."
  +:+ (if (n mod 100 <? 10)%Z then "0" else "") +:+ pretty (n mod 100)%Z.

Definition alice_user : user :=
  RegularUser
    (mkUser "Alice" "Liddell" "1990-05-04" "alice@example.com" "alice"
            "abc123" "1 Main Street" "user").

Definition alice_session : App :=
  set_stacked_widget main_page
    (set_current_user (Some alice_user) (new_app pizza_catalog)).

Definition two_lines : list cart_line :=
  [ mkCartLine 12 "Tiramisu" 250%Q "Pizza Place";
    mkCartLine 13 "Espresso" 99.5%Q "Pizza Place" ].

(** Two elements tie: neither key is below the other. *)
Definition tied {A K : Type} (key : A → K) (lt : K → K → bool)
    (x y : A) : Prop :=
  lt (key x) (key y) = false ∧ lt (key y) (key x) = false.

Global Instance tied_dec {A K : Type} (key : A → K) (lt : K → K → bool)
    (x y : A) : Decision (tied key lt x y).
Proof. unfold tied. apply _. Defined.

(** What the result list shows for published results. *)
Definition shown_items (rs : list search_result) : list list_item :=
  match rs with
  | [] => [text_item "Ничего не найдено"]
  | _ =>
      map (λ item,
             match item with
             | restaurant_result id _ _ _ => restaurant_item id
             | dish_result rid _ _ _ _ => dish_item rid
             end) rs
  end.

(** Sample data for the closed statements. *)
Definition abc123_line_feed : string := "abc123" +:+ nl.

Definition alice_form : dict :=
  build "Alice" "Liddell" "1990-05-04" "alice@example.com" "alice"
        abc123_line_feed abc123_line_feed "1 Main Street".

Definition bob_account : dict :=
  <["role" := "user"]>
  (delete "repeat_password"
     (build "Bob" "Stone" "1988-01-02" "bob@example.com" "bob"
            "hunter2" "hunter2" "2 Side Street")).

Definition admin_account : dict :=
  <["role" := "admin"]>
  (delete "repeat_password"
     (build "Admin" "Admin" "2000-01-01" "admin@example.com" "admin"
            "admin123" "admin123" "Admin Office")).

Definition carol_form : dict :=
  build "Carol" "Reed" "1995-09-09" "carol@example.com" "carol"
        ("Secret1" +:+ nl) ("Secret1" +:+ nl) "3 Hill Road".

Definition dave_form : dict :=
  build "Dave" "Moss" "1991-03-03" "dave@example.com" "dave"
        "pass1" "pass2" "4 Lake Lane".

Definition alice_good_form : dict :=
  build "Alice" "Liddell" "1990-05-04" "alice@example.com" "alice"
        "abc123" "abc123" "1 Main Street".

Definition pizza_only_catalog : Database :=
  {| users_file := [];
     restaurants_file :=
       [ mkRestaurant 1 "Pizza Place" "Wood oven" (Some 4.8%Q)
           [ mkMenuItem 11 "Tiramisu" "Dessert" 250%Q None ] ];
     orders_file := [] |}.

Definition two_accounts : Database :=
  {| users_file := [admin_account; bob_account];
     restaurants_file := [];
     orders_file := [] |}.


(** ** Vocabulary of the further statements *)

(** The keys of a registration form. *)
Definition form_keys : list string :=
  ["first_name"; "last_name"; "birth_date"; "email"; "login"; "password";
   "repeat_password"; "address"].

Definition call_key (c : builder_call) : string :=
  match c with
  | call_set_first_name _ => "first_name"
  | call_set_last_name _ => "last_name"
  | call_set_birth_date _ => "birth_date"
  | call_set_email _ => "email"
  | call_set_login _ => "login"
  | call_set_password _ => "password"
  | call_set_repeat_password _ => "repeat_password"
  | call_set_address _ => "address"
  end.

Definition call_value (c : builder_call) : string :=
  match c with
  | call_set_first_name v | call_set_last_name v | call_set_birth_date v
  | call_set_email v | call_set_login v | call_set_password v
  | call_set_repeat_password v | call_set_address v => v
  end.

(** The value given by the last call that set key [k], the empty
    string when no call did. *)
Fixpoint last_set (k : string) (calls : list builder_call) : string :=
  match calls with
  | [] => ""
  | c :: rest =>
      if existsb (λ c', String.eqb (call_key c') k) rest then last_set k rest
      else if String.eqb (call_key c) k then call_value c
      else ""
  end.

(** Some call of [calls] sets key [k]. *)
Definition is_set (k : string) (calls : list builder_call) : bool :=
  existsb (λ c, String.eqb (call_key c) k) calls.

Definition sample_builder_calls : list builder_call :=
  [ call_set_login "eve"; call_set_password "pw1"; call_set_login "eva";
    call_set_repeat_password "pw1" ].

(** The text of a cart row. *)
Definition cart_row_text (format_2f : Q → string) (item : cart_line) : string :=
  line_name item +:+ " - " +:+ format_2f (line_price item)
  +:+ " ₽" +:+ nl +:+ "Ресторан: " +:+ line_restaurant item.

Definition alice_with_cart : App :=
  set_cart two_lines alice_session.

(** The form as [handle_register] builds it. *)
Definition form_dict (f : register_form) : dict :=
  UserBuilder_build
    (set_address (address_input f)
    (set_repeat_password (repeat_password_input f)
    (set_password (password_input_reg f)
    (set_login (login_input_reg f)
    (set_email (email_input f)
    (set_birth_date (birth_date_input f)
    (set_last_name (last_name_input f)
    (set_first_name (first_name_input f) UserBuilder_init)))))))).

(** The labels of the required inputs that are blank, in the order of
    [required_fields]. The birth date is not among the required. *)
Definition blank_names (strip : string → string) (f : register_form)
  : list string :=
  (filter (λ p : string * string, strip p.2 = "")
     [ ("Имя", first_name_input f);
       ("Фамилия", last_name_input f);
       ("Email", email_input f);
       ("Логин", login_input_reg f);
       ("Пароль", password_input_reg f);
       ("Повторите пароль", repeat_password_input f);
       ("Адрес доставки", address_input f) ]).*1.

Definition registration_warning (m : string) (a : App) : App :=
  message_box_exec (warning "Ошибка регистрации" m) a.

(** [str.strip] on ASCII text, for the closed statements. *)
Fixpoint lstrip_ascii (s : string) : string :=
  match s with
  | String c rest => if Ascii.is_space c then lstrip_ascii rest else s
  | EmptyString => EmptyString
  end.

Definition strip_ascii (s : string) : string :=
  String.rev (lstrip_ascii (String.rev (lstrip_ascii s))).

Definition half_filled_form : register_form :=
  {| first_name_input := "Eve"; last_name_input := "  ";
     birth_date_input := "2001-02-03"; email_input := "eve@example.com";
     login_input_reg := "eve"; password_input_reg := "";
     repeat_password_input := "x"; address_input := "5 Elm Street" |}.

Definition eve_form : register_form :=
  {| first_name_input := "Eve"; last_name_input := "Adams";
     birth_date_input := "2001-02-03"; email_input := "eve@example.com";
     login_input_reg := "eve"; password_input_reg := "evepass1";
     repeat_password_input := "evepass1"; address_input := "5 Elm Street" |}.

(** The distinct elements of a list, each at its first position. *)
Definition first_seen (l : list string) : list string :=
  fold_left (λ seen x, if decide (x ∈ seen) then seen else seen ++ [x]) l [].

(** The tabs of the restaurant page as they should be: one tab per
    category, in the order in which the categories first appear in the
    menu, each listing the dishes of its category in menu order. *)
Definition grouped (menu : list MenuItem) : list (string * list MenuItem) :=
  map (λ c, (c, filter (λ item, menu_category item = c) menu))
      (first_seen (map menu_category menu)).

Definition tabs_of (r : Restaurant) : list (string * list cart_line) :=
  map (λ '(category, items), (category, map (menu_row r) items))
      (grouped (rest_menu r)).

(** The window right after [__init__]. *)
Definition new_window (d : Database) : Window :=
  {| app := new_app d;
     current_restaurant := None;
     restaurant_title := "";
     menu_tabs := [] |}.

(** ** What every reachable window satisfies *)

(** A cart line is a dish of the catalogue, under its name and at its
    price, with the name of its restaurant. *)
Definition from_catalogue (rs : list restaurant) (l : cart_line) : Prop :=
  ∃ r item,
    r ∈ rs ∧ item ∈ restaurant_menu r ∧
    l = {| line_id := item_id item;
           line_name := item_name item;
           line_price := item_price item;
           line_restaurant := restaurant_name r |}.

(** An order as the window places it. *)
Definition placed_order (rs : list restaurant) (us : list dict) (o : order)
  : Prop :=
  ∃ items lg addr p now,
    items ≠ [] ∧
    Forall (from_catalogue rs) items ∧
    lg ∈ logins us ∧
    o !! "items" = Some (VItems items) ∧
    o !! "user" = Some (VStr lg) ∧
    o !! "address" = Some (VStr addr) ∧
    o !! "payment_method" = Some (VStr (payment_text p)) ∧
    o !! "date" = Some (VStr now) ∧
    o !! "status" = Some (VStr "В обработке") ∧
    size o = 6.

(** The stored data: the catalogue is the initial one, accounts and
    orders have only been added at the end, every account is well
    formed, every added order was placed by the window. *)
Definition data_ok (d0 d : Database) : Prop :=
  restaurants_file d = restaurants_file d0 ∧
  (∃ new, users_file d = users_file d0 ++ new) ∧
  Forall well_formed_account (users_file d) ∧
  ∃ new,
    orders_file d = orders_file d0 ++ new ∧
    Forall (placed_order (restaurants_file d0) (users_file d)) new.

(** The session: who is logged in, which page is shown, what is in the
    cart. *)
Definition session_ok (rs : list restaurant) (us : list dict)
    (cu : option user) (pg : page) (ct : list cart_line) : Prop :=
  match cu with
  | None => (pg = login_page ∨ pg = register_page) ∧ ct = []
  | Some u =>
      login (user_fields u) ∈ logins us ∧
      if is_admin u then pg = admin_page ∧ ct = []
      else (pg = main_page ∨ pg = restaurant_page ∨ pg = cart_page
            ∨ pg = order_confirmation_page) ∧
           (pg = order_confirmation_page → ct ≠ [])
  end ∧
  Forall (from_catalogue rs) ct.

(** A row refers to a restaurant of the catalogue. *)
Definition catalogue_row (rs : list restaurant) (i : list_item) : Prop :=
  ∃ r, r ∈ rs ∧
       (i = restaurant_item (restaurant_id r) ∨ i = dish_item (restaurant_id r)).

(** The lists of the main page: the window is the one observer, the
    restaurant list holds restaurants of the catalogue, a row of the
    result list is the "nothing found" text or refers to a restaurant
    of the catalogue. *)
Definition views_ok (rs : list restaurant) (a : App) : Prop :=
  _observers (subject (search_subject a)) = [the_window] ∧
  Forall (λ i, ∃ r, r ∈ rs ∧ i = restaurant_item (restaurant_id r))
         (restaurant_list a) ∧
  Forall (λ i, (∃ t, i = text_item t) ∨ catalogue_row rs i)
         (search_results_list a).

Definition window_ok (d0 : Database) (w : Window) : Prop :=
  data_ok d0 (db (app w)) ∧
  session_ok (restaurants_file d0) (users_file (db (app w)))
    (current_user (app w)) (stacked_widget (app w)) (cart (app w)) ∧
  views_ok (restaurants_file d0) (app w) ∧
  Forall (λ t : string * list cart_line,
            Forall (from_catalogue (restaurants_file d0)) t.2)
         (menu_tabs w).

(** What a run may end in: a window that satisfies the above, or the
    one exception that a handler can raise. *)
Definition run_ok (d0 : Database) (r : run) : Prop :=
  match r with
  | Running w => window_ok d0 w
  | Crashed f => f = TypeError
  end.

Definition shop_page (pg : page) : Prop :=
  pg = main_page ∨ pg = restaurant_page ∨ pg = cart_page
  ∨ pg = order_confirmation_page.

(** The restaurant page of a stored restaurant, opened from [w]. *)
Definition opened (r : restaurant) (w : Window) : Window :=
  {| app := set_stacked_widget restaurant_page (app w);
     current_restaurant := Some (Restaurant_init r);
     restaurant_title := restaurant_name r;
     menu_tabs := tabs_of (Restaurant_init r) |}.

(** Sample runs for the closed statements: a shop with two accounts and
    two restaurants. *)
Definition sample_shop : Database :=
  {| users_file := users_file two_accounts;
     restaurants_file := restaurants_file pizza_catalog;
     orders_file := [] |}.

(** Bob logs in, looks for sushi, which nobody serves, and clicks the
    one row of the result list. *)
Definition bob_finds_nothing : list event :=
  [ login_btn_clicked "bob" "hunter2";
    search_input_edited "sushi";
    search_result_clicked 0 ].

(** Bob logs in, opens the first restaurant, takes its first dish and
    goes to the confirmation page. *)
Definition bob_checks_out : list event :=
  [ login_btn_clicked "bob" "hunter2";
    restaurant_clicked 0;
    menu_row_double_clicked 0 0;
    cart_btn_clicked;
    checkout_btn_clicked ].

Definition bob_orders : list event :=
  bob_checks_out ++ [confirm_btn_clicked bank_card "2025-06-01 12:30"].




(** Alice on the main page, with a query typed that matches nothing. *)
Definition alice_seeks_sushi : Window :=
  {| app := set_search_input "sushi" alice_session;
     current_restaurant := None;
     restaurant_title := "";
     menu_tabs := [] |}.

(** * Properties *)

(** ** The password pattern *)

Lemma string_app_cons c (s t : string) : String c s +:+ t = String c (s +:+ t).
Proof. reflexivity. Qed.

Lemma string_app_empty_r (s : string) : s +:+ "" = s.
Proof. induction s as [|c s IH]; [done|]. by rewrite string_app_cons, IH. Qed.

Lemma all_alnum_skip s : all_alnum s = true → skip_alnum s = "".
Proof.
  induction s as [|c s IH]; simpl; [done|].
  intros [Hc Hs]%andb_true_iff. rewrite Hc. auto.
Qed.

Lemma skip_alnum_line_feed run :
  all_alnum run = true → skip_alnum (run +:+ nl) = nl.
Proof.
  induction run as [|c run IH]; [done|].
  rewrite string_app_cons. simpl.
  intros [Hc Hs]%andb_true_iff. rewrite Hc. auto.
Qed.

Lemma skip_alnum_split s :
  ∃ run, s = run +:+ skip_alnum s ∧ all_alnum run = true.
Proof.
  induction s as [|c s (run & Hs & Hrun)].
  - by exists "".
  - simpl. destruct (is_alnum c) eqn:Hc.
    + exists (String c run). split.
      * rewrite string_app_cons. by f_equal.
      * simpl. by rewrite Hc.
    + by exists "".
Qed.

(** What [re.match] accepts: the strings of letters and digits, and the
    same strings followed by one line feed. *)
Lemma re_match_password_iff s :
  re_match_password s = true ↔
  only_letters_and_digits s = true ∨
  ∃ run, s = run +:+ nl ∧ only_letters_and_digits run = true.
Proof.
  split.
  - destruct s as [|c rest]; simpl; [done|].
    intros [Hc Hd]%andb_true_iff.
    destruct (skip_alnum_split rest) as (run & Hrest & Hrun).
    destruct (skip_alnum rest) as [|c' [|]] eqn:Hskip; simpl in Hd; try done.
    + left. rewrite string_app_empty_r in Hrest. subst. by rewrite Hc.
    + right. apply Ascii.eqb_eq in Hd. subst c'.
      exists (String c run). split.
      * rewrite string_app_cons. unfold nl. by rewrite <- Hrest.
      * simpl. by rewrite Hc.
  - intros [H|(run & -> & H)].
    + destruct s as [|c rest]; simpl in *; [done|].
      apply andb_true_iff in H as [Hc Hrest].
      by rewrite Hc, (all_alnum_skip _ Hrest).
    + destruct run as [|c run]; [done|].
      rewrite string_app_cons. simpl in *.
      apply andb_true_iff in H as [Hc Hrun].
      by rewrite Hc, (skip_alnum_line_feed _ Hrun).
Qed.

Lemma only_letters_and_digits_accepted s :
  only_letters_and_digits s = true → re_match_password s = true.
Proof. intros H. apply re_match_password_iff. by left. Qed.

(** ** register_user *)

Lemma logins_cons (u : dict) users :
  logins (u :: users) =
  match u !! "login" with
  | Some l => l :: logins users
  | None => logins users
  end.
Proof. reflexivity. Qed.

Lemma any_login_equal_spec users user_data lg :
  Forall has_login users →
  user_data !! "login" = Some lg →
  any_login_equal users user_data = Ok (bool_decide (lg ∈ logins users)).
Proof.
  intros Hwf Hlg. induction Hwf as [|u users [ul Hul] _ IH]; simpl.
  - done.
  - unfold getitem at 1 2. rewrite Hul, Hlg. simpl.
    destruct (String.eqb ul lg) eqn:E.
    + apply String.eqb_eq in E as ->. f_equal. symmetry.
      apply bool_decide_eq_true. left.
    + apply String.eqb_neq in E. rewrite IH. f_equal.
      apply bool_decide_ext. rewrite elem_of_cons.
      split; [by right | by intros [->|?]].
Qed.

(** The checks of [register_user] in their order, for a candidate that
    carries the three keys the function subscripts. *)
Lemma register_user_cases user_data d lg pw repeated :
  Forall has_login (users_file d) →
  user_data !! "login" = Some lg →
  user_data !! "password" = Some pw →
  user_data !! "repeat_password" = Some repeated →
  register_user user_data d =
    if bool_decide (lg ∈ logins (users_file d)) then
      (Ok (false, msg_login_exists), d)
    else if bool_decide (pw ≠ repeated) then
      (Ok (false, msg_passwords_differ), d)
    else if negb (re_match_password pw) then
      (Ok (false, msg_password_chars), d)
    else
      (Ok (true, msg_registered),
       save_users (users_file d ++ [stored_record user_data]) d).
Proof.
  intros Hwf Hlg Hpw Hrp. unfold register_user, load_users.
  rewrite (any_login_equal_spec _ _ lg Hwf Hlg).
  destruct (bool_decide (lg ∈ logins (users_file d))); [done|].
  unfold getitem. rewrite Hpw, Hrp.
  destruct (String.eqb pw repeated) eqn:E; simpl.
  - apply String.eqb_eq in E.
    rewrite bool_decide_eq_false_2 by (intros ?; done).
    by destruct (re_match_password pw).
  - apply String.eqb_neq in E. by rewrite bool_decide_eq_true_2.
Qed.

Lemma stored_record_login user_data :
  stored_record user_data !! "login" = user_data !! "login".
Proof.
  unfold stored_record.
  rewrite lookup_insert_ne by done. by rewrite lookup_delete_ne.
Qed.

Lemma any_login_equal_false users user_data :
  any_login_equal users user_data = Ok false →
  users = [] ∨
  ∃ lg, user_data !! "login" = Some lg ∧ (lg ∉ logins users) ∧
        Forall has_login users.
Proof.
  induction users as [|u users IH]; simpl; [by left|].
  unfold getitem at 1 2. intros H. right.
  destruct (u !! "login") as [ul|] eqn:Hul; [|done].
  destruct (user_data !! "login") as [lg|] eqn:Hlg; [|done].
  simpl in H. destruct (String.eqb ul lg) eqn:E; [done|].
  apply String.eqb_neq in E. exists lg. split; [done|].
  destruct (IH H) as [->|(lg' & ? & Hnot & Hwf)].
  - split; [|repeat constructor; by exists ul].
    rewrite elem_of_cons, elem_of_nil. by intros [->|[]].
  - simplify_eq. split; [|constructor; [by exists ul|done]].
    rewrite elem_of_cons. by intros [->|?].
Qed.

Lemma logins_app users1 users2 :
  logins (users1 ++ users2) = logins users1 ++ logins users2.
Proof. apply omap_app. Qed.

(** What the database holds after [register_user], whatever happened. *)
Lemma register_user_database user_data d :
  (register_user user_data d).2 = d ∨
  (any_login_equal (users_file d) user_data = Ok false ∧
   register_user user_data d =
     (Ok (true, msg_registered),
      save_users (users_file d ++ [stored_record user_data]) d)).
Proof.
  unfold register_user, load_users.
  destruct (any_login_equal (users_file d) user_data) as [[|]|e] eqn:Hany;
    try by left.
  destruct (getitem user_data "password") as [pw|e]; [|by left].
  destruct (getitem user_data "repeat_password") as [rp|e]; [|by left].
  destruct (negb (String.eqb pw rp)); [by left|].
  destruct (negb (re_match_password pw)); [by left|].
  by right.
Qed.

(** The third check on its own: with the login free and the two
    password fields equal, a password of letters and digits is
    accepted and one that [re.match] refuses is rejected. *)
Lemma register_user_accepts_alnum user_data d lg pw :
  Forall has_login (users_file d) →
  user_data !! "login" = Some lg →
  user_data !! "password" = Some pw →
  user_data !! "repeat_password" = Some pw →
  lg ∉ logins (users_file d) →
  only_letters_and_digits pw = true →
  register_user user_data d =
    (Ok (true, msg_registered),
     save_users (users_file d ++ [stored_record user_data]) d).
Proof.
  intros Hwf Hlg Hpw Hrp Hfree Hok.
  rewrite (register_user_cases _ _ lg pw pw Hwf Hlg Hpw Hrp).
  rewrite bool_decide_eq_false_2 by done.
  rewrite bool_decide_eq_false_2 by (intros ?; done).
  by rewrite (only_letters_and_digits_accepted _ Hok).
Qed.

Lemma register_user_rejects_unmatched user_data d lg pw :
  Forall has_login (users_file d) →
  user_data !! "login" = Some lg →
  user_data !! "password" = Some pw →
  user_data !! "repeat_password" = Some pw →
  lg ∉ logins (users_file d) →
  re_match_password pw = false →
  register_user user_data d = (Ok (false, msg_password_chars), d).
Proof.
  intros Hwf Hlg Hpw Hrp Hfree Hbad.
  rewrite (register_user_cases _ _ lg pw pw Hwf Hlg Hpw Hrp).
  rewrite bool_decide_eq_false_2 by done.
  rewrite bool_decide_eq_false_2 by (intros ?; done).
  by rewrite Hbad.
Qed.

Example register_alice_twice :
  let first := register_user alice_good_form empty_database in
  first.1 = Ok (true, msg_registered) ∧
  users_file first.2 = [stored_record alice_good_form] ∧
  register_user alice_good_form first.2 = (Ok (false, msg_login_exists), first.2).
Proof. by repeat split. Qed.

Example stored_record_alice :
  stored_record alice_good_form !! "repeat_password" = None ∧
  stored_record alice_good_form !! "role" = Some "user" ∧
  stored_record alice_good_form !! "password" = Some "abc123".
Proof. by repeat split. Qed.

Example register_checks_in_order :
  (* login taken and passwords different: the login is reported *)
  (register_user (<["login" := "bob"]> dave_form) two_accounts).1
  = Ok (false, msg_login_exists) ∧
  (* passwords different and not alphanumeric: the difference is reported *)
  (register_user (<["password" := "pass 1"]> dave_form) two_accounts).1
  = Ok (false, msg_passwords_differ) ∧
  (register_user
     (<["repeat_password" := "pass 1"]> (<["password" := "pass 1"]> dave_form))
     two_accounts).1
  = Ok (false, msg_password_chars) ∧
  (register_user
     (<["repeat_password" := ""]> (<["password" := ""]> dave_form))
     two_accounts).1
  = Ok (false, msg_password_chars).
Proof. by repeat split. Qed.

(** C1. The checks run in the stated order and with the stated
    messages ([register_user_cases]), but the third one lets through a
    password that is not made of letters and digits only: a form whose
    login is free and whose two password fields both read
    ["abc123\n"] is registered. *)
Theorem register_user_line_feed_registered :
  alice_form !! "password" = Some abc123_line_feed ∧
  alice_form !! "repeat_password" = Some abc123_line_feed ∧
  only_letters_and_digits abc123_line_feed = false ∧
  register_user alice_form empty_database =
    (Ok (true, msg_registered),
     save_users [stored_record alice_form] empty_database).
Proof. repeat split. Qed.

(** C4. The accepting half holds ([register_user_accepts_alnum]); the
    rejecting half fails for a final line feed: with the login free and
    both password fields equal, a password whose last character is
    outside the class is accepted. *)
Theorem register_user_accepts_outside_character :
  ("carol" ∉ logins (users_file two_accounts)) ∧
  carol_form !! "login" = Some "carol" ∧
  carol_form !! "password" = carol_form !! "repeat_password" ∧
  carol_form !! "password" = Some ("Secret1" +:+ nl) ∧
  is_alnum "010" = false ∧
  (register_user carol_form two_accounts).1 = Ok (true, msg_registered).
Proof.
  split; [|by repeat split].
  apply (bool_decide_unpack _). by vm_compute.
Qed.

(** ** login_user *)

Ltac in_keys :=
  repeat first [apply list_elem_of_here | apply list_elem_of_further].

Lemma well_formed_lookup u k :
  well_formed_account u → k ∈ account_keys → is_Some (u !! k).
Proof. intros Hwf Hk. by apply (proj1 (Forall_forall _ _) Hwf). Qed.

Lemma AbstractUser_init_ok u :
  well_formed_account u →
  ∃ f, AbstractUser_init u = Ok f ∧ holds_fields u f.
Proof.
  intros Hwf. unfold AbstractUser_init, getitem.
  destruct (well_formed_lookup u "first_name" Hwf) as [x1 H1];
    [in_keys|].
  destruct (well_formed_lookup u "last_name" Hwf) as [x2 H2];
    [in_keys|].
  destruct (well_formed_lookup u "birth_date" Hwf) as [x3 H3];
    [in_keys|].
  destruct (well_formed_lookup u "email" Hwf) as [x4 H4]; [in_keys|].
  destruct (well_formed_lookup u "login" Hwf) as [x5 H5]; [in_keys|].
  destruct (well_formed_lookup u "password" Hwf) as [x6 H6]; [in_keys|].
  destruct (well_formed_lookup u "address" Hwf) as [x7 H7]; [in_keys|].
  rewrite H1, H2, H3, H4, H5, H6, H7. simpl.
  eexists. split; [done|].
  unfold holds_fields, get_default. simpl.
  by destruct (u !! "role").
Qed.

Lemma next_matching_cons u users lg pw ul up :
  u !! "login" = Some ul →
  u !! "password" = Some up →
  next_matching (u :: users) lg pw =
    if String.eqb ul lg && String.eqb up pw then Ok (Some u)
    else next_matching users lg pw.
Proof.
  intros Hul Hup. simpl. unfold getitem. rewrite Hul, Hup. simpl.
  by destruct (String.eqb ul lg), (String.eqb up pw).
Qed.

Lemma next_matching_spec users lg pw :
  Forall well_formed_account users →
  (next_matching users lg pw = Ok None ∧
   Forall (λ u, ¬ matches lg pw u) users) ∨
  (∃ pre u post,
     users = pre ++ u :: post ∧
     Forall (λ v, ¬ matches lg pw v) pre ∧
     matches lg pw u ∧
     next_matching users lg pw = Ok (Some u)).
Proof.
  induction 1 as [|u users Hwf _ IH].
  - by left.
  - destruct (well_formed_lookup u "login" Hwf) as [ul Hul]; [in_keys|].
    destruct (well_formed_lookup u "password" Hwf) as [up Hup]; [in_keys|].
    rewrite (next_matching_cons u users lg pw ul up Hul Hup).
    destruct (String.eqb ul lg && String.eqb up pw) eqn:E.
    + apply andb_true_iff in E as [->%String.eqb_eq ->%String.eqb_eq].
      right. exists [], u, users. by repeat split.
    + assert (¬ matches lg pw u) as Hno.
      { intros [Hl Hp]. rewrite Hl in Hul. rewrite Hp in Hup.
        simplify_eq. by rewrite !String.eqb_refl in E. }
      destruct IH as [[Hn Hall]|(pre & v & post & -> & Hpre & Hv & Hn)].
      * left. split; [done|by constructor].
      * right. exists (u :: pre), v, post.
        split; [done|]. split; [by constructor|]. by split.
Qed.

(** C5. On a collection of well-formed accounts, [login_user] returns the
    first account whose login and password are both exactly the given
    strings, as an [AdminUser] when its stored role is ["admin"] and as a
    [RegularUser] otherwise, carrying the fields of the record; it
    returns [None] exactly when no account matches; the database is
    returned as it was. *)
Theorem login_user_spec lg pw d :
  Forall well_formed_account (users_file d) →
  ∃ r, login_user lg pw d = (Ok r, d) ∧
    (r = None ↔ Forall (λ u, ¬ matches lg pw u) (users_file d)) ∧
    match r with
    | None => True
    | Some acc =>
        ∃ pre u post,
          users_file d = pre ++ u :: post ∧
          Forall (λ v, ¬ matches lg pw v) pre ∧
          matches lg pw u ∧
          holds_fields u (user_fields acc) ∧
          is_admin acc = bool_decide (u !! "role" = Some "admin")
    end.
Proof.
  intros Hwf. unfold login_user, load_users.
  destruct (next_matching_spec _ lg pw Hwf)
    as [[-> Hall]|(pre & u & post & Hsplit & Hpre & Hu & ->)].
  - exists None. by repeat split.
  - assert (well_formed_account u) as Hwfu.
    { rewrite Hsplit in Hwf. apply Forall_app in Hwf as [_ Hwf].
      by apply Forall_cons in Hwf as [? _]. }
    destruct (AbstractUser_init_ok u Hwfu) as (f & Hf & Hfields).
    assert (u ≠ ∅) as Hne.
    { intros ->. destruct Hu as [Hl _]. by rewrite lookup_empty in Hl. }
    rewrite (bool_decide_eq_false_2 _ Hne).
    assert (¬ Forall (λ v, ¬ matches lg pw v) (users_file d)) as Hsome.
    { rewrite Hsplit. intros [_ Hx]%Forall_app.
      apply Forall_cons in Hx as [Hx _]. by apply Hx. }
    unfold admin_create_user, regular_create_user. rewrite Hf. simpl.
    destruct (bool_decide (u !! "role" = Some "admin")) eqn:Hrole.
    + exists (Some (AdminUser f)). split; [done|]. split; [by split|].
      exists pre, u, post. by rewrite Hrole.
    + exists (Some (RegularUser f)). split; [done|]. split; [by split|].
      exists pre, u, post. by rewrite Hrole.
Qed.

Lemma two_accounts_well_formed :
  Forall well_formed_account (users_file two_accounts).
Proof.
  repeat constructor; apply (bool_decide_unpack _); by vm_compute.
Qed.

Lemma login_user_spec_witness :
  ∃ r, login_user "admin" "admin123" two_accounts = (Ok r, two_accounts) ∧
    (r = None ↔
     Forall (λ u, ¬ matches "admin" "admin123" u) (users_file two_accounts)) ∧
    match r with
    | None => True
    | Some acc =>
        ∃ pre u post,
          users_file two_accounts = pre ++ u :: post ∧
          Forall (λ v, ¬ matches "admin" "admin123" v) pre ∧
          matches "admin" "admin123" u ∧
          holds_fields u (user_fields acc) ∧
          is_admin acc = bool_decide (u !! "role" = Some "admin")
    end.
Proof.
  apply (login_user_spec "admin" "admin123" two_accounts).
  exact two_accounts_well_formed.
Defined.

Example login_examples :
  (login_user "admin" "admin123" two_accounts).1
  = Ok (Some (AdminUser
                (mkUser "Admin" "Admin" "2000-01-01" "admin@example.com"
                        "admin" "admin123" "Admin Office" "admin"))) ∧
  (login_user "bob" "hunter2" two_accounts).1
  = Ok (Some (RegularUser
                (mkUser "Bob" "Stone" "1988-01-02" "bob@example.com"
                        "bob" "hunter2" "2 Side Street" "user"))) ∧
  (login_user "Bob" "hunter2" two_accounts).1 = Ok None ∧
  (login_user "bob" "Hunter2" two_accounts).1 = Ok None ∧
  (login_user "bob" "admin123" two_accounts).1 = Ok None.
Proof. by repeat split. Qed.

(** A stored record that lacks a field of the account raises. *)
Example login_user_missing_field :
  (login_user "eve" "x"
     {| users_file := [<["password" := "x"]> (<["login" := "eve"]> ∅)];
        restaurants_file := []; orders_file := [] |}).1
  = Raise (KeyError "first_name").
Proof. reflexivity. Qed.

(** ** Invariants of the accounts collection *)

(** C9. If the stored logins are pairwise distinct, they still are in
    the collection that [register_user] leaves behind, whether it
    registered the candidate, refused it, or raised. *)
Theorem register_user_keeps_logins_distinct user_data d :
  logins_distinct (users_file d) →
  logins_distinct (users_file (register_user user_data d).2).
Proof.
  intros Hnd.
  destruct (register_user_database user_data d) as [->|[Hany ->]]; [done|].
  simpl. unfold logins_distinct in *. rewrite logins_app.
  apply any_login_equal_false in Hany as [Hnil|(lg & Hlg & Hfree & _)].
  - rewrite Hnil. simpl. unfold logins. simpl.
    destruct (stored_record user_data !! "login");
      [apply NoDup_singleton|apply NoDup_nil_2].
  - unfold logins at 2. simpl. rewrite stored_record_login, Hlg.
    apply NoDup_app. split; [done|]. split; [|apply NoDup_singleton].
    intros x Hx ->%list_elem_of_singleton. done.
Qed.

Lemma register_user_keeps_logins_distinct_witness :
  logins_distinct (users_file two_accounts) ∧
  logins_distinct (users_file (register_user carol_form two_accounts).2).
Proof.
  assert (logins_distinct (users_file two_accounts)) as H.
  { apply (bool_decide_unpack _). by vm_compute. }
  split; [exact H|].
  exact (register_user_keeps_logins_distinct carol_form two_accounts H).
Defined.

(** C10. A refusal writes nothing: whenever [register_user] does not
    return its success (it returned [False] with one of the three
    messages, or raised), the database is the one it was given; the
    collection is only written on the successful return. *)
Theorem register_user_failure_writes_nothing user_data d :
  (register_user user_data d).1 ≠ Ok (true, msg_registered) →
  (register_user user_data d).2 = d.
Proof.
  intros Hfail.
  destruct (register_user_database user_data d) as [Hsame|[_ Heq]]; [done|].
  by rewrite Heq in Hfail.
Qed.

Lemma register_user_failure_writes_nothing_witness :
  (register_user dave_form two_accounts).1 = Ok (false, msg_passwords_differ) ∧
  (register_user dave_form two_accounts).2 = two_accounts.
Proof.
  split; [reflexivity|].
  apply (register_user_failure_writes_nothing dave_form two_accounts).
  vm_compute. discriminate.
Defined.

(** ** Subject *)

Section SubjectFacts.
Context {observer : Type} `{EqDecision observer}.
Context {message : Type}.
Implicit Types (o : observer) (l : list observer) (s : Subject observer).

Lemma times_app o l1 l2 : times o (l1 ++ l2) = times o l1 + times o l2.
Proof. unfold times. by rewrite filter_app, length_app. Qed.

Lemma times_cons o y l :
  times o (y :: l) = (if decide (y = o) then 1 else 0) + times o l.
Proof. unfold times. rewrite filter_cons. by destruct (decide (y = o)). Qed.

Lemma list_remove_times x l l' o :
  list_remove x l = Ok l' →
  times o l = (if decide (x = o) then 1 else 0) + times o l'.
Proof.
  revert l'. induction l as [|y l IH]; intros l'; simpl; [done|].
  destruct (decide (y = x)) as [->|Hne].
  - intros [= ->]. apply times_cons.
  - destruct (list_remove x l) as [r|] eqn:Hr; [|done].
    intros [= <-]. rewrite !times_cons, (IH r eq_refl).
    repeat case_decide; lia.
Qed.

Lemma list_remove_sublist x l l' : list_remove x l = Ok l' → sublist l' l.
Proof.
  revert l'. induction l as [|y l IH]; intros l'; simpl; [done|].
  destruct (decide (y = x)) as [->|Hne].
  - intros [= ->]. by apply sublist_cons.
  - destruct (list_remove x l) as [r|] eqn:Hr; [|done].
    intros [= <-]. apply sublist_skip. by apply IH.
Qed.

Lemma notify_record_call (msg : message) s (log : list (observer * message)) :
  notify record_call msg s log = log ++ map (λ o, (o, msg)) (_observers s).
Proof.
  unfold notify. generalize (_observers s). intros l. revert log.
  induction l as [|o l IH]; intros log; simpl.
  - by rewrite app_nil_r.
  - rewrite IH. unfold record_call. by rewrite <- app_assoc.
Qed.

Lemma run_calls_observers calls s s' :
  run_calls calls s = Ok s' →
  (∀ o, times o (_observers s') + times o (detached calls)
        = times o (_observers s) + times o (attached calls)) ∧
  sublist (_observers s') (_observers s ++ attached calls).
Proof.
  revert s. induction calls as [|[o|o] calls IH]; intros s; simpl.
  - intros [= <-]. split; [done|]. by rewrite app_nil_r.
  - intros Hrun. destruct (IH _ Hrun) as [Hcount Hsub]. simpl in *. split.
    + intros o'. rewrite Hcount, times_app, !times_cons.
      change (times o' []) with 0. case_decide; lia.
    + by rewrite <- app_assoc in Hsub.
  - unfold detach.
    destruct (list_remove o (_observers s)) as [l|] eqn:Hl; [|done].
    simpl. intros Hrun.
    destruct (IH _ Hrun) as [Hcount Hsub]. simpl in *. split.
    + intros o'. rewrite times_cons.
      rewrite (list_remove_times _ _ _ o' Hl). specialize (Hcount o').
      case_decide; lia.
    + etransitivity; [exact Hsub|].
      apply sublist_app; [|done]. by apply list_remove_sublist in Hl.
Qed.
End SubjectFacts.

(** C8. After any history of [attach] and [detach] calls that ran
    through, [update_results] stores the published results and calls
    [update] on the attached observers, one call per registration still
    standing, each with the published results, in the order the
    observers were attached. With observers that log their calls: the
    log grows by one entry [(o, r)] per entry of the observer list; that
    list is a subsequence of the attached observers in call order; and
    every observer is in it as often as it was attached and not since
    detached. *)
Theorem update_results_notifies_attached
    {observer message : Type} `{EqDecision observer}
    (calls : list (subject_call observer)) (s : Subject observer)
    (r r0 : message) (log : list (observer * message)) :
  run_calls calls Subject_init = Ok s →
  update_results record_call r {| subject := s; results := r0 |} log
    = ({| subject := s; results := r |},
       log ++ map (λ o, (o, r)) (_observers s)) ∧
  sublist (_observers s) (attached calls) ∧
  ∀ o, times o (_observers s) + times o (detached calls)
       = times o (attached calls).
Proof.
  intros Hrun. split.
  - unfold update_results. simpl. by rewrite notify_record_call.
  - destruct (run_calls_observers calls Subject_init s Hrun) as [Hcount Hsub].
    split; [exact Hsub|]. intros o. by rewrite Hcount.
Qed.

Lemma update_results_notifies_attached_witness :
  run_calls sample_calls Subject_init = Ok {| _observers := [2; 1; 3] |} ∧
  update_results record_call "pizza"
      {| subject := {| _observers := [2; 1; 3] |}; results := "" |} []
    = ({| subject := {| _observers := [2; 1; 3] |}; results := "pizza" |},
       [(2, "pizza"); (1, "pizza"); (3, "pizza")]).
Proof.
  split; [reflexivity|].
  apply (update_results_notifies_attached sample_calls
           {| _observers := [2; 1; 3] |} "pizza" "" []).
  reflexivity.
Defined.

(** ** sorted() *)

Section SortedFacts.
Context {A K : Type}.
Variable key : A → K.
Variable lt : K → K → bool.

Local Abbreviation not_after := (not_after key lt).

Lemma insort_Permutation x l : insort key lt x l ≡ₚ x :: l.
Proof.
  induction l as [|y l IH]; simpl; [done|].
  destruct (lt (key y) (key x)); [|done].
  by rewrite IH, Permutation_swap.
Qed.

Lemma stable_sort_Permutation l : stable_sort key lt l ≡ₚ l.
Proof.
  induction l as [|x l IH]; simpl; [done|].
  by rewrite insort_Permutation, IH.
Qed.

Lemma sorted_Permutation reverse l : sorted key lt reverse l ≡ₚ l.
Proof.
  destruct reverse; simpl; [|apply stable_sort_Permutation].
  by rewrite <- Permutation_rev, stable_sort_Permutation, <- Permutation_rev.
Qed.

Hypothesis lt_asym : ∀ a b, lt a b = true → lt b a = false.
Hypothesis lt_negtrans :
  ∀ a b c, lt b a = false → lt c b = false → lt c a = false.

Lemma insort_sorted x l :
  StronglySorted not_after l → StronglySorted not_after (insort key lt x l).
Proof.
  induction 1 as [|y l Hl IH Hy]; simpl.
  - by repeat constructor.
  - destruct (lt (key y) (key x)) eqn:E.
    + constructor; [done|].
      rewrite insort_Permutation. constructor; [|done].
      by apply lt_asym.
    + constructor; [by constructor|]. constructor; [done|].
      eapply Forall_impl; [exact Hy|].
      intros z Hz. unfold not_after in *. by eapply lt_negtrans.
Qed.

Lemma stable_sort_sorted l : StronglySorted not_after (stable_sort key lt l).
Proof.
  induction l as [|x l IH]; simpl; [constructor|]. by apply insort_sorted.
Qed.

Lemma StronglySorted_rev (R : relation A) l :
  StronglySorted R l → StronglySorted (flip R) (rev l).
Proof.
  induction 1 as [|x l Hl IH Hx]; simpl; [constructor|].
  apply StronglySorted_app_2; [|done|by repeat constructor].
  intros a b Ha ->%list_elem_of_singleton.
  apply list_elem_of_In, in_rev, list_elem_of_In in Ha.
  by apply (proj1 (Forall_forall _ _) Hx).
Qed.

(** Elements of one class keep their order. A class is a property
    [same] of elements no two of which are strictly ordered by key. *)
Variable same : A → Prop.
Context `{∀ x, Decision (same x)}.
Hypothesis same_not_lt :
  ∀ x y, same x → same y → lt (key y) (key x) = false.

Lemma insort_filter x l :
  filter same (insort key lt x l) = filter same (x :: l).
Proof.
  induction l as [|y l IH]; simpl; [done|].
  destruct (lt (key y) (key x)) eqn:E; [|done].
  rewrite filter_cons, IH, !filter_cons.
  destruct (decide (same y)) as [Hy|]; [|done].
  destruct (decide (same x)) as [Hx|]; [|done].
  by rewrite (same_not_lt x y Hx Hy) in E.
Qed.

Lemma stable_sort_filter l :
  filter same (stable_sort key lt l) = filter same l.
Proof.
  induction l as [|x l IH]; simpl; [done|].
  by rewrite insort_filter, !filter_cons, IH.
Qed.

Lemma filter_rev (l : list A) : filter same (rev l) = rev (filter same l).
Proof.
  induction l as [|x l IH]; simpl; [done|].
  rewrite filter_app, IH, !filter_cons, filter_nil.
  destruct (decide (same x)); simpl; [done|by rewrite app_nil_r].
Qed.

Lemma sorted_filter reverse l :
  filter same (sorted key lt reverse l) = filter same l.
Proof.
  destruct reverse; simpl; [|apply stable_sort_filter].
  by rewrite filter_rev, stable_sort_filter, filter_rev, rev_involutive.
Qed.
End SortedFacts.

(** Sorted order and the order within ties determine the list, so every
    stable sort returns what [stable_sort] returns. *)
Section SortedUnique.
Context {A K : Type}.
Variable key : A → K.
Variable lt : K → K → bool.
Hypothesis lt_asym : ∀ a b, lt a b = true → lt b a = false.
Hypothesis lt_negtrans :
  ∀ a b c, lt b a = false → lt c b = false → lt c a = false.

Lemma tied_refl (x : A) : tied key lt x x.
Proof.
  unfold tied. destruct (lt (key x) (key x)) eqn:E; [|done].
  by rewrite (lt_asym _ _ E) in E.
Qed.

Lemma filter_tied_head (x : A) (l : list A) :
  filter (λ y, tied key lt x y) (x :: l)
  = x :: filter (λ y, tied key lt x y) l.
Proof. rewrite filter_cons. by rewrite decide_True by apply tied_refl. Qed.

Lemma sorted_stable_unique (l1 l2 : list A) :
  StronglySorted (not_after key lt) l1 →
  StronglySorted (not_after key lt) l2 →
  (∀ z, filter (λ y, tied key lt z y) l1 = filter (λ y, tied key lt z y) l2) →
  l1 = l2.
Proof.
  intros Hs1. revert l2.
  induction Hs1 as [|x t1 Ht1 IH Hx]; intros l2 Hs2 Hf.
  - destruct l2 as [|y t2]; [done|].
    specialize (Hf y). by rewrite filter_tied_head in Hf.
  - destruct Hs2 as [|y t2 Ht2 Hy].
    { specialize (Hf x). by rewrite filter_tied_head in Hf. }
    assert (x = y) as <-.
    { pose proof (Hf x) as Fx. pose proof (Hf y) as Fy.
      rewrite filter_tied_head in Fx. rewrite (filter_tied_head y) in Fy.
      rewrite filter_cons in Fx. rewrite filter_cons in Fy.
      destruct (decide (tied key lt x y)) as [|Hxy]; [congruence|].
      destruct (decide (tied key lt y x)) as [[? ?]|Hyx]; [by destruct Hxy|].
      destruct Hxy. split.
      - assert (x ∈ t2) as Hin.
        { apply (list_elem_of_filter (λ z, tied key lt x z)).
          rewrite <- Fx. left. }
        exact (proj1 (Forall_forall _ _) Hy x Hin).
      - assert (y ∈ t1) as Hin.
        { apply (list_elem_of_filter (λ z, tied key lt y z)).
          rewrite Fy. left. }
        exact (proj1 (Forall_forall _ _) Hx y Hin). }
    f_equal. apply IH; [done|]. intros z. specialize (Hf z).
    rewrite !filter_cons in Hf.
    destruct (decide (tied key lt z x)); congruence.
Qed.

Lemma stable_sort_unique (l l' : list A) :
  StronglySorted (not_after key lt) l' →
  (∀ z, filter (λ y, tied key lt z y) l' = filter (λ y, tied key lt z y) l) →
  l' = stable_sort key lt l.
Proof.
  intros Hs Hf. apply sorted_stable_unique.
  - done.
  - by apply stable_sort_sorted.
  - intros z. rewrite Hf. symmetry. apply stable_sort_filter.
    intros x y [Hzx _] [_ Hyz]. by eapply lt_negtrans.
Qed.
End SortedUnique.

(** ** The two strategies *)

Lemma StronglySorted_weaken {A} (R1 R2 : relation A) l :
  (∀ x y, R1 x y → R2 x y) → StronglySorted R1 l → StronglySorted R2 l.
Proof.
  intros HR. induction 1 as [|x l Hl IH Hx]; constructor; [done|].
  eapply Forall_impl; [exact Hx|]. intros y. apply HR.
Qed.

Lemma string_ltb_leb a b : String.ltb b a = false ↔ String.leb a b = true.
Proof.
  unfold String.ltb, String.leb. rewrite (String.compare_antisym a b).
  by destruct (String.compare b a).
Qed.

Lemma string_ltb_asym a b : String.ltb a b = true → String.ltb b a = false.
Proof.
  unfold String.ltb. rewrite (String.compare_antisym a b).
  by destruct (String.compare b a).
Qed.

Lemma string_ltb_negtrans a b c :
  String.ltb b a = false → String.ltb c b = false → String.ltb c a = false.
Proof.
  rewrite !string_ltb_leb. intros Hab Hbc.
  apply Is_true_true. apply Is_true_true in Hab, Hbc.
  exact (transitivity (R := String.le) Hab Hbc).
Qed.

Lemma Qltb_false x y : Qltb x y = false ↔ (y <= x)%Q.
Proof.
  unfold Qltb. rewrite negb_false_iff. apply Qle_bool_iff.
Qed.

Lemma Qltb_asym a b : Qltb a b = true → Qltb b a = false.
Proof.
  unfold Qltb. rewrite negb_true_iff, negb_false_iff. intros Hba.
  apply Qle_bool_iff. destruct (Qlt_le_dec b a) as [Hlt|Hle].
  - apply Qlt_le_weak in Hlt. apply Qle_bool_iff in Hlt. congruence.
  - done.
Qed.

Lemma Qltb_negtrans a b c :
  Qltb b a = false → Qltb c b = false → Qltb c a = false.
Proof. rewrite !Qltb_false. intros Hab Hbc. by eapply Qle_trans. Qed.

Lemma rating_key_ordering x : rating_key x = ordering_rating x.
Proof. unfold rating_key, ordering_rating. by destruct (restaurant_rating x). Qed.

Lemma load_restaurants_fold (l : list restaurant) (a : App) :
  fold_left
    (fun a r =>
       set_restaurant_list
         (restaurant_list a ++ [restaurant_item (restaurant_id r)]) a)
    l a
  = set_restaurant_list
      (restaurant_list a ++ map (λ r, restaurant_item (restaurant_id r)) l) a.
Proof.
  revert a. induction l as [|r l IH]; intros a; simpl.
  - rewrite app_nil_r. by destruct a.
  - rewrite IH. destruct a; unfold set_restaurant_list; simpl.
    by rewrite <- app_assoc.
Qed.

(** C7. Sorting by name returns the restaurants in ascending order of
    name; sorting by rating returns them in descending order of rating,
    where a restaurant without a rating counts as 4.0, and restaurants
    of equal rating keep their order. Both results hold the very
    records of the input, and listing the restaurants leaves the
    database as it was. *)
Theorem sort_strategies_spec (items : list restaurant) :
  (SortByName_sort items ≡ₚ items ∧
   StronglySorted
     (λ x y, String.leb (restaurant_name x) (restaurant_name y) = true)
     (SortByName_sort items)) ∧
  (SortByRating_sort items ≡ₚ items ∧
   StronglySorted
     (λ x y, (ordering_rating y <= ordering_rating x)%Q)
     (SortByRating_sort items) ∧
   ∀ q, filter (λ x, (ordering_rating x == q)%Q) (SortByRating_sort items)
        = filter (λ x, (ordering_rating x == q)%Q) items) ∧
  Forall (λ x, x ∈ items) (SortByName_sort items) ∧
  Forall (λ x, x ∈ items) (SortByRating_sort items) ∧
  ∀ a : App,
    db (load_restaurants a) = db a ∧
    restaurant_list (load_restaurants a)
    = map (λ r, restaurant_item (restaurant_id r))
          (if Nat.eqb (sort_combo a) 0
           then SortByName_sort (restaurants_file (db a))
           else SortByRating_sort (restaurants_file (db a))).
Proof.
  split; [|split; [|split; [|split]]].
  - split; [apply sorted_Permutation|].
    eapply StronglySorted_weaken;
      [|apply (stable_sort_sorted name_key String.ltb
                 string_ltb_asym string_ltb_negtrans)].
    intros x y Hxy. by apply string_ltb_leb.
  - split; [apply sorted_Permutation|]. split.
    + unfold SortByRating_sort, sorted.
      eapply StronglySorted_weaken;
        [|apply StronglySorted_rev,
            (stable_sort_sorted rating_key Qltb Qltb_asym Qltb_negtrans)].
      intros x y Hxy. unfold flip, not_after in Hxy.
      apply Qltb_false in Hxy. by rewrite <- !rating_key_ordering.
    + intros q. apply (sorted_filter rating_key Qltb).
      intros x y Hx Hy. apply Qltb_false.
      rewrite !rating_key_ordering, Hx, Hy. apply Qle_refl.
  - apply Forall_forall. intros x Hx.
    by rewrite <- (sorted_Permutation name_key String.ltb false items).
  - apply Forall_forall. intros x Hx.
    by rewrite <- (sorted_Permutation rating_key Qltb true items).
  - intros a. unfold load_restaurants.
    rewrite load_restaurants_fold. unfold execute_sort, load_restaurants_file.
    destruct a as [d ss cu c sw si sc]; simpl.
    split; [done|]. by destruct (Nat.eqb sc 0).
Qed.

Example sort_by_name_sample :
  map restaurant_name (SortByName_sort sample_restaurants)
  = ["Burger House"; "Cafe"; "Pizza Place"; "Sushi Bar"].
Proof. reflexivity. Qed.

Example sort_by_rating_sample :
  map restaurant_name (SortByRating_sort sample_restaurants)
  = ["Pizza Place"; "Sushi Bar"; "Burger House"; "Cafe"].
Proof. reflexivity. Qed.

Example sort_by_rating_keeps_missing_rating :
  map restaurant_rating (SortByRating_sort sample_restaurants)
  = [Some 4.9%Q; Some 4.5%Q; None; Some 4%Q].
Proof. reflexivity. Qed.

(** ** Substrings *)

Lemma prefix_spec sub s :
  String.prefix sub s = true ↔ ∃ post, s = sub +:+ post.
Proof.
  revert s. induction sub as [|c sub IH]; intros [|d s]; simpl.
  - split; [by exists ""|done].
  - split; [by exists (String d s)|done].
  - split; [done|by intros [? ?]].
  - destruct (Ascii.ascii_dec c d) as [->|Hne].
    + rewrite IH. split; intros [post H]; exists post.
      * by rewrite string_app_cons, H.
      * rewrite string_app_cons in H. congruence.
    + split; [done|]. intros [post H].
      rewrite string_app_cons in H. congruence.
Qed.

Lemma contains_empty sub : contains sub "" = String.prefix sub "" || false.
Proof. reflexivity. Qed.

Lemma contains_cons sub c s :
  contains sub (String c s) = String.prefix sub (String c s) || contains sub s.
Proof. reflexivity. Qed.

(** [contains sub s] is Python's [sub in s]: [s] is some text, then
    [sub], then some text. *)
Lemma contains_spec sub s :
  contains sub s = true ↔ ∃ pre post, s = pre +:+ sub +:+ post.
Proof.
  induction s as [|c s IH].
  - rewrite contains_empty, orb_false_r, prefix_spec. split.
    + intros [post H]. by exists "", post.
    + intros (pre & post & H). destruct pre; [by exists post|done].
  - rewrite contains_cons, orb_true_iff, prefix_spec, IH. split.
    + intros [[post H]|(pre & post & H)].
      * by exists "", post.
      * exists (String c pre), post. by rewrite string_app_cons, H.
    + intros (pre & post & H). destruct pre as [|d pre].
      * left. by exists post.
      * right. exists pre, post. rewrite string_app_cons in H. congruence.
Qed.

(** ** Search *)

Lemma lower_ascii_empty s : lower_ascii s = "" ↔ s = "".
Proof. by destruct s. Qed.

Lemma is_blank_false_nonempty s : is_blank s = false → s ≠ "".
Proof. by intros H ->. Qed.

Lemma set_search_subject_results ss a :
  results (search_subject (set_search_subject ss a)) = results ss.
Proof. reflexivity. Qed.

Lemma update_shows rs a :
  update rs a
  = set_search_results_list (shown_items rs)
      (set_search_results_list_shown true (set_search_results_label true a)).
Proof.
  unfold update, shown_items. destruct rs as [|r rs]; [done|].
  set (f := λ item, match item with
                    | restaurant_result id _ _ _ => restaurant_item id
                    | dish_result rid _ _ _ _ => dish_item rid
                    end).
  assert (∀ l b,
    fold_left
      (λ a item,
         match item with
         | restaurant_result id _ _ _ => addItem_search (restaurant_item id) a
         | dish_result rid _ _ _ _ => addItem_search (dish_item rid) a
         end) l b
    = set_search_results_list (search_results_list b ++ map f l) b) as Hfold.
  { induction l as [|x l IH]; intros b; simpl.
    - rewrite app_nil_r. by destruct b.
    - rewrite IH. destruct x, b; unfold addItem_search, set_search_results_list;
        simpl; by rewrite <- app_assoc. }
  by rewrite Hfold.
Qed.

Section SearchFacts.
Variable lower : string → string.

Lemma scan_menu r query (menu : list menu_item) (acc : list search_result) :
  fold_left
    (fun results item =>
       if contains query (lower (item_name item)) then
         results ++ [dish_result (restaurant_id r) (restaurant_name r)
                       (item_name item) (item_description item)
                       (item_price item)]
       else results)
    menu acc
  = acc ++ map (dish_hit r)
             (filter (λ item, contains query (lower (item_name item)) = true)
                     menu).
Proof.
  revert acc. induction menu as [|item menu IH]; intros acc; simpl.
  - by rewrite app_nil_r.
  - rewrite IH, filter_cons.
    destruct (contains query (lower (item_name item))) eqn:E.
    + rewrite decide_True by done. simpl. by rewrite <- app_assoc.
    + by rewrite decide_False by done.
Qed.

Lemma scan_restaurants query restaurants acc :
  fold_left (search_restaurant lower (lower query)) restaurants acc
  = acc ++ search_spec lower query restaurants.
Proof.
  revert acc. induction restaurants as [|r rs IH]; intros acc; simpl.
  - by rewrite app_nil_r.
  - rewrite IH. unfold search_restaurant. rewrite scan_menu.
    unfold matches_query, restaurant_hit.
    destruct (contains (lower query) (lower (restaurant_name r)));
      simpl; by rewrite <- !app_assoc.
Qed.

(** What [handle_search] publishes for a query that is not empty once
    lowered, whoever listens. *)
Lemma handle_search_publishes a :
  lower (search_input a) ≠ "" →
  results (search_subject (handle_search lower a))
  = search_spec lower (search_input a) (restaurants_file (db a)).
Proof.
  intros Hq. unfold handle_search.
  rewrite bool_decide_eq_false_2 by done.
  unfold update_results, load_restaurants_file. simpl.
  by rewrite scan_restaurants.
Qed.

Lemma handle_search_clears a :
  lower (search_input a) = "" →
  handle_search lower a
  = set_search_results_list []
      (set_search_results_list_shown false
         (set_search_results_label false a)).
Proof.
  intros Hq. unfold handle_search. by rewrite bool_decide_eq_true_2.
Qed.
(** With the window as the one listener, the result list shows the
    published results. *)
Lemma handle_search_shows a :
  lower (search_input a) ≠ "" →
  _observers (subject (search_subject a)) = [the_window] →
  search_results_list (handle_search lower a)
  = shown_items (search_spec lower (search_input a) (restaurants_file (db a))).
Proof.
  intros Hq Hobs. unfold handle_search.
  rewrite bool_decide_eq_false_2 by done.
  unfold update_results, notify, load_restaurants_file. simpl.
  rewrite Hobs. simpl. rewrite update_shows, scan_restaurants. done.
Qed.
End SearchFacts.

(** The claim C6 as stated fails, because [str.lower] lowers a capital
    sigma by its place in the word: the name of the restaurant begins
    with the query as it is written, yet the search for it finds
    nothing, while the same query in small letters finds the
    restaurant. *)
Lemma final_sigma_query_finds_nothing :
  contains "ΟΔΟΣ" "ΟΔΟΣΗΜΑ" = true ∧
  lower_greek "ΟΔΟΣ" = "οδος" ∧
  lower_greek "ΟΔΟΣΗΜΑ" = "οδοσημα" ∧
  results (search_subject
             (type_search lower_greek "ΟΔΟΣ" (new_app greek_catalog)))
  = [] ∧
  search_results_list (type_search lower_greek "ΟΔΟΣ" (new_app greek_catalog))
  = [text_item "Ничего не найдено"] ∧
  results (search_subject
             (type_search lower_greek "οδοσ" (new_app greek_catalog)))
  = [restaurant_result 7 "ΟΔΟΣΗΜΑ" "Souvlaki" 4.6%Q].
Proof. repeat split; reflexivity. Qed.

Example lower_greek_samples :
  lower_greek "ΟΔΟΣ ΟΝΕΙΡΩΝ" = "οδος ονειρων" ∧
  lower_greek "Pizza ΣΟΥΒΛΑΚΙ ΜΑΣ!" = "pizza σουβλακι μας!" ∧
  lower_greek "ΩΜΕΓΑ ΠΙΤΣΑ" = "ωμεγα πιτσα" ∧
  lower_greek "Σ Σ" = "σ σ" ∧
  lower_greek "ΑΣΣ" = "ασς" ∧
  lower_greek "οδοσ" = "οδοσ".
Proof. repeat split; reflexivity. Qed.

(** C6, amended. For a query that is not blank, [handle_search]
    publishes, in this order: restaurant by restaurant as stored, one
    restaurant result if the lower-case form of the restaurant's name
    contains the lower-case form of the query, then one dish result for
    each of its menu items whose name does, in menu order, whether or
    not the restaurant matched. So two queries with the same lower-case
    form publish the same results. *)
Theorem handle_search_spec (lower : string → string) (a : App) :
  (∀ s, lower s = "" → s = "") →
  is_blank (search_input a) = false →
  results (search_subject (handle_search lower a))
  = search_spec lower (search_input a) (restaurants_file (db a)) ∧
  ∀ text,
    lower text = lower (search_input a) →
    results (search_subject (type_search lower text a))
    = results (search_subject (handle_search lower a)).
Proof.
  intros Hlower Hblank.
  assert (lower (search_input a) ≠ "") as Hq.
  { intros Hq. by apply Hlower, is_blank_false_nonempty in Hq. }
  split; [by apply handle_search_publishes|].
  intros text Htext. unfold type_search.
  rewrite !handle_search_publishes; [|done|simpl; congruence].
  unfold search_spec, matches_query. simpl. by rewrite Htext.
Qed.

Lemma handle_search_spec_witness :
  results (search_subject
             (handle_search lower_ascii
                (set_search_input "Piz" (new_app pizza_catalog))))
  = [ restaurant_result 1 "Pizza Place" "Wood oven" 4.5%Q;
      dish_result 1 "Pizza Place" "Pizza Margherita" "Tomato, basil" 450%Q;
      dish_result 2 "Trattoria" "White pizza" "No tomato" 480%Q ] ∧
  results (search_subject
             (type_search lower_ascii "piz"
                (set_search_input "Piz" (new_app pizza_catalog))))
  = results (search_subject
               (handle_search lower_ascii
                  (set_search_input "Piz" (new_app pizza_catalog)))).
Proof.
  destruct (handle_search_spec lower_ascii
              (set_search_input "Piz" (new_app pizza_catalog))) as [H1 H2].
  - intros s. apply lower_ascii_empty.
  - reflexivity.
  - split; [exact H1|]. apply H2. reflexivity.
Defined.

Example search_is_case_insensitive :
  results (search_subject
             (type_search lower_ascii "Piz" (new_app pizza_catalog)))
  = results (search_subject
               (type_search lower_ascii "piz" (new_app pizza_catalog))).
Proof. reflexivity. Qed.

Example search_pizza_place :
  search_results_list (type_search lower_ascii "place" (new_app pizza_catalog))
  = [restaurant_item 1].
Proof. reflexivity. Qed.

Example search_nothing_found :
  search_results_list (type_search lower_ascii "sushi" (new_app pizza_catalog))
  = [text_item "Ничего не найдено"].
Proof. reflexivity. Qed.

Example search_pizza_one_restaurant :
  results (search_subject
             (type_search lower_ascii "pizza" (new_app pizza_only_catalog)))
  = [restaurant_result 1 "Pizza Place" "Wood oven" 4.8%Q].
Proof. reflexivity. Qed.

(** The claim C3 as stated fails: on a catalogue with a restaurant
    whose name holds three spaces in a row, the query of three spaces
    lists that restaurant. *)
Lemma blank_query_is_searched :
  ¬ (clears_results lower_ascii "" ∧ clears_results lower_ascii "   ").
Proof.
  intros [_ H]. specialize (H (new_app spaced_catalog)).
  vm_compute in H. discriminate.
Qed.

Example blank_query_results :
  results (search_subject
             (type_search lower_ascii "   " (new_app spaced_catalog)))
  = [restaurant_result 5 "Wok   Box" "Noodles" 4.2%Q] ∧
  search_results_list (type_search lower_ascii "   " (new_app spaced_catalog))
  = [restaurant_item 5].
Proof. split; reflexivity. Qed.

(** C3, amended. The empty query clears: the result list is emptied and
    hidden with its label, nothing is published and nothing else
    changes. A query of white space is not empty and is searched like
    any other text: it publishes the restaurants and dishes whose names
    contain it. *)
Theorem empty_query_clears (lower : string → string) :
  (∀ s, lower s = "" ↔ s = "") →
  clears_results lower "" ∧
  (∀ a, type_search lower "" a
        = set_search_results_list []
            (set_search_results_list_shown false
               (set_search_results_label false (set_search_input "" a)))) ∧
  (∀ a, results (search_subject (type_search lower "   " a))
        = search_spec lower "   " (restaurants_file (db a))).
Proof.
  intros Hlower.
  assert (∀ a, type_search lower "" a
        = set_search_results_list []
            (set_search_results_list_shown false
               (set_search_results_label false (set_search_input "" a))))
    as Hclear.
  { intros a. unfold type_search. apply handle_search_clears.
    simpl. by apply Hlower. }
  split; [|split; [exact Hclear|]].
  - intros a. by rewrite Hclear.
  - intros a. unfold type_search. rewrite handle_search_publishes; [done|].
    simpl. intros Hq. apply (proj1 (Hlower _)) in Hq. discriminate.
Qed.

Lemma empty_query_clears_witness :
  clears_results lower_ascii "" ∧
  (∀ a, type_search lower_ascii "" a
        = set_search_results_list []
            (set_search_results_list_shown false
               (set_search_results_label false (set_search_input "" a)))) ∧
  (∀ a, results (search_subject (type_search lower_ascii "   " a))
        = search_spec lower_ascii "   " (restaurants_file (db a))).
Proof.
  apply (empty_query_clears lower_ascii). exact lower_ascii_empty.
Defined.

(** ** Cart and orders *)

Lemma same_session_refl a : same_session a a.
Proof. by repeat split. Qed.

Lemma same_session_trans a b c :
  same_session a b → same_session b c → same_session a c.
Proof.
  unfold same_session. intros (?&?&?&?&?&?) (?&?&?&?&?&?).
  repeat split; congruence.
Qed.

Lemma fold_left_same_session {X} (f : App → X → App) (l : list X) a :
  (∀ a x, same_session (f a x) a) → same_session (fold_left f l a) a.
Proof.
  intros Hf. revert a. induction l as [|x l IH]; intros a; simpl.
  - apply same_session_refl.
  - eapply same_session_trans; [apply IH|apply Hf].
Qed.

Lemma update_same_session rs a : same_session (update rs a) a.
Proof.
  unfold update. destruct rs as [|r rs]; [by repeat split|].
  eapply same_session_trans; [apply fold_left_same_session|by repeat split].
  intros a' [id ? ? ?|rid ? ? ? ?]; by repeat split.
Qed.

Lemma notify_same_session rs (s : Subject window) a :
  same_session (notify window_update rs s a) a.
Proof.
  unfold notify. apply fold_left_same_session.
  intros a' []. apply update_same_session.
Qed.

Lemma load_restaurants_same_session a : same_session (load_restaurants a) a.
Proof.
  unfold load_restaurants. rewrite load_restaurants_fold. by repeat split.
Qed.

Section CartFacts.
Variable lower : string → string.
Variable num_add : Q → Q → Q.
Variable format_2f : Q → string.

Lemma handle_search_same_session a : same_session (handle_search lower a) a.
Proof.
  unfold handle_search. case_bool_decide; [by repeat split|].
  unfold update_results. simpl.
  eapply same_session_trans; [|apply notify_same_session]. by repeat split.
Qed.

Lemma search_input_clear_same_session a :
  same_session (search_input_clear lower a) a.
Proof.
  unfold search_input_clear. case_bool_decide; [apply same_session_refl|].
  eapply same_session_trans; [apply handle_search_same_session|].
  by repeat split.
Qed.

Lemma show_main_same_session a u :
  current_user a = Some u →
  same_session (show_main lower a) (set_stacked_widget main_page a).
Proof.
  intros Hu. unfold show_main. rewrite Hu.
  set (a1 := set_welcome_label _ a).
  assert (same_session (search_input_clear lower (load_restaurants a1)) a)
    as (H1 & H2 & H3 & H4 & H5 & _).
  { eapply same_session_trans; [apply search_input_clear_same_session|].
    eapply same_session_trans; [apply load_restaurants_same_session|].
    by repeat split. }
  by repeat split.
Qed.

Lemma update_cart_fold (lines : list cart_line) (a : App) (total : Q) :
  fold_left
    (fun '(a, total) item =>
       (set_cart_list
          (cart_list a ++
             [line_name item +:+ " - " +:+ format_2f (line_price item)
              +:+ " ₽" +:+ nl +:+ "Ресторан: " +:+ line_restaurant item]) a,
        num_add total (line_price item)))
    lines (a, total)
  = (set_cart_list
       (cart_list a ++
          map (λ item,
                 line_name item +:+ " - " +:+ format_2f (line_price item)
                 +:+ " ₽" +:+ nl +:+ "Ресторан: " +:+ line_restaurant item)
              lines) a,
     fold_left (λ total item, num_add total (line_price item)) lines total).
Proof.
  revert a total. induction lines as [|l lines IH]; intros a total; simpl.
  - rewrite app_nil_r. by destruct a.
  - rewrite IH. destruct a; unfold set_cart_list; simpl.
    by rewrite <- app_assoc.
Qed.

(** [update_cart] redraws the cart list and shows the running total. *)
Lemma update_cart_spec a :
  update_cart num_add format_2f a
  = set_total_label
      ("Итого: " +:+ format_2f (cart_total num_add (cart a)) +:+ " ₽")
      (set_cart_list
         (map (λ item,
                 line_name item +:+ " - " +:+ format_2f (line_price item)
                 +:+ " ₽" +:+ nl +:+ "Ресторан: " +:+ line_restaurant item)
              (cart a)) a).
Proof.
  unfold update_cart. 
  change (cart a) with (cart (set_cart_list [] a)) at 1.
  rewrite update_cart_fold. by destruct a.
Qed.



Lemma summary_fold (lines : list cart_line) (summary : string) (total : Q) :
  snd (fold_left
         (fun '(summary, total) item =>
            (summary +:+ "• " +:+ line_name item +:+ " - "
               +:+ format_2f (line_price item) +:+ " ₽" +:+ nl,
             num_add total (line_price item)))
         lines (summary, total))
  = fold_left (λ total item, num_add total (line_price item)) lines total.
Proof.
  revert summary total.
  induction lines as [|l lines IH]; intros summary total; simpl; [done|].
  apply IH.
Qed.
End CartFacts.

Section OrderFacts.
Variable lower : string → string.
Variable num_add : Q → Q → Q.
Variable format_2f : Q → string.

Lemma show_order_confirmation_empty a :
  cart a = [] →
  show_order_confirmation num_add format_2f a
  = Ok (message_box_exec cart_is_empty_warning a).
Proof. intros Hcart. unfold show_order_confirmation. by rewrite Hcart. Qed.

Lemma show_order_confirmation_nonempty a u :
  cart a ≠ [] →
  current_user a = Some u →
  ∃ listing,
    show_order_confirmation num_add format_2f a
    = Ok (set_stacked_widget order_confirmation_page
            (set_delivery_address (address (user_fields u))
               (set_order_summary
                  (listing +:+ nl +:+ "Итого: "
                   +:+ format_2f (cart_total num_add (cart a)) +:+ " ₽")
                  a))).
Proof.
  intros Hcart Hu. unfold show_order_confirmation, cart_total.
  rewrite <- (summary_fold num_add format_2f (cart a) "" 0%Q).
  destruct (fold_left _ (cart a) ("", 0%Q)) as [summary total].
  exists summary. destruct (cart a) as [|l ls]; [done|].
  simpl. by rewrite Hu.
Qed.

Lemma confirm_order_spec a u payment_method now :
  current_user a = Some u →
  ∃ o : order,
    confirm_order lower payment_method now a
    = Ok (show_main lower
            (message_box_exec
               (information "Заказ подтвержден"
                  ("Ваш заказ успешно оформлен!" +:+ nl +:+ "Способ оплаты: "
                   +:+ payment_method))
               (set_cart []
                  (set_db (save_orders (orders_file (db a) ++ [o]) (db a))
                          a)))) ∧
    o !! "user" = Some (VStr (login (user_fields u))) ∧
    o !! "date" = Some (VStr now) ∧
    o !! "items" = Some (VItems (cart a)) ∧
    o !! "address" = Some (VStr (address (user_fields u))) ∧
    o !! "payment_method" = Some (VStr payment_method) ∧
    o !! "status" = Some (VStr "В обработке") ∧
    o !! "total" = None ∧
    size o = 6.
Proof.
  intros Hu. unfold confirm_order. rewrite Hu. eexists. split; [done|].
  repeat split; by simplify_map_eq.
Qed.
End OrderFacts.

Section Clicks.
Variable lower : string → string.
Variable strip : string → string.
Variable num_add : Q → Q → Q.
Variable format_2f : Q → string.






End Clicks.



Example two_lines_total :
  format_2f_exact (cart_total Qplus two_lines) = "349.50".
Proof. reflexivity. Qed.

(** * Further properties *)

(** ** UserBuilder *)

Lemma run_builder_call_lookup c d k :
  run_builder_call c d !! k
  = if String.eqb (call_key c) k then Some (call_value c) else d !! k.
Proof.
  destruct c; cbn [run_builder_call call_key call_value];
    unfold set_first_name, set_last_name, set_birth_date, set_email,
      set_login, set_password, set_repeat_password, set_address;
    rewrite lookup_insert;
    (case_decide as Hk; [subst k; by rewrite String.eqb_refl|]);
    by apply String.eqb_neq in Hk as ->.
Qed.

Lemma fold_builder_lookup calls d k :
  fold_left (λ d c, run_builder_call c d) calls d !! k
  = if existsb (λ c, String.eqb (call_key c) k) calls
    then Some (last_set k calls) else d !! k.
Proof.
  revert d. induction calls as [|c calls IH]; intros d; simpl; [done|].
  rewrite IH, run_builder_call_lookup.
  destruct (existsb _ calls); [by rewrite orb_true_r|].
  rewrite orb_false_r. by destruct (String.eqb (call_key c) k).
Qed.

Lemma UserBuilder_init_lookup k :
  UserBuilder_init !! k = if bool_decide (k ∈ form_keys) then Some "" else None.
Proof.
  unfold UserBuilder_init, form_keys.
  repeat (rewrite lookup_insert; case_decide;
          [subst k; by rewrite bool_decide_eq_true_2 by in_keys|]).
  rewrite lookup_empty. rewrite bool_decide_eq_false_2; [done|].
  rewrite !elem_of_cons, elem_of_nil. intuition congruence.
Qed.

Lemma call_key_form c : call_key c ∈ form_keys.
Proof. destruct c; simpl; unfold form_keys; in_keys. Qed.

Lemma last_set_never k calls :
  existsb (λ c, String.eqb (call_key c) k) calls = false → last_set k calls = "".
Proof.
  induction calls as [|c calls IH]; simpl; [done|].
  intros [Hc Hrest]%orb_false_iff. by rewrite Hrest, Hc.
Qed.

Lemma run_builder_form_key calls k :
  k ∈ form_keys → run_builder calls !! k = Some (last_set k calls).
Proof.
  intros Hk. unfold run_builder, UserBuilder_build.
  rewrite fold_builder_lookup, UserBuilder_init_lookup.
  rewrite (bool_decide_eq_true_2 _ Hk).
  destruct (existsb _ calls) eqn:E; [done|]. by rewrite (last_set_never _ _ E).
Qed.

(** X2. Whatever setters are called on a builder, in whatever order and
    however often, the built form has exactly the eight keys of a
    registration form, and each key holds the value of the last call
    that set it, or the empty string when none did. *)
Theorem run_builder_keys (calls : list builder_call) (k : string) :
  run_builder calls !! k
  = if bool_decide (k ∈ form_keys) then Some (last_set k calls) else None.
Proof.
  unfold run_builder, UserBuilder_build.
  rewrite fold_builder_lookup, UserBuilder_init_lookup.
  destruct (existsb _ calls) eqn:E.
  - rewrite bool_decide_eq_true_2; [done|].
    apply existsb_exists in E as (c & _ & Hc).
    apply String.eqb_eq in Hc as <-. apply call_key_form.
  - by rewrite (last_set_never _ _ E).
Qed.

Example run_builder_sample :
  run_builder sample_builder_calls !! "login" = Some "eva" ∧
  run_builder sample_builder_calls !! "email" = Some "" ∧
  run_builder sample_builder_calls !! "role" = None.
Proof. by repeat split. Qed.

(** ** Subject: detach *)

Section DetachFacts.
Context {observer : Type} `{EqDecision observer}.
Implicit Types (o : observer) (l : list observer).

Lemma list_remove_absent o l : o ∉ l → list_remove o l = Raise ValueError.
Proof.
  induction l as [|y l IH]; simpl; [done|].
  rewrite not_elem_of_cons. intros [Hne Hl].
  rewrite decide_False by done. by rewrite IH.
Qed.

Lemma list_remove_present o l :
  o ∈ l →
  ∃ pre post, l = pre ++ o :: post ∧ (o ∉ pre) ∧ list_remove o l = Ok (pre ++ post).
Proof.
  induction l as [|y l IH]; simpl; [by intros ?%elem_of_nil|].
  destruct (decide (y = o)) as [->|Hne].
  - intros _. exists [], l. split; [done|]. split; [apply not_elem_of_nil|done].
  - rewrite elem_of_cons. intros [->|Hl]; [done|].
    destruct (IH Hl) as (pre & post & -> & Hpre & ->).
    exists (y :: pre), post. split; [done|]. split; [|done].
    rewrite not_elem_of_cons. split; [congruence|done].
Qed.
Lemma list_remove_last o l : o ∉ l → list_remove o (l ++ [o]) = Ok l.
Proof.
  induction l as [|y l IH]; simpl.
  - intros _. by rewrite decide_True.
  - rewrite not_elem_of_cons. intros [Hne Hl].
    rewrite decide_False by done. by rewrite IH.
Qed.
End DetachFacts.

(** X4. [detach] raises [ValueError] for an observer that is not
    attached; for an attached observer it removes its earliest
    registration and keeps the others in their order, so detaching right
    after attaching a new observer gives the subject back. *)
Theorem detach_spec {observer : Type} `{EqDecision observer}
    (o : observer) (s : Subject observer) :
  (o ∉ _observers s → detach o s = Raise ValueError) ∧
  (o ∈ _observers s →
   ∃ pre post,
     _observers s = pre ++ o :: post ∧ (o ∉ pre) ∧
     detach o s = Ok {| _observers := pre ++ post |}) ∧
  (o ∉ _observers s → detach o (attach o s) = Ok s).
Proof.
  unfold detach. split; [|split].
  - intros Hno. by rewrite list_remove_absent.
  - intros Hin.
    destruct (list_remove_present o _ Hin) as (pre & post & Hl & Hpre & ->).
    by exists pre, post.
  - intros Hno. simpl. rewrite list_remove_last by done. by destruct s.
Qed.

(** ** Registration followed by login *)

Lemma next_matching_app_found users more lg pw u :
  next_matching users lg pw = Ok (Some u) →
  next_matching (users ++ more) lg pw = Ok (Some u).
Proof.
  induction users as [|v users IH]; simpl; [done|].
  unfold getitem at 1 3.
  destruct (v !! "login") as [vl|]; [|done]. simpl.
  destruct (String.eqb vl lg); [|exact IH].
  unfold getitem. destruct (v !! "password") as [vp|]; [|done]. simpl.
  destruct (String.eqb vp pw); [done|exact IH].
Qed.

Lemma next_matching_app_other users more lg pw :
  Forall has_login users →
  lg ∉ logins users →
  next_matching (users ++ more) lg pw = next_matching more lg pw.
Proof.
  induction 1 as [|v users [vl Hvl] _ IH]; [done|].
  rewrite logins_cons, Hvl, not_elem_of_cons. intros [Hne Hrest].
  simpl. unfold getitem at 1. rewrite Hvl. simpl.
  assert (String.eqb vl lg = false) as -> by (apply String.eqb_neq; congruence).
  by apply IH.
Qed.

Lemma stored_record_lookup user_data k :
  k ≠ "role" → k ≠ "repeat_password" →
  stored_record user_data !! k = user_data !! k.
Proof.
  intros H1 H2. unfold stored_record.
  rewrite lookup_insert_ne by done. by rewrite lookup_delete_ne.
Qed.

Lemma stored_record_well_formed user_data :
  well_formed_account user_data → well_formed_account (stored_record user_data).
Proof.
  unfold well_formed_account, account_keys. rewrite !Forall_cons.
  rewrite !stored_record_lookup by done. rewrite !Forall_nil. done.
Qed.

(** ** The builder after a registration *)

Lemma register_user_success user_data d m :
  (register_user user_data d).1 = Ok (true, m) →
  register_user user_data d
  = (Ok (true, msg_registered),
     save_users (users_file d ++ [stored_record user_data]) d) ∧
  register_user_arg user_data d = stored_record user_data.
Proof.
  unfold register_user, register_user_arg, stored_record, load_users.
  destruct (any_login_equal _ _) as [[|]|]; cbn [fst]; try done.
  destruct (getitem user_data "password") as [pw|]; cbn [fst]; try done.
  destruct (getitem user_data "repeat_password") as [rp|]; cbn [fst];
    try done.
  destruct (negb (String.eqb pw rp)); cbn [fst]; try done.
  by destruct (negb (re_match_password pw)).
Qed.

Lemma register_user_missing_repeat user_data d lg pw :
  Forall has_login (users_file d) →
  user_data !! "login" = Some lg →
  lg ∉ logins (users_file d) →
  user_data !! "password" = Some pw →
  user_data !! "repeat_password" = None →
  register_user user_data d = (Raise (KeyError "repeat_password"), d).
Proof.
  intros Hwf Hlg Hnew Hpw Hrp. unfold register_user, load_users.
  rewrite (any_login_equal_spec _ _ lg Hwf Hlg).
  rewrite (bool_decide_eq_false_2 _ Hnew).
  unfold getitem. by rewrite Hpw, Hrp.
Qed.

Lemma stored_record_no_repeat user_data :
  stored_record user_data !! "repeat_password" = None.
Proof.
  unfold stored_record. rewrite lookup_insert_ne by done.
  apply lookup_delete_eq.
Qed.

(** The keys [register_user] subscripts, in the dict of a builder that
    registered before and was given the calls [more]. *)
Lemma reused_builder_lookups calls more :
  let form :=
    fold_left (λ d c, run_builder_call c d) more
              (stored_record (run_builder calls)) in
  form !! "login"
  = Some (if is_set "login" more then last_set "login" more
          else last_set "login" calls) ∧
  form !! "password"
  = Some (if is_set "password" more then last_set "password" more
          else last_set "password" calls) ∧
  form !! "repeat_password"
  = if is_set "repeat_password" more
    then Some (last_set "repeat_password" more) else None.
Proof.
  cbv zeta. rewrite !fold_builder_lookup. unfold is_set.
  rewrite !stored_record_lookup by done. rewrite stored_record_no_repeat.
  rewrite !run_builder_form_key by (unfold form_keys; in_keys).
  repeat split; by destruct (existsb _ more).
Qed.

(** X3. The builder and [register_user] share one dict. The form of a
    fresh builder, whatever setters were called, never makes
    [register_user] raise when the stored accounts have logins. But
    when that registration succeeds, the builder's own dict has become
    the stored record, without the repeated password: if the builder
    is used again with a login that is new and the repeated password
    is not set again, [register_user] raises
    [KeyError: 'repeat_password'] and stores nothing; if the repeated
    password is set again it returns as usual. *)
Theorem builder_reuse_after_registration
    (calls more : list builder_call) (d : Database) :
  Forall has_login (users_file d) →
  let first := register_built calls UserBuilder_init d in
  let again := register_built more first.2 first.1.2 in
  (∃ success message, first.1.1 = Ok (success, message)) ∧
  (first.1.1 = Ok (true, msg_registered) →
   first.2 = stored_record (run_builder calls) ∧
   (is_set "repeat_password" more = false →
    is_set "login" more = true →
    last_set "login" more ∉ logins (users_file first.1.2) →
    again.1 = (Raise (KeyError "repeat_password"), first.1.2)) ∧
   (is_set "repeat_password" more = true →
    ∃ success message, again.1.1 = Ok (success, message))).
Proof.
  intros Hwf first again.
  assert (first = (register_user (run_builder calls) d,
                   register_user_arg (run_builder calls) d)) as Hfirst
    by reflexivity.
  split.
  { rewrite Hfirst. cbn [fst].
    rewrite (register_user_cases (run_builder calls) d
               (last_set "login" calls) (last_set "password" calls)
               (last_set "repeat_password" calls) Hwf)
      by (apply run_builder_form_key; unfold form_keys; in_keys).
    repeat case_bool_decide; try destruct (negb _); by eexists _, _. }
  intros Hsucc. rewrite Hfirst in Hsucc. cbn [fst] in Hsucc.
  destruct (register_user_success _ _ _ Hsucc) as [Hreg Harg].
  assert (first.2 = stored_record (run_builder calls)) as Hb
    by (rewrite Hfirst; exact Harg).
  assert (first.1.2
          = save_users (users_file d ++ [stored_record (run_builder calls)]) d)
    as Hd by (rewrite Hfirst; cbn [fst]; by rewrite Hreg).
  assert (Forall has_login (users_file first.1.2)) as Hwf1.
  { rewrite Hd. cbn. apply Forall_app. split; [done|].
    constructor; [|constructor]. unfold has_login.
    rewrite stored_record_login.
    rewrite run_builder_form_key by (unfold form_keys; in_keys). by eexists. }
  destruct (reused_builder_lookups calls more) as (Hlg & Hpw & Hrp).
  assert (again.1
          = register_user
              (fold_left (λ d c, run_builder_call c d) more
                         (stored_record (run_builder calls)))
              first.1.2) as Hagain
    by (unfold again, register_built, UserBuilder_build; by rewrite Hb).
  split; [done|]. split.
  - intros Hnorp Hset Hnew. rewrite Hagain.
    rewrite Hset in Hlg. rewrite Hnorp in Hrp.
    by eapply register_user_missing_repeat.
  - intros Hsetrp. rewrite Hagain. rewrite Hsetrp in Hrp.
    rewrite (register_user_cases _ _ _ _ _ Hwf1 Hlg Hpw Hrp).
    repeat case_bool_decide; try destruct (negb _); by eexists _, _.
Qed.

Lemma builder_reuse_after_registration_witness :
  (register_built sample_builder_calls UserBuilder_init two_accounts).1.1
  = Ok (true, msg_registered) ∧
  (register_built [call_set_login "frank"]
     (register_built sample_builder_calls UserBuilder_init two_accounts).2
     (register_built sample_builder_calls UserBuilder_init two_accounts).1.2).1
  = (Raise (KeyError "repeat_password"),
     (register_built sample_builder_calls UserBuilder_init two_accounts).1.2).
Proof.
  assert (Forall has_login (users_file two_accounts)) as Hwf
    by (repeat constructor; by eexists).
  assert ((register_built sample_builder_calls UserBuilder_init
             two_accounts).1.1 = Ok (true, msg_registered)) as Hsucc
    by reflexivity.
  split; [exact Hsucc|].
  destruct (builder_reuse_after_registration sample_builder_calls
              [call_set_login "frank"] two_accounts Hwf)
    as (_ & Hreuse).
  destruct (Hreuse Hsucc) as (_ & Hraise & _).
  apply Hraise; [reflexivity|reflexivity|].
  apply (bool_decide_unpack _). by vm_compute.
Defined.

(** X5. A registration that succeeded can log in: afterwards
    [login_user] with the login and password of the form returns a
    [RegularUser] that carries the fields of the form and the role
    ["user"], whatever role the form may have held. *)
Theorem register_then_login (user_data : dict) (d : Database)
    (lg pw : string) :
  Forall has_login (users_file d) →
  well_formed_account user_data →
  user_data !! "login" = Some lg →
  user_data !! "password" = Some pw →
  (register_user user_data d).1 = Ok (true, msg_registered) →
  ∃ f,
    login_user lg pw (register_user user_data d).2
    = (Ok (Some (RegularUser f)), (register_user user_data d).2) ∧
    role f = "user" ∧
    login f = lg ∧ password f = pw ∧
    user_data !! "first_name" = Some (first_name f) ∧
    user_data !! "last_name" = Some (last_name f) ∧
    user_data !! "birth_date" = Some (birth_date f) ∧
    user_data !! "email" = Some (email f) ∧
    user_data !! "address" = Some (address f).
Proof.
  intros Hlogins Hwf Hlg Hpw Hok.
  destruct (register_user_database user_data d) as [Hsame|[Hany Heq]].
  { exfalso. revert Hok Hsame. unfold register_user, load_users.
    destruct (any_login_equal _ _) as [[|]|]; try done.
    destruct (getitem user_data "password"); try done.
    destruct (getitem user_data "repeat_password"); try done.
    destruct (negb _); try done. destruct (negb _); try done.
    simpl. intros _ Hd.
    apply (f_equal users_file) in Hd. simpl in Hd.
    apply (f_equal length) in Hd. rewrite length_app in Hd. simpl in Hd. lia. }
  rewrite Heq. simpl.
  assert (lg ∉ logins (users_file d)) as Hfree.
  { rewrite (any_login_equal_spec _ _ lg Hlogins Hlg) in Hany.
    intros Hin. by rewrite bool_decide_eq_true_2 in Hany. }
  destruct (AbstractUser_init_ok _ (stored_record_well_formed _ Hwf))
    as (f & Hf & H1 & H2 & H3 & H4 & H5 & H6 & H7 & H8).
  rewrite !stored_record_lookup in * by done.
  unfold login_user, load_users. simpl.
  rewrite (next_matching_app_other _ _ _ _ Hlogins Hfree). simpl.
  unfold getitem. rewrite !stored_record_lookup by done. rewrite Hlg, Hpw.
  simpl. rewrite !String.eqb_refl.
  assert (stored_record user_data !! "role" = Some "user") as Hrole.
  { unfold stored_record. by rewrite lookup_insert_eq. }
  rewrite bool_decide_eq_false_2.
  2:{ intros Hempty. by rewrite Hempty, lookup_empty in Hrole. }
  rewrite bool_decide_eq_false_2 by (by rewrite Hrole).
  unfold regular_create_user. rewrite Hf. simpl.
  exists f. split; [done|]. rewrite Hrole in H8.
  repeat split; try done; congruence.
Qed.

Lemma register_then_login_witness :
  ∃ f,
    login_user "alice" "abc123" (register_user alice_good_form two_accounts).2
    = (Ok (Some (RegularUser f)),
       (register_user alice_good_form two_accounts).2) ∧
    role f = "user" ∧
    login f = "alice" ∧ password f = "abc123" ∧
    alice_good_form !! "first_name" = Some (first_name f) ∧
    alice_good_form !! "last_name" = Some (last_name f) ∧
    alice_good_form !! "birth_date" = Some (birth_date f) ∧
    alice_good_form !! "email" = Some (email f) ∧
    alice_good_form !! "address" = Some (address f).
Proof.
  apply (register_then_login alice_good_form two_accounts "alice" "abc123").
  - repeat constructor; by eexists.
  - repeat constructor; by eexists.
  - reflexivity.
  - reflexivity.
  - reflexivity.
Defined.

(** X6. Registration never changes whom a stored login and password
    authenticate: a pair that logged in before any [register_user] call
    logs in as the same account after it. *)
Theorem register_keeps_logins_working (user_data : dict) (d : Database)
    (lg pw : string) (acc : user) :
  (login_user lg pw d).1 = Ok (Some acc) →
  (login_user lg pw (register_user user_data d).2).1 = Ok (Some acc).
Proof.
  intros Hlogin.
  destruct (register_user_database user_data d) as [->|[_ ->]]; [done|].
  revert Hlogin. unfold login_user, load_users. simpl.
  destruct (next_matching (users_file d) lg pw) as [[u|]|] eqn:Hnext;
    try done.
  by rewrite (next_matching_app_found _ _ _ _ _ Hnext).
Qed.

Lemma register_keeps_logins_working_witness :
  (login_user "bob" "hunter2" two_accounts).1
  = (login_user "bob" "hunter2"
       (register_user alice_good_form two_accounts).2).1.
Proof.
  destruct (login_user "bob" "hunter2" two_accounts).1 as [[acc|]|] eqn:E;
    [|vm_compute in E; discriminate..].
  symmetry.
  exact (register_keeps_logins_working alice_good_form two_accounts
           "bob" "hunter2" acc E).
Defined.

(** ** What the window shows *)

(** X7. [update] replaces the result list: it shows one row per result,
    in order, each referring to the restaurant of the result, or the
    single row "nothing found" when there are no results; label and
    list become visible; rows of an earlier search never remain. *)
Theorem update_replaces_result_list
    (rs rs' : list search_result) (a : App) :
  search_results_list (update rs a) = shown_items rs ∧
  search_results_label (update rs a) = true ∧
  search_results_list_shown (update rs a) = true ∧
  length (search_results_list (update rs a)) = Nat.max 1 (length rs) ∧
  update rs (update rs' a) = update rs a.
Proof.
  rewrite !update_shows.
  split; [done|]. split; [done|]. split; [done|]. split.
  - simpl. unfold shown_items. destruct rs as [|r rs]; [done|].
    rewrite length_map. simpl. lia.
  - by destruct a.
Qed.

(** X8. [update_cart] shows one row per cart line, in cart order, and
    the total of the line prices, added up from 0 in cart order and
    printed with two decimals; it changes neither the cart nor the
    database, and redrawing twice is redrawing once. *)
Theorem update_cart_shows_cart
    (num_add : Q → Q → Q) (format_2f : Q → string) (a : App) :
  cart_list (update_cart num_add format_2f a)
  = map (cart_row_text format_2f) (cart a) ∧
  total_label (update_cart num_add format_2f a)
  = "Итого: " +:+ format_2f (cart_total num_add (cart a)) +:+ " ₽" ∧
  cart (update_cart num_add format_2f a) = cart a ∧
  db (update_cart num_add format_2f a) = db a ∧
  update_cart num_add format_2f (update_cart num_add format_2f a)
  = update_cart num_add format_2f a.
Proof.
  rewrite !update_cart_spec. by destruct a.
Qed.

Example update_cart_two_lines :
  total_label (update_cart Qplus format_2f_exact alice_with_cart)
  = "Итого: 349.50 ₽" ∧
  length (cart_list (update_cart Qplus format_2f_exact alice_with_cart)) = 2.
Proof. by vm_compute. Qed.

(** ** Sorting again *)

Section SortedAgain.
Context {A K : Type}.
Variable key : A → K.
Variable lt : K → K → bool.
Hypothesis lt_asym : ∀ a b, lt a b = true → lt b a = false.
Hypothesis lt_negtrans :
  ∀ a b c, lt b a = false → lt c b = false → lt c a = false.

Lemma stable_sort_idempotent (l : list A) :
  stable_sort key lt (stable_sort key lt l) = stable_sort key lt l.
Proof.
  symmetry. apply (stable_sort_unique key lt lt_asym lt_negtrans); [|done].
  by apply stable_sort_sorted.
Qed.

Lemma sorted_idempotent (reverse : bool) (l : list A) :
  sorted key lt reverse (sorted key lt reverse l) = sorted key lt reverse l.
Proof.
  destruct reverse; simpl; [|apply stable_sort_idempotent].
  by rewrite rev_involutive, stable_sort_idempotent.
Qed.
End SortedAgain.

(** X9. Sorting a sorted list changes nothing, for both strategies; and
    sorting by name keeps restaurants of the same name in their
    original order. *)
Theorem sort_strategies_idempotent (items : list restaurant) :
  SortByName_sort (SortByName_sort items) = SortByName_sort items ∧
  SortByRating_sort (SortByRating_sort items) = SortByRating_sort items ∧
  ∀ name,
    filter (λ x, restaurant_name x = name) (SortByName_sort items)
    = filter (λ x, restaurant_name x = name) items.
Proof.
  split; [|split].
  - apply (sorted_idempotent name_key String.ltb
             string_ltb_asym string_ltb_negtrans).
  - apply (sorted_idempotent rating_key Qltb Qltb_asym Qltb_negtrans).
  - intros name. apply (sorted_filter name_key String.ltb).
    intros x y Hx Hy. unfold name_key. rewrite Hx, Hy.
    apply string_ltb_leb. apply Is_true_true.
    exact (reflexivity (R := String.le) _).
Qed.

(** ** The registration and login forms *)

Lemma form_dict_lookups (f : register_form) :
  form_dict f !! "first_name" = Some (first_name_input f) ∧
  form_dict f !! "last_name" = Some (last_name_input f) ∧
  form_dict f !! "birth_date" = Some (birth_date_input f) ∧
  form_dict f !! "email" = Some (email_input f) ∧
  form_dict f !! "login" = Some (login_input_reg f) ∧
  form_dict f !! "password" = Some (password_input_reg f) ∧
  form_dict f !! "repeat_password" = Some (repeat_password_input f) ∧
  form_dict f !! "address" = Some (address_input f).
Proof. by repeat split. Qed.

Lemma collect_empty_fields_step (strip : string → string)
    field name rest (d : dict) acc v :
  d !! field = Some v →
  collect_empty_fields strip ((field, name) :: rest) d acc
  = collect_empty_fields strip rest d
      (acc ++ if bool_decide (strip v = "") then [name] else []).
Proof.
  intros Hv. cbn [collect_empty_fields]. unfold getitem. rewrite Hv.
  cbn [res_bind]. case_bool_decide; [done|by rewrite app_nil_r].
Qed.

Lemma filter_blank_cons (strip : string → string)
    (name text : string) (l : list (string * string)) :
  (filter (λ p : string * string, strip p.2 = "") ((name, text) :: l)).*1
  = (if bool_decide (strip text = "") then [name] else [])
    ++ (filter (λ p : string * string, strip p.2 = "") l).*1.
Proof.
  rewrite filter_cons. cbn [snd].
  case_bool_decide; [by rewrite decide_True by done|by rewrite decide_False by done].
Qed.

Lemma collect_empty_fields_form (strip : string → string) (f : register_form) :
  collect_empty_fields strip required_fields (form_dict f) []
  = Ok (blank_names strip f).
Proof.
  destruct (form_dict_lookups f) as (H1 & H2 & _ & H4 & H5 & H6 & H7 & H8).
  unfold required_fields, blank_names.
  rewrite (collect_empty_fields_step _ _ _ _ _ _ _ H1).
  rewrite (collect_empty_fields_step _ _ _ _ _ _ _ H2).
  rewrite (collect_empty_fields_step _ _ _ _ _ _ _ H4).
  rewrite (collect_empty_fields_step _ _ _ _ _ _ _ H5).
  rewrite (collect_empty_fields_step _ _ _ _ _ _ _ H6).
  rewrite (collect_empty_fields_step _ _ _ _ _ _ _ H7).
  rewrite (collect_empty_fields_step _ _ _ _ _ _ _ H8).
  cbn [collect_empty_fields]. rewrite !filter_blank_cons.
  rewrite filter_nil. cbn [fmap list_fmap]. rewrite app_nil_r, app_nil_l.
  by rewrite <- !app_assoc.
Qed.

Lemma handle_register_unfold (strip : string → string) f a :
  handle_register strip f a
  = let! empty_fields :=
      collect_empty_fields strip required_fields (form_dict f) [] in
    match empty_fields with
    | _ :: _ =>
        Ok (registration_warning
              ("Пожалуйста, заполните следующие поля:" +:+ nl
               +:+ join ", " empty_fields) a)
    | [] =>
        match register_user (form_dict f) (db a) with
        | (Raise e, _) => Raise e
        | (Ok (success, message), db') =>
            let a := set_db db' a in
            if success then
              Ok (show_login
                    (message_box_exec (information "Успешно" message) a))
            else Ok (registration_warning message a)
        end
    end.
Proof. reflexivity. Qed.

Lemma set_db_same a : set_db (db a) a = a.
Proof. by destruct a. Qed.

(** X10. When a required input of the registration form is blank,
    [handle_register] does not register: it shows one warning that
    names the blank inputs, in the order first name, last name, e-mail,
    login, password, repeated password, address, and leaves the
    database and everything else as they were. The birth date is never
    asked for. *)
Theorem handle_register_blank_input
    (strip : string → string) (f : register_form) (a : App) :
  blank_names strip f ≠ [] →
  handle_register strip f a
  = Ok (registration_warning
          ("Пожалуйста, заполните следующие поля:" +:+ nl
           +:+ join ", " (blank_names strip f)) a).
Proof.
  intros Hblank. rewrite handle_register_unfold, collect_empty_fields_form.
  cbn [res_bind]. by destruct (blank_names strip f).
Qed.

Lemma handle_register_blank_input_witness :
  blank_names strip_ascii half_filled_form = ["Фамилия"; "Пароль"] ∧
  handle_register strip_ascii half_filled_form (new_app two_accounts)
  = Ok (registration_warning
          ("Пожалуйста, заполните следующие поля:" +:+ nl
           +:+ join ", " (blank_names strip_ascii half_filled_form))
          (new_app two_accounts)).
Proof.
  split; [reflexivity|].
  apply (handle_register_blank_input strip_ascii half_filled_form
           (new_app two_accounts)).
  vm_compute. discriminate.
Defined.

(** X11. When no required input is blank and the stored accounts have
    logins, [handle_register] never raises and does one of four things,
    decided in this order: a warning that the login exists; a warning
    that the passwords differ; a warning about the password's
    characters; or it stores the account built from the inputs at the
    end of the collection, confirms, and opens the login page. On a
    warning nothing else changes. *)
Theorem handle_register_filled
    (strip : string → string) (f : register_form) (a : App) :
  blank_names strip f = [] →
  Forall has_login (users_file (db a)) →
  handle_register strip f a
  = Ok (if bool_decide (login_input_reg f ∈ logins (users_file (db a)))
        then registration_warning msg_login_exists a
        else if bool_decide (password_input_reg f ≠ repeat_password_input f)
        then registration_warning msg_passwords_differ a
        else if negb (re_match_password (password_input_reg f))
        then registration_warning msg_password_chars a
        else
          show_login
            (message_box_exec (information "Успешно" msg_registered)
               (set_db
                  (save_users
                     (users_file (db a) ++ [stored_record (form_dict f)])
                     (db a))
                  a))).
Proof.
  intros Hblank Hlogins.
  rewrite handle_register_unfold, collect_empty_fields_form, Hblank.
  cbn [res_bind].
  destruct (form_dict_lookups f) as (_ & _ & _ & _ & H5 & H6 & H7 & _).
  rewrite (register_user_cases _ _ _ _ _ Hlogins H5 H6 H7).
  repeat case_bool_decide; try destruct (negb _);
    cbv zeta; by rewrite ?set_db_same.
Qed.

Lemma handle_register_filled_witness :
  ∃ a',
    handle_register strip_ascii eve_form (new_app two_accounts) = Ok a' ∧
    stacked_widget a' = login_page ∧
    logins (users_file (db a')) = ["admin"; "bob"; "eve"].
Proof.
  eexists. split.
  - rewrite (handle_register_filled strip_ascii eve_form (new_app two_accounts));
      [reflexivity|reflexivity|].
    repeat constructor; by eexists.
  - split; reflexivity.
Defined.

Lemma role_is_admin (u : dict) :
  bool_decide (u !! "role" = Some "admin")
  = String.eqb (default "user" (u !! "role")) "admin".
Proof.
  destruct (u !! "role") as [r|].
  - change (default "user" (Some r)) with r.
    destruct (String.eqb_spec r "admin") as [->|Hne].
    + by rewrite bool_decide_eq_true_2.
    + rewrite bool_decide_eq_false_2; [done|congruence].
  - by rewrite bool_decide_eq_false_2.
Qed.

(** What [login_user] returns on well-formed accounts: no exception,
    and an object whose class agrees with its role. *)
Lemma login_user_outcome lg pw d :
  Forall well_formed_account (users_file d) →
  ∃ r, (login_user lg pw d).1 = Ok r ∧
    ∀ acc, r = Some acc →
      is_admin acc = String.eqb (role (user_fields acc)) "admin" ∧
      ∃ u, u ∈ users_file d ∧ matches lg pw u ∧ holds_fields u (user_fields acc).
Proof.
  intros Hwf. unfold login_user, load_users. cbn [fst].
  destruct (next_matching_spec _ lg pw Hwf)
    as [[-> Hall]|(pre & u & post & Hsplit & Hpre & Hu & ->)].
  - exists None. by split.
  - assert (u ∈ users_file d) as Hin.
    { rewrite Hsplit. apply elem_of_app. right. left. }
    assert (well_formed_account u) as Hwfu
      by exact (proj1 (Forall_forall _ _) Hwf u Hin).
    destruct (AbstractUser_init_ok u Hwfu) as (f & Hf & Hfields).
    assert (u ≠ ∅) as Hne.
    { intros ->. destruct Hu as [Hl _]. by rewrite lookup_empty in Hl. }
    cbv beta iota. rewrite (bool_decide_eq_false_2 _ Hne).
    unfold admin_create_user, regular_create_user. rewrite Hf.
    cbn [res_bind].
    pose proof Hfields as (_ & _ & _ & _ & _ & _ & _ & Hrole).
    destruct (bool_decide (u !! "role" = Some "admin")) eqn:E;
      eexists; (split; [done|]); intros acc [= <-]; cbn [is_admin user_fields];
      rewrite Hrole, <- role_is_admin, E; (split; [done|]); by exists u.
Qed.

(** X12. On well-formed accounts [handle_login] never raises. When the
    login and password match a stored account it opens the session for
    that account, on the administrator page for an administrator and on
    the main page otherwise, showing no dialog; when they do not it
    only shows the warning. Cart and database are untouched. *)
Theorem handle_login_spec
    (lower : string → string) (lg pw : string) (a : App) :
  Forall well_formed_account (users_file (db a)) →
  ∃ a',
    handle_login lower lg pw a = Ok a' ∧
    db a' = db a ∧ cart a' = cart a ∧
    match (login_user lg pw (db a)).1 with
    | Ok (Some u) =>
        current_user a' = Some u ∧
        stacked_widget a' = (if is_admin u then admin_page else main_page) ∧
        message_boxes a' = message_boxes a
    | _ =>
        a' = message_box_exec
               (warning "Ошибка входа" "Неверный логин или пароль") a
    end.
Proof.
  intros Hwf. unfold handle_login.
  destruct (login_user_outcome lg pw (db a) Hwf) as (r & -> & Hr).
  destruct r as [u|]; [|by eexists].
  destruct (Hr u eq_refl) as [Hadmin _]. rewrite <- Hadmin.
  destruct (is_admin u).
  - eexists. split; [done|]. by repeat split.
  - destruct (show_main_same_session lower (set_current_user (Some u) a) u
                eq_refl) as (H1 & H2 & H3 & H4 & _ & H6).
    eexists. split; [done|]. by repeat split.
Qed.

Lemma handle_login_spec_witness :
  ∃ a',
    handle_login lower_ascii "admin" "admin123" (new_app two_accounts) = Ok a' ∧
    db a' = two_accounts ∧ cart a' = [] ∧
    stacked_widget a' = admin_page ∧ message_boxes a' = [].
Proof.
  destruct (handle_login_spec lower_ascii "admin" "admin123"
              (new_app two_accounts))
    as (a' & H & Hdb & Hcart & Hmatch).
  - repeat constructor; by eexists.
  - exists a'. split; [exact H|]. split; [exact Hdb|]. split; [exact Hcart|].
    exact (proj2 Hmatch).
Defined.

(** X13. [confirm_order] itself does not look at the cart: with an
    account logged in it stores one order holding whatever the cart
    holds, also when that is nothing, then empties the cart and opens
    the main page; with nobody logged in it raises [AttributeError]
    and stores nothing. *)
Theorem confirm_order_any_cart
    (lower : string → string) (payment_method now : string) (a : App) :
  match current_user a with
  | None => confirm_order lower payment_method now a = Raise AttributeError
  | Some u =>
      ∃ a' o,
        confirm_order lower payment_method now a = Ok a' ∧
        db a' = save_orders (orders_file (db a) ++ [o]) (db a) ∧
        o !! "items" = Some (VItems (cart a)) ∧
        o !! "user" = Some (VStr (login (user_fields u))) ∧
        cart a' = [] ∧
        stacked_widget a' = main_page
  end.
Proof.
  destruct (current_user a) as [u|] eqn:Hu.
  - destruct (confirm_order_spec lower a u payment_method now Hu)
      as (o & -> & Ho1 & _ & Ho3 & _).
    match goal with
    | |- context [Ok (show_main _ ?x)] => set (a'' := x)
    end.
    destruct (show_main_same_session lower a'' u Hu)
      as (Hd & _ & Hc & _ & _ & Hp).
    exists (show_main lower a''), o. split; [done|].
    rewrite Hd, Hc, Hp. by repeat split.
  - unfold confirm_order. by rewrite Hu.
Qed.

Example confirm_order_empty_cart :
  ∃ a' o,
    confirm_order lower_ascii "Банковская карта" "2025-06-01 12:30"
      alice_session = Ok a' ∧
    orders_file (db a') = [o] ∧ o !! "items" = Some (VItems []).
Proof.
  destruct (confirm_order _ _ _ _) as [a1|e] eqn:E;
    vm_compute in E; [|discriminate].
  injection E as <-. eexists _, _.
  split; [reflexivity|]. split; [reflexivity|]. by vm_compute.
Qed.

(** ** The restaurant page *)

Lemma first_seen_snoc l x :
  first_seen (l ++ [x])
  = if decide (x ∈ first_seen l) then first_seen l else first_seen l ++ [x].
Proof. unfold first_seen. by rewrite fold_left_app. Qed.

Lemma first_seen_elem l x : x ∈ first_seen l ↔ x ∈ l.
Proof.
  induction l as [|y l IH] using rev_ind; [done|].
  rewrite first_seen_snoc. case_decide as Hy.
  - rewrite elem_of_app, list_elem_of_singleton, <- IH.
    split; [by left|]. intros [? | ->]; done.
  - by rewrite !elem_of_app, IH.
Qed.

Lemma first_seen_NoDup l : NoDup (first_seen l).
Proof.
  induction l as [|y l IH] using rev_ind; [constructor|].
  rewrite first_seen_snoc. case_decide as Hy; [done|].
  apply NoDup_app. split; [done|]. split; [|apply NoDup_singleton].
  by intros x Hx ->%list_elem_of_singleton.
Qed.

Lemma categories_append_map (x : MenuItem) (F : string → list MenuItem)
    (cs : list string) :
  NoDup cs →
  categories_append x (map (λ c, (c, F c)) cs)
  = if decide (menu_category x ∈ cs)
    then map (λ c, (c, F c ++ if decide (menu_category x = c) then [x] else []))
             cs
    else map (λ c, (c, F c)) cs ++ [(menu_category x, [x])].
Proof.
  induction 1 as [|c cs Hc Hcs IH]; [done|].
  cbn [map categories_append]. rewrite IH.
  destruct (String.eqb_spec c (menu_category x)) as [->|Hne].
  - rewrite decide_True by left. rewrite decide_True by done.
    f_equal. apply map_ext_in. intros c' Hc'%list_elem_of_In.
    rewrite decide_False by (intros <-; done). by rewrite app_nil_r.
  - rewrite (decide_False (P := menu_category x = c)) by done.
    rewrite app_nil_r.
    destruct (decide (menu_category x ∈ cs)) as [Hin|Hout].
    + by rewrite decide_True by by right.
    + rewrite decide_False; [done|].
      rewrite not_elem_of_cons. by split.
Qed.

Lemma filter_none {A} (P : A → Prop) `{∀ x, Decision (P x)} (l : list A) :
  Forall (λ x, ¬ P x) l → filter P l = [].
Proof.
  induction 1 as [|x l Hx _ IH]; [done|].
  by rewrite filter_cons_False.
Qed.

Lemma categories_append_grouped (done : list MenuItem) (x : MenuItem) :
  categories_append x (grouped done) = grouped (done ++ [x]).
Proof.
  unfold grouped. rewrite map_app. cbn [map].
  rewrite first_seen_snoc.
  rewrite (categories_append_map x
             (λ c, filter (λ item, menu_category item = c) done))
    by apply first_seen_NoDup.
  destruct (decide (menu_category x ∈ first_seen (map menu_category done)))
    as [Hin|Hout].
  - apply map_ext. intros c. f_equal.
    rewrite filter_app, filter_cons, filter_nil. by case_decide.
  - rewrite map_app. cbn [map]. f_equal.
    + apply map_ext_in. intros c Hc%list_elem_of_In. f_equal.
      rewrite filter_app, filter_cons, filter_nil.
      rewrite decide_False by (intros Heq; by rewrite Heq in Hout).
      by rewrite app_nil_r.
    + do 2 f_equal. rewrite filter_app, filter_cons, filter_nil.
      rewrite decide_True by done.
      assert (filter (λ item, menu_category item = menu_category x) done = [])
        as ->; [|done].
      apply filter_none. apply Forall_forall. intros y Hy Heq.
      apply Hout, first_seen_elem. rewrite <- Heq.
      apply list_elem_of_fmap. by exists y.
Qed.

Lemma group_by_category (todo done : list MenuItem) :
  fold_left (λ categories item, categories_append item categories)
            todo (grouped done)
  = grouped (done ++ todo).
Proof.
  revert done. induction todo as [|x todo IH]; intros done; simpl.
  - by rewrite app_nil_r.
  - rewrite categories_append_grouped, IH. by rewrite <- app_assoc.
Qed.

Lemma next_with_id_none restaurants id :
  id ∉ map restaurant_id restaurants → next_with_id restaurants id = None.
Proof.
  induction restaurants as [|r rs IH]; simpl; [done|].
  rewrite not_elem_of_cons. intros [Hne Hrest].
  destruct (Z.eqb_spec (restaurant_id r) id); [congruence|by apply IH].
Qed.

Lemma next_with_id_first pre data post id :
  id ∉ map restaurant_id pre →
  restaurant_id data = id →
  next_with_id (pre ++ data :: post) id = Some data.
Proof.
  intros Hpre Hid. induction pre as [|r pre IH]; simpl.
  - by rewrite (proj2 (Z.eqb_eq _ _) Hid).
  - simpl in Hpre. apply not_elem_of_cons in Hpre as [Hne Hpre].
    destruct (Z.eqb_spec (restaurant_id r) id); [congruence|by apply IH].
Qed.

Lemma next_with_id_some restaurants id data :
  next_with_id restaurants id = Some data →
  data ∈ restaurants ∧ restaurant_id data = id.
Proof.
  induction restaurants as [|r rs IH]; simpl; [done|].
  destruct (Z.eqb_spec (restaurant_id r) id) as [Heq|Hne].
  - intros [= <-]. split; [left|done].
  - intros [Hin Hid]%IH. split; [by right|done].
Qed.

Lemma show_restaurant_by_id_found id w data :
  next_with_id (restaurants_file (db (app w))) id = Some data →
  show_restaurant_by_id id w
  = {| app := set_stacked_widget restaurant_page (app w);
       current_restaurant := Some (Restaurant_init data);
       restaurant_title := restaurant_name data;
       menu_tabs := tabs_of (Restaurant_init data) |}.
Proof.
  intros Hnext. unfold show_restaurant_by_id, load_restaurants_file.
  rewrite Hnext. cbv zeta. f_equal. unfold tabs_of.
  by rewrite (group_by_category _ []).
Qed.

(** X14. [show_restaurant_by_id] does nothing at all when no stored
    restaurant has the id. Otherwise it opens the page of the first
    stored restaurant with that id, titled with its name, with one tab
    per category in the order in which the categories first appear in
    the menu; a tab lists the dishes of its category in menu order,
    each row carrying the dish's id, name and price and the
    restaurant's name; a dish without a category is under the default
    one. *)
Theorem show_restaurant_by_id_spec (id : Z) (w : Window) :
  (id ∉ map restaurant_id (restaurants_file (db (app w))) →
   show_restaurant_by_id id w = w) ∧
  (∀ pre data post,
     restaurants_file (db (app w)) = pre ++ data :: post →
     id ∉ map restaurant_id pre →
     restaurant_id data = id →
     show_restaurant_by_id id w
     = {| app := set_stacked_widget restaurant_page (app w);
          current_restaurant := Some (Restaurant_init data);
          restaurant_title := restaurant_name data;
          menu_tabs := tabs_of (Restaurant_init data) |}).
Proof.
  split.
  - intros Hno. unfold show_restaurant_by_id, load_restaurants_file.
    by rewrite next_with_id_none.
  - intros pre data post Hsplit Hpre Hid.
    apply show_restaurant_by_id_found. rewrite Hsplit.
    by apply next_with_id_first.
Qed.

Example tabs_of_pizza_place :
  menu_tabs (show_restaurant_by_id 1 (new_window pizza_catalog))
  = [ ("Основное блюдо",
       [mkCartLine 11 "Pizza Margherita" 450%Q "Pizza Place"]);
      ("Dessert", [mkCartLine 12 "Tiramisu" 250%Q "Pizza Place"]) ] ∧
  show_restaurant_by_id 9 (new_window pizza_catalog) = new_window pizza_catalog.
Proof. by vm_compute. Qed.

(** ** Every reachable window *)

Lemma views_ok_same rs a b :
  search_subject a = search_subject b →
  restaurant_list a = restaurant_list b →
  search_results_list a = search_results_list b →
  views_ok rs b → views_ok rs a.
Proof. unfold views_ok. by intros -> -> ->. Qed.

Lemma search_spec_rows lower query rs :
  Forall (λ i, (∃ t, i = text_item t) ∨ catalogue_row rs i)
         (shown_items (search_spec lower query rs)).
Proof.
  assert (Forall (λ res, ∃ r, r ∈ rs ∧
            ((∃ n d q, res = restaurant_result (restaurant_id r) n d q) ∨
             (∃ rn n d q, res = dish_result (restaurant_id r) rn n d q)))
          (search_spec lower query rs)) as Hres.
  { unfold search_spec. apply Forall_forall. intros res Hin.
    apply list_elem_of_In, in_flat_map in Hin as (r & Hr & Hin).
    apply list_elem_of_In in Hr. apply list_elem_of_In, elem_of_app in Hin.
    exists r. split; [done|]. destruct Hin as [Hin|Hin].
    - left. destruct (matches_query _ _ _); [|by apply elem_of_nil in Hin].
      apply list_elem_of_singleton in Hin as ->. by eexists _, _, _.
    - right. apply list_elem_of_fmap in Hin as (item & -> & _).
      by eexists _, _, _, _. }
  unfold shown_items. destruct (search_spec lower query rs) as [|res l].
  - constructor; [left; by eexists|constructor].
  - apply Forall_fmap. eapply Forall_impl; [exact Hres|].
    intros x (r & Hr & [(n & d & q & ->)|(rn & n & d & q & ->)]);
      right; exists r; (split; [done|]); [by left|by right].
Qed.

Lemma handle_search_views lower a :
  views_ok (restaurants_file (db a)) a →
  views_ok (restaurants_file (db a)) (handle_search lower a).
Proof.
  intros (Hobs & Hlist & Hrows). unfold handle_search. case_bool_decide.
  - split; [done|]. split; [done|]. constructor.
  - unfold update_results, notify, load_restaurants_file. cbn [subject fst snd].
    rewrite Hobs. cbn [fold_left window_update]. rewrite update_shows.
    rewrite scan_restaurants. split; [by destruct a|]. split; [by destruct a|].
    destruct a; cbn. apply search_spec_rows.
Qed.

Lemma load_restaurants_list a :
  restaurant_list (load_restaurants a)
  = map (λ r, restaurant_item (restaurant_id r))
        (if Nat.eqb (sort_combo a) 0
         then SortByName_sort (restaurants_file (db a))
         else SortByRating_sort (restaurants_file (db a))).
Proof.
  unfold load_restaurants. rewrite load_restaurants_fold.
  unfold execute_sort, load_restaurants_file.
  destruct a as [d ss cu c sw si sc]; cbn.
  by destruct (Nat.eqb sc 0).
Qed.

Lemma load_restaurants_views a :
  views_ok (restaurants_file (db a)) a →
  views_ok (restaurants_file (db a)) (load_restaurants a).
Proof.
  intros (Hobs & _ & Hrows). split; [|split].
  - unfold load_restaurants. rewrite load_restaurants_fold. by destruct a.
  - rewrite load_restaurants_list.
    apply Forall_fmap, Forall_forall. intros r Hr. exists r. split; [|done].
    destruct (Nat.eqb (sort_combo a) 0).
    + by rewrite (sorted_Permutation name_key String.ltb false) in Hr.
    + by rewrite (sorted_Permutation rating_key Qltb true) in Hr.
  - unfold load_restaurants. rewrite load_restaurants_fold. by destruct a.
Qed.

Section Reachable.
Variable lower : string → string.
Variable strip : string → string.
Variable num_add : Q → Q → Q.
Variable format_2f : Q → string.

Lemma search_input_clear_views a :
  views_ok (restaurants_file (db a)) a →
  views_ok (restaurants_file (db a)) (search_input_clear lower a).
Proof.
  intros Hv. unfold search_input_clear. case_bool_decide; [done|].
  apply (handle_search_views lower (set_search_input "" a)).
  by eapply views_ok_same; [..|exact Hv].
Qed.

Lemma show_main_views a :
  views_ok (restaurants_file (db a)) a →
  views_ok (restaurants_file (db a)) (show_main lower a).
Proof.
  intros Hv. unfold show_main. destruct (current_user a) as [u|]; [|done].
  set (a1 := set_welcome_label _ a).
  assert (views_ok (restaurants_file (db a1)) a1) as Hv1
    by (by eapply views_ok_same; [..|exact Hv]).
  apply load_restaurants_views in Hv1.
  destruct (load_restaurants_same_session a1) as (Hd1 & _).
  rewrite <- Hd1 in Hv1. apply search_input_clear_views in Hv1.
  rewrite Hd1 in Hv1.
  by eapply views_ok_same; [..|exact Hv1].
Qed.

Lemma update_cart_views rs a :
  views_ok rs a → views_ok rs (update_cart num_add format_2f a).
Proof.
  intros Hv. rewrite update_cart_spec.
  by eapply views_ok_same; [..|exact Hv].
Qed.
End Reachable.

Lemma session_logged_out rs us cu pg ct :
  session_ok rs us cu pg ct →
  pg = login_page ∨ pg = register_page →
  cu = None ∧ ct = [].
Proof.
  intros [Hs _] Hpg. destruct cu as [u|]; [|by destruct Hs].
  destruct Hs as [_ Hs]. destruct (is_admin u).
  - destruct Hs as [-> _]. by destruct Hpg.
  - destruct Hs as [[->|[->|[->| ->]]] _]; by destruct Hpg.
Qed.

Lemma session_shop rs us cu pg ct :
  session_ok rs us cu pg ct →
  shop_page pg →
  ∃ u, cu = Some u ∧ is_admin u = false ∧
       login (user_fields u) ∈ logins us ∧
       (pg = order_confirmation_page → ct ≠ []) ∧
       Forall (from_catalogue rs) ct.
Proof.
  intros [Hs Hct] Hpg. destruct cu as [u|].
  - destruct Hs as [Hlg Hs]. exists u. destruct (is_admin u).
    + destruct Hs as [-> _]. by destruct Hpg as [?|[?|[?|?]]].
    + by destruct Hs.
  - destruct Hs as [[-> | ->] _]; by destruct Hpg as [?|[?|[?|?]]].
Qed.

Lemma session_admin rs us cu ct :
  session_ok rs us cu admin_page ct →
  ∃ u, cu = Some u ∧ is_admin u = true ∧ ct = [].
Proof.
  intros [Hs _]. destruct cu as [u|].
  - destruct Hs as [_ Hs]. exists u. destruct (is_admin u).
    + by destruct Hs.
    + by destruct Hs as [[?|[?|[?|?]]] _].
  - by destruct Hs as [[?|?] _].
Qed.

Lemma session_shop_intro rs us u pg ct :
  is_admin u = false →
  login (user_fields u) ∈ logins us →
  shop_page pg →
  (pg = order_confirmation_page → ct ≠ []) →
  Forall (from_catalogue rs) ct →
  session_ok rs us (Some u) pg ct.
Proof. intros Ha Hlg Hpg Hc Hct. split; [|done]. by rewrite Ha. Qed.

Lemma session_out_intro rs us pg :
  pg = login_page ∨ pg = register_page → session_ok rs us None pg [].
Proof. intros Hpg. split; [done|constructor]. Qed.

Lemma logins_elem (users : list dict) (u : dict) lg :
  u ∈ users → u !! "login" = Some lg → lg ∈ logins users.
Proof.
  intros Hin Hlg. unfold logins. apply list_elem_of_omap. by exists u.
Qed.

Lemma placed_order_more_users rs us more o :
  placed_order rs us o → placed_order rs (us ++ more) o.
Proof.
  intros (items & lg & addr & p & now & H1 & H2 & H3 & H).
  exists items, lg, addr, p, now. split; [done|]. split; [done|].
  split; [|done]. rewrite logins_app. apply elem_of_app. by left.
Qed.

Lemma window_ok_set_app d0 w a' :
  window_ok d0 w →
  data_ok d0 (db a') →
  session_ok (restaurants_file d0) (users_file (db a'))
    (current_user a') (stacked_widget a') (cart a') →
  views_ok (restaurants_file d0) a' →
  window_ok d0 (set_app a' w).
Proof.
  intros (_ & _ & _ & Ht) Hd Hs Hv. exact (conj Hd (conj Hs (conj Hv Ht))).
Qed.

Lemma tabs_of_from_catalogue rs data :
  data ∈ rs →
  Forall (λ t : string * list cart_line, Forall (from_catalogue rs) t.2)
         (tabs_of (Restaurant_init data)).
Proof.
  intros Hdata. unfold tabs_of. apply Forall_fmap, Forall_forall.
  intros [c items] Hc. cbn. apply Forall_fmap, Forall_forall.
  intros item Hitem. unfold grouped in Hc.
  apply list_elem_of_fmap in Hc as (c' & [= -> ->] & _).
  apply list_elem_of_filter in Hitem as [_ Hitem]. cbn in Hitem.
  apply list_elem_of_fmap in Hitem as (raw & -> & Hraw).
  by exists data, raw.
Qed.

Lemma show_restaurant_by_id_ok d0 id w :
  window_ok d0 w →
  stacked_widget (app w) = main_page →
  window_ok d0 (show_restaurant_by_id id w).
Proof.
  intros Hok Hpg.
  destruct (next_with_id (restaurants_file (db (app w))) id) as [data|] eqn:Hn.
  - rewrite (show_restaurant_by_id_found _ _ _ Hn).
    destruct Hok as (Hd & Hs & Hv & _).
    apply next_with_id_some in Hn as [Hin _].
    destruct Hd as (Hrs & Hd). rewrite Hrs in Hin.
    split; [by split|]. split; [|split].
    + destruct (session_shop _ _ _ _ _ Hs) as (u & Hu & Ha & Hlg & _ & Hct);
        [left; done|].
      cbn. rewrite Hu. apply session_shop_intro; try done.
      right. by left.
    + by eapply views_ok_same; [..|exact Hv].
    + by apply tabs_of_from_catalogue.
  - unfold show_restaurant_by_id, load_restaurants_file. by rewrite Hn.
Qed.

Lemma handle_register_outcome (strip : string → string) f a :
  Forall has_login (users_file (db a)) →
  (∃ m, handle_register strip f a = Ok (registration_warning m a)) ∨
  handle_register strip f a
  = Ok (show_login
          (message_box_exec (information "Успешно" msg_registered)
             (set_db
                (save_users
                   (users_file (db a) ++ [stored_record (form_dict f)]) (db a))
                a))).
Proof.
  intros Hlogins. rewrite handle_register_unfold, collect_empty_fields_form.
  cbn [res_bind]. destruct (blank_names strip f) as [|n ns]; [|left; by eexists].
  destruct (form_dict_lookups f) as (_ & _ & _ & _ & H5 & H6 & H7 & _).
  rewrite (register_user_cases _ _ _ _ _ Hlogins H5 H6 H7).
  repeat case_bool_decide; try destruct (negb _); cbv zeta;
    rewrite ?set_db_same; [left; by eexists..|by right].
Qed.

Lemma well_formed_has_login u : well_formed_account u → has_login u.
Proof. intros Hwf. apply (well_formed_lookup u "login" Hwf). in_keys. Qed.

Lemma form_dict_well_formed f : well_formed_account (form_dict f).
Proof.
  destruct (form_dict_lookups f) as (H1 & H2 & H3 & H4 & H5 & H6 & _ & H8).
  unfold well_formed_account, account_keys.
  repeat (constructor; [by eexists|]). constructor.
Qed.

Section ReachableSteps.
Variable lower : string → string.
Variable strip : string → string.
Variable num_add : Q → Q → Q.
Variable format_2f : Q → string.
Variable d0 : Database.

Local Abbreviation rs0 := (restaurants_file d0).

Lemma window_ok_same_session w a' :
  window_ok d0 w →
  same_session a' (app w) →
  views_ok rs0 a' →
  window_ok d0 (set_app a' w).
Proof.
  intros Hok (Hd & Hu & Hc & _ & _ & Hp) Hv.
  apply (window_ok_set_app d0 w a' Hok); [| |done];
    destruct Hok as (Hdata & Hs & _); by rewrite ?Hd, ?Hu, ?Hc, ?Hp.
Qed.

Lemma window_ok_views w : window_ok d0 w → views_ok (restaurants_file (db (app w))) (app w).
Proof. intros ((-> & _) & _ & Hv & _). done. Qed.

Lemma window_ok_restaurants w :
  window_ok d0 w → restaurants_file (db (app w)) = rs0.
Proof. by intros ((Hrs & _) & _). Qed.

Lemma step_handle_search w :
  window_ok d0 w → window_ok d0 (set_app (handle_search lower (app w)) w).
Proof.
  intros Hok. apply window_ok_same_session; [done|apply handle_search_same_session|].
  rewrite <- (window_ok_restaurants w Hok).
  by apply handle_search_views, window_ok_views.
Qed.

Lemma step_type_search text w :
  window_ok d0 w → window_ok d0 (set_app (type_search lower text (app w)) w).
Proof.
  intros Hok. unfold type_search.
  apply window_ok_same_session; [done| |].
  - eapply same_session_trans; [apply handle_search_same_session|].
    by repeat split.
  - rewrite <- (window_ok_restaurants w Hok).
    apply (handle_search_views lower (set_search_input text (app w))).
    eapply views_ok_same; [..|exact (window_ok_views w Hok)]; done.
Qed.

Lemma step_sort index w :
  window_ok d0 w →
  window_ok d0 (set_app (load_restaurants (set_sort_combo index (app w))) w).
Proof.
  intros Hok. apply window_ok_same_session; [done| |].
  - eapply same_session_trans; [apply load_restaurants_same_session|].
    by repeat split.
  - rewrite <- (window_ok_restaurants w Hok).
    apply (load_restaurants_views (set_sort_combo index (app w))).
    eapply views_ok_same; [..|exact (window_ok_views w Hok)]; done.
Qed.

(** A handler that only changes the page among the shop pages. *)
Lemma window_ok_shop_page w a' :
  window_ok d0 w →
  shop_page (stacked_widget (app w)) →
  db a' = db (app w) →
  current_user a' = current_user (app w) →
  cart a' = cart (app w) →
  shop_page (stacked_widget a') →
  (stacked_widget a' = order_confirmation_page → cart (app w) ≠ []) →
  views_ok rs0 a' →
  window_ok d0 (set_app a' w).
Proof.
  intros Hok Hpg Hd Hu Hc Hpg' Hconf Hv.
  apply (window_ok_set_app d0 w a' Hok); [| |done].
  - destruct Hok as (Hdata & _). by rewrite Hd.
  - destruct Hok as (_ & Hs & _).
    destruct (session_shop _ _ _ _ _ Hs Hpg) as (u & Hcu & Ha & Hlg & _ & Hct).
    rewrite Hd, Hu, Hc, Hcu. by apply session_shop_intro.
Qed.

Lemma step_show_cart w :
  window_ok d0 w →
  shop_page (stacked_widget (app w)) →
  window_ok d0 (set_app (show_cart num_add format_2f (app w)) w).
Proof.
  intros Hok Hpg. unfold show_cart. rewrite update_cart_spec.
  apply window_ok_shop_page; try done.
  - right. right. by left.
  - destruct Hok as (_ & _ & Hv & _). by eapply views_ok_same; [..|exact Hv].
Qed.

Lemma step_show_main w :
  window_ok d0 w →
  shop_page (stacked_widget (app w)) →
  window_ok d0 (set_app (show_main lower (app w)) w).
Proof.
  intros Hok Hpg. pose proof Hok as (_ & Hs & _).
  destruct (session_shop _ _ _ _ _ Hs Hpg) as (u & Hcu & _).
  destruct (show_main_same_session lower (app w) u Hcu)
    as (Hd & Hu & Hc & _ & _ & Hp).
  apply window_ok_shop_page; try done.
  - rewrite Hp. by left.
  - by rewrite Hp.
  - rewrite <- (window_ok_restaurants w Hok).
    by apply show_main_views, window_ok_views.
Qed.

Lemma step_logout w :
  window_ok d0 w → window_ok d0 (set_app (logout (app w)) w).
Proof.
  intros Hok. apply (window_ok_set_app d0 w _ Hok).
  - by destruct Hok as (Hdata & _).
  - apply session_out_intro. by left.
  - destruct Hok as (_ & _ & Hv & _). by eapply views_ok_same; [..|exact Hv].
Qed.

Lemma step_add_to_cart data w :
  window_ok d0 w →
  stacked_widget (app w) = restaurant_page →
  from_catalogue rs0 data →
  window_ok d0 (set_app (add_to_cart num_add format_2f data (app w)) w).
Proof.
  intros Hok Hpg Hdata. pose proof Hok as (Hd & Hs & Hv & _).
  destruct (session_shop _ _ _ _ _ Hs) as (u & Hcu & Ha & Hlg & _ & Hct);
    [right; by left|].
  unfold add_to_cart. rewrite update_cart_spec.
  apply (window_ok_set_app d0 w _ Hok); [done| |].
  - cbn. rewrite Hcu, Hpg. apply session_shop_intro; try done.
    + right. by left.
    + apply Forall_app. split; [done|by repeat constructor].
  - by eapply views_ok_same; [..|exact Hv].
Qed.

Lemma step_message_box m w :
  window_ok d0 w → window_ok d0 (set_app (message_box_exec m (app w)) w).
Proof.
  intros Hok. pose proof Hok as (Hd & Hs & Hv & _).
  apply (window_ok_set_app d0 w _ Hok); [done|done|].
  by eapply views_ok_same; [..|exact Hv].
Qed.

Lemma step_checkout w :
  window_ok d0 w →
  stacked_widget (app w) = cart_page →
  ∃ a', show_order_confirmation num_add format_2f (app w) = Ok a' ∧
        window_ok d0 (set_app a' w).
Proof.
  intros Hok Hpg. pose proof Hok as (Hd & Hs & Hv & _).
  destruct (session_shop _ _ _ _ _ Hs) as (u & Hcu & Ha & Hlg & _ & Hct);
    [right; right; by left|].
  assert (cart (app w) = [] ∨ cart (app w) ≠ []) as [Hcart|Hcart]
    by (destruct (cart (app w)); [by left|by right]).
  - rewrite show_order_confirmation_empty by done. eexists. split; [done|].
    by apply step_message_box.
  - destruct (show_order_confirmation_nonempty num_add format_2f (app w) u)
      as [listing ->]; [done|done|].
    eexists. split; [done|].
    apply window_ok_shop_page; try done.
    + rewrite Hpg. right. right. by left.
    + right. right. by right.
Qed.

Lemma step_confirm p now w :
  window_ok d0 w →
  stacked_widget (app w) = order_confirmation_page →
  ∃ a', confirm_order lower (payment_text p) now (app w) = Ok a' ∧
        window_ok d0 (set_app a' w).
Proof.
  intros Hok Hpg. pose proof Hok as (Hd & Hs & Hv & _).
  destruct (session_shop _ _ _ _ _ Hs) as (u & Hcu & Ha & Hlg & Hne & Hct);
    [right; right; by right|].
  destruct (confirm_order_spec lower (app w) u (payment_text p) now Hcu)
    as (o & -> & Ho1 & Ho2 & Ho3 & Ho4 & Ho5 & Ho6 & _ & Ho8).
  eexists. split; [done|].
  set (a1 := message_box_exec _ _).
  destruct (show_main_same_session lower a1 u Hcu)
    as (H1 & H2 & H3 & _ & _ & H6).
  apply (window_ok_set_app d0 w _ Hok).
  - rewrite H1. destruct Hd as (Hrs & Hus & Hwf & new & Hnew & Hall).
    split; [done|]. split; [done|]. split; [done|].
    exists (new ++ [o]). split.
    + cbn. by rewrite Hnew, app_assoc.
    + apply Forall_app. split; [done|]. constructor; [|constructor].
      exists (cart (app w)), (login (user_fields u)),
        (address (user_fields u)), p, now.
      split; [by apply Hne|]. by repeat split.
  - rewrite H1, H2, H3, H6. cbn. rewrite Hcu.
    apply session_shop_intro; [done|done|by left|done|constructor].
  - rewrite <- (window_ok_restaurants w Hok).
    apply (show_main_views lower a1).
    eapply views_ok_same; [..|exact (window_ok_views w Hok)]; done.
Qed.

Lemma step_login lg pw w :
  window_ok d0 w →
  stacked_widget (app w) = login_page →
  ∃ a', handle_login lower lg pw (app w) = Ok a' ∧
        window_ok d0 (set_app a' w).
Proof.
  intros Hok Hpg. pose proof Hok as (Hd & Hs & Hv & _).
  pose proof Hd as (Hrs & Hus & Hwf & _).
  destruct (session_logged_out _ _ _ _ _ Hs) as [Hcu Hct]; [by left|].
  unfold handle_login.
  destruct (login_user_outcome lg pw (db (app w)) Hwf) as (r & -> & Hr).
  destruct r as [acc|].
  - destruct (Hr acc eq_refl) as (Hadm & u & Hin & [Hl _] & Hf).
    rewrite <- Hadm.
    assert (login (user_fields acc) ∈ logins (users_file (db (app w))))
      as Hlg.
    { apply (logins_elem _ u); [done|].
      by destruct Hf as (_ & _ & _ & _ & H5 & _). }
    destruct (is_admin acc) eqn:Ea.
    + eexists. split; [done|].
      apply (window_ok_set_app d0 w _ Hok); [done| |].
      * cbn. rewrite Hct. split; [|constructor]. split; [done|].
        by rewrite Ea.
      * by eapply views_ok_same; [..|exact Hv].
    + destruct (show_main_same_session lower
                  (set_current_user (Some acc) (app w)) acc eq_refl)
        as (H1 & H2 & H3 & _ & _ & H6).
      eexists. split; [done|].
      apply (window_ok_set_app d0 w _ Hok).
      * by rewrite H1.
      * rewrite H1, H2, H3, H6. cbn. rewrite Hct.
        apply session_shop_intro; [done|done|by left|done|constructor].
      * rewrite <- (window_ok_restaurants w Hok).
        apply (show_main_views lower (set_current_user (Some acc) (app w))).
        eapply views_ok_same; [..|exact (window_ok_views w Hok)]; done.
  - eexists. split; [done|]. by apply step_message_box.
Qed.

Lemma step_register f w :
  window_ok d0 w →
  stacked_widget (app w) = register_page →
  ∃ a', handle_register strip f (app w) = Ok a' ∧
        window_ok d0 (set_app a' w).
Proof.
  intros Hok Hpg. pose proof Hok as (Hd & Hs & Hv & _).
  pose proof Hd as (Hrs & [newu Hus] & Hwf & newo & Hos & Hplaced).
  destruct (session_logged_out _ _ _ _ _ Hs) as [Hcu Hct]; [by right|].
  destruct (handle_register_outcome strip f (app w)) as [[m ->]| ->].
  { eapply Forall_impl; [exact Hwf|]. apply well_formed_has_login. }
  - eexists. split; [done|]. by apply step_message_box.
  - eexists. split; [done|]. apply (window_ok_set_app d0 w _ Hok).
    + cbn. split; [done|]. split.
      { exists (newu ++ [stored_record (form_dict f)]).
        by rewrite Hus, app_assoc. }
      split.
      { apply Forall_app. split; [done|]. constructor; [|constructor].
        apply stored_record_well_formed, form_dict_well_formed. }
      exists newo. split; [done|].
      eapply Forall_impl; [exact Hplaced|].
      intros o. apply placed_order_more_users.
    + cbn. rewrite Hcu, Hct. apply session_out_intro. by left.
    + by eapply views_ok_same; [..|exact Hv].
Qed.

Lemma step_show_register w :
  window_ok d0 w →
  stacked_widget (app w) = login_page →
  window_ok d0 (set_app (show_register (app w)) w).
Proof.
  intros Hok Hpg. pose proof Hok as (Hd & Hs & Hv & _).
  destruct (session_logged_out _ _ _ _ _ Hs) as [Hcu Hct]; [by left|].
  apply (window_ok_set_app d0 w _ Hok); [done| |].
  - cbn. rewrite Hcu, Hct. apply session_out_intro. by right.
  - by eapply views_ok_same; [..|exact Hv].
Qed.

Lemma step_show_login w :
  window_ok d0 w →
  stacked_widget (app w) = register_page →
  window_ok d0 (set_app (show_login (app w)) w).
Proof.
  intros Hok Hpg. pose proof Hok as (Hd & Hs & Hv & _).
  destruct (session_logged_out _ _ _ _ _ Hs) as [Hcu Hct]; [by right|].
  apply (window_ok_set_app d0 w _ Hok); [done| |].
  - cbn. rewrite Hcu, Hct. apply session_out_intro. by left.
  - by eapply views_ok_same; [..|exact Hv].
Qed.

Lemma step_search_result_click item w :
  window_ok d0 w →
  stacked_widget (app w) = main_page →
  run_ok d0 (handle_search_result_click item w).
Proof.
  intros Hok Hpg.
  destruct item; cbn [handle_search_result_click run_ok];
    [done|by apply show_restaurant_by_id_ok..].
Qed.

Lemma step_show_restaurant item w :
  window_ok d0 w →
  stacked_widget (app w) = main_page →
  item ∈ restaurant_list (app w) →
  run_ok d0 (show_restaurant item w).
Proof.
  intros Hok Hpg Hin. pose proof Hok as (_ & _ & (_ & Hlist & _) & _).
  destruct (proj1 (Forall_forall _ _) Hlist item Hin) as (r & _ & ->).
  cbn [show_restaurant run_ok]. by apply show_restaurant_by_id_ok.
Qed.

Lemma step_ok e w :
  window_ok d0 w → run_ok d0 (step lower strip num_add format_2f e w).
Proof.
  intros Hok. unfold step.
  destruct (stacked_widget (app w)) eqn:Hpg; destruct e;
    cbv beta iota zeta;
    try match goal with |- run_ok _ (Running ?x) => is_var x; exact Hok end.
  - destruct (step_login login_text password_text w Hok Hpg) as (a' & -> & H).
    exact H.
  - by apply step_show_register.
  - destruct (step_register f w Hok Hpg) as (a' & -> & H). exact H.
  - by apply step_show_login.
  - case_bool_decide; [done|]. by apply step_type_search.
  - by apply step_handle_search.
  - case_bool_decide; [|done]. by apply step_sort.
  - destruct (search_results_list_shown (app w)); [|done].
    destruct (search_results_list (app w) !! row) as [item|]; [|done].
    by apply step_search_result_click.
  - destruct (restaurant_list (app w) !! row) as [item|] eqn:Hrow; [|done].
    apply step_show_restaurant; [done|done|].
    by eapply list_elem_of_lookup_2.
  - apply step_show_cart; [done|]. rewrite Hpg. by left.
  - by apply step_logout.
  - apply step_show_cart; [done|]. rewrite Hpg. right. by left.
  - apply step_show_main; [done|]. rewrite Hpg. right. by left.
  - destruct (menu_tabs w !! tab) as [[c rows]|] eqn:Htab; [|done].
    destruct (rows !! row) as [data|] eqn:Hrow; [|done].
    apply step_add_to_cart; [done|done|].
    destruct Hok as (_ & _ & _ & Ht).
    pose proof (proj1 (Forall_forall _ _) Ht _ (list_elem_of_lookup_2 _ _ _ Htab))
      as Hrows.
    exact (proj1 (Forall_forall _ _) Hrows _ (list_elem_of_lookup_2 _ _ _ Hrow)).
  - apply step_show_main; [done|]. rewrite Hpg. right. right. by left.
  - destruct (step_checkout w Hok Hpg) as (a' & -> & H). exact H.
  - apply step_show_cart; [done|]. rewrite Hpg. right. right. by right.
  - destruct (step_confirm p now w Hok Hpg) as (a' & -> & H). exact H.
  - by apply step_logout.
Qed.

Lemma run_events_ok events w :
  window_ok d0 w →
  run_ok d0 (run_events lower strip num_add format_2f events w).
Proof.
  revert w. induction events as [|e events IH]; intros w Hok; [done|].
  cbn [run_events]. pose proof (step_ok e w Hok) as Hstep.
  destruct (step lower strip num_add format_2f e w) as [w'|f]; [|done].
  by apply IH.
Qed.

Lemma new_window_ok :
  Forall well_formed_account (users_file d0) → window_ok d0 (new_window d0).
Proof.
  intros Hwf. split; [|split; [|split]].
  - split; [done|]. split; [by exists []; rewrite app_nil_r|].
    split; [done|]. exists []. split; [by rewrite app_nil_r|constructor].
  - apply session_out_intro. by left.
  - split; [done|]. split; constructor.
  - constructor.
Qed.
End ReachableSteps.

Lemma handle_search_list_shown lower a :
  lower (search_input a) ≠ "" →
  _observers (subject (search_subject a)) = [the_window] →
  search_results_list_shown (handle_search lower a) = true.
Proof.
  intros Hq Hobs. unfold handle_search.
  rewrite bool_decide_eq_false_2 by done.
  unfold update_results, notify, load_restaurants_file. simpl.
  rewrite Hobs. simpl. by rewrite update_shows.
Qed.

Lemma next_with_id_elem restaurants r :
  r ∈ restaurants →
  ∃ data, next_with_id restaurants (restaurant_id r) = Some data.
Proof.
  intros Hin.
  destruct (next_with_id restaurants (restaurant_id r)) as [data|] eqn:Hn;
    [by exists data|].
  exfalso. induction restaurants as [|r' rs IH]; [by apply elem_of_nil in Hin|].
  cbn [next_with_id] in Hn.
  destruct (Z.eqb_spec (restaurant_id r') (restaurant_id r)) as [|Hne];
    [done|].
  apply elem_of_cons in Hin as [->|Hin]; [done|by apply IH].
Qed.

(** A row that refers to a stored restaurant opens a restaurant page. *)
Lemma show_restaurant_by_id_opens (d0 : Database) w r :
  window_ok d0 w →
  r ∈ restaurants_file d0 →
  ∃ data, data ∈ restaurants_file d0 ∧
          restaurant_id data = restaurant_id r ∧
          show_restaurant_by_id (restaurant_id r) w = opened data w.
Proof.
  intros ((Hrs & _) & _) Hin. rewrite <- Hrs in Hin.
  destruct (next_with_id_elem _ _ Hin) as [data Hn].
  exists data. pose proof (next_with_id_some _ _ _ Hn) as [Hdata Hid].
  rewrite Hrs in Hdata. split; [done|]. split; [done|].
  by apply show_restaurant_by_id_found.
Qed.

(** X15. A search that finds nothing leaves a row that cannot be
    clicked: on the main page, with the window listening and a query
    that is not empty once lowered and matches no restaurant and no
    dish, pressing the search button shows the one row "nothing found",
    and clicking that row raises [TypeError], because the row carries no
    user data and [handle_search_result_click] subscripts it. *)
Theorem nothing_found_click_raises
    (lower strip : string → string) (num_add : Q → Q → Q)
    (format_2f : Q → string) (w : Window) :
  stacked_widget (app w) = main_page →
  _observers (subject (search_subject (app w))) = [the_window] →
  lower (search_input (app w)) ≠ "" →
  search_spec lower (search_input (app w)) (restaurants_file (db (app w)))
  = [] →
  run_events lower strip num_add format_2f
    [search_btn_clicked; search_result_clicked 0] w
  = Crashed TypeError.
Proof.
  intros Hpg Hobs Hq Hnone.
  assert (step lower strip num_add format_2f search_btn_clicked w
          = Running (set_app (handle_search lower (app w)) w)) as Hfirst
    by (unfold step; by rewrite Hpg).
  cbn [run_events]. rewrite Hfirst. unfold step. cbn [app set_app].
  destruct (handle_search_same_session lower (app w))
    as (_ & _ & _ & _ & _ & Hp).
  rewrite Hp, Hpg. cbv beta iota zeta.
  rewrite handle_search_list_shown by done.
  rewrite handle_search_shows by done. by rewrite Hnone.
Qed.

Lemma nothing_found_click_raises_witness :
  run_events lower_ascii strip_ascii Qplus format_2f_exact
    [search_btn_clicked; search_result_clicked 0] alice_seeks_sushi
  = Crashed TypeError.
Proof.
  apply nothing_found_click_raises;
    [reflexivity|reflexivity|by vm_compute|by vm_compute].
Defined.

(** X16. Whatever the user does, starting from the freshly opened
    window on a database whose accounts are well formed, the only
    exception a handler can raise is that [TypeError]: [confirm_order]
    and [show_order_confirmation] are never run without an account
    logged in, [handle_register] and [handle_login] never meet a
    missing key, and a row of the restaurant list always carries an
    id. *)
Theorem run_events_raises_only_TypeError
    (lower strip : string → string) (num_add : Q → Q → Q)
    (format_2f : Q → string) (d0 : Database) (events : list event)
    (f : fault) :
  Forall well_formed_account (users_file d0) →
  run_events lower strip num_add format_2f events (new_window d0)
  = Crashed f →
  f = TypeError.
Proof.
  intros Hwf Hrun.
  pose proof (run_events_ok lower strip num_add format_2f d0 events _
                (new_window_ok d0 Hwf)) as Hok.
  by rewrite Hrun in Hok.
Qed.

Lemma run_events_raises_only_TypeError_witness :
  run_events lower_ascii strip_ascii Qplus format_2f_exact
    bob_finds_nothing (new_window sample_shop) = Crashed TypeError ∧
  TypeError = TypeError.
Proof.
  split; [by vm_compute|].
  apply (run_events_raises_only_TypeError lower_ascii strip_ascii Qplus
           format_2f_exact sample_shop bob_finds_nothing TypeError).
  - repeat constructor; by eexists.
  - by vm_compute.
Defined.

(** X17. The session of every window the user can reach from the
    freshly opened one: nobody is logged in exactly on the login and
    registration pages; whoever is logged in has a stored login, and is
    an administrator exactly on the administrator page; the cart is
    empty when nobody is logged in and on the administrator page, and
    is not empty on the confirmation page; every line of the cart is a
    dish of the catalogue, under its name, at its price, with the name
    of its restaurant. *)
Theorem reachable_session
    (lower strip : string → string) (num_add : Q → Q → Q)
    (format_2f : Q → string) (d0 : Database) (events : list event)
    (w : Window) :
  Forall well_formed_account (users_file d0) →
  run_events lower strip num_add format_2f events (new_window d0)
  = Running w →
  (current_user (app w) = None ↔
   stacked_widget (app w) = login_page ∨
   stacked_widget (app w) = register_page) ∧
  (∀ u, current_user (app w) = Some u →
        login (user_fields u) ∈ logins (users_file (db (app w))) ∧
        (is_admin u = true ↔ stacked_widget (app w) = admin_page)) ∧
  (current_user (app w) = None → cart (app w) = []) ∧
  (stacked_widget (app w) = admin_page → cart (app w) = []) ∧
  (stacked_widget (app w) = order_confirmation_page → cart (app w) ≠ []) ∧
  Forall (from_catalogue (restaurants_file d0)) (cart (app w)).
Proof.
  intros Hwf Hrun.
  pose proof (run_events_ok lower strip num_add format_2f d0 events _
                (new_window_ok d0 Hwf)) as Hok.
  rewrite Hrun in Hok. destruct Hok as (_ & [Hs Hct] & _).
  destruct (current_user (app w)) as [u|].
  - destruct Hs as [Hlg Hs]. destruct (is_admin u) eqn:Ha.
    + destruct Hs as [Hpg Hcart]. rewrite Hpg.
      split; [split; [done|by intros [?|?]]|].
      split; [by intros ? [= <-]; rewrite Ha|]. by repeat split.
    + destruct Hs as [Hpg Hcart].
      split; [split; [done|by intros [Hp|Hp]; rewrite Hp in Hpg;
                            destruct Hpg as [?|[?|[?|?]]]]|].
      split.
      { intros ? [= <-]. rewrite Ha. split; [done|]. split; [done|].
        intros Hp. rewrite Hp in Hpg. by destruct Hpg as [?|[?|[?|?]]]. }
      split; [done|]. split; [|done].
      intros Hp. rewrite Hp in Hpg. by destruct Hpg as [?|[?|[?|?]]].
  - destruct Hs as [Hpg Hcart].
    split; [done|]. split; [done|]. split; [done|]. split; [done|].
    split; [|done]. intros Hp. rewrite Hp in Hpg. by destruct Hpg.
Qed.

Lemma reachable_session_witness :
  ∃ w,
    run_events lower_ascii strip_ascii Qplus format_2f_exact
      bob_checks_out (new_window sample_shop) = Running w ∧
    stacked_widget (app w) = order_confirmation_page ∧
    cart (app w) = [mkCartLine 11 "Pizza Margherita" 450%Q "Pizza Place"] ∧
    Forall (from_catalogue (restaurants_file sample_shop)) (cart (app w)).
Proof.
  assert (Forall well_formed_account (users_file sample_shop)) as Hwf
    by (repeat constructor; by eexists).
  destruct (run_events lower_ascii strip_ascii Qplus format_2f_exact
              bob_checks_out (new_window sample_shop)) as [w|f] eqn:E;
    [|by vm_compute in E].
  exists w.
  pose proof (reachable_session lower_ascii strip_ascii Qplus
                format_2f_exact sample_shop bob_checks_out w Hwf E)
    as (_ & _ & _ & _ & _ & Hcart).
  split; [reflexivity|].
  vm_compute in E. injection E as <-.
  split; [reflexivity|]. split; [reflexivity|]. exact Hcart.
Defined.

(** X18. The stored data of every window the user can reach from the
    freshly opened one: the catalogue is never written; accounts and
    orders are only ever added at the end; every account is well
    formed; every order added holds a cart that was not empty, made of
    dishes of the catalogue, the login of a stored account, one of the
    two payment labels, a date, an address and the initial status, and
    nothing else. *)
Theorem reachable_data
    (lower strip : string → string) (num_add : Q → Q → Q)
    (format_2f : Q → string) (d0 : Database) (events : list event)
    (w : Window) :
  Forall well_formed_account (users_file d0) →
  run_events lower strip num_add format_2f events (new_window d0)
  = Running w →
  restaurants_file (db (app w)) = restaurants_file d0 ∧
  (∃ new, users_file (db (app w)) = users_file d0 ++ new) ∧
  Forall well_formed_account (users_file (db (app w))) ∧
  ∃ new,
    orders_file (db (app w)) = orders_file d0 ++ new ∧
    Forall (placed_order (restaurants_file d0) (users_file (db (app w))))
           new.
Proof.
  intros Hwf Hrun.
  pose proof (run_events_ok lower strip num_add format_2f d0 events _
                (new_window_ok d0 Hwf)) as Hok.
  rewrite Hrun in Hok. by destruct Hok as (Hd & _).
Qed.

Lemma reachable_data_witness :
  ∃ w,
    run_events lower_ascii strip_ascii Qplus format_2f_exact
      bob_orders (new_window sample_shop) = Running w ∧
    length (orders_file (db (app w))) = 1 ∧
    ∃ new,
      orders_file (db (app w)) = orders_file sample_shop ++ new ∧
      Forall (placed_order (restaurants_file sample_shop)
                           (users_file (db (app w)))) new.
Proof.
  assert (Forall well_formed_account (users_file sample_shop)) as Hwf
    by (repeat constructor; by eexists).
  destruct (run_events lower_ascii strip_ascii Qplus format_2f_exact
              bob_orders (new_window sample_shop)) as [w|f] eqn:E;
    [|by vm_compute in E].
  exists w.
  pose proof (reachable_data lower_ascii strip_ascii Qplus
                format_2f_exact sample_shop bob_orders w Hwf E)
    as (_ & _ & _ & Horders).
  split; [reflexivity|].
  vm_compute in E. injection E as <-.
  split; [reflexivity|]. exact Horders.
Defined.

(** X19. No row of the restaurant list is dead: on the main page of
    every window the user can reach, clicking a row of the restaurant
    list opens the restaurant page of a restaurant of the catalogue
    that is stored under the id of the row, with its tabs. *)
Theorem restaurant_click_opens_page
    (lower strip : string → string) (num_add : Q → Q → Q)
    (format_2f : Q → string) (d0 : Database) (events : list event)
    (w : Window) (row : nat) (item : list_item) :
  Forall well_formed_account (users_file d0) →
  run_events lower strip num_add format_2f events (new_window d0)
  = Running w →
  stacked_widget (app w) = main_page →
  restaurant_list (app w) !! row = Some item →
  ∃ r, r ∈ restaurants_file d0 ∧
       item = restaurant_item (restaurant_id r) ∧
       step lower strip num_add format_2f (restaurant_clicked row) w
       = Running (opened r w).
Proof.
  intros Hwf Hrun Hpg Hrow.
  pose proof (run_events_ok lower strip num_add format_2f d0 events _
                (new_window_ok d0 Hwf)) as Hok.
  rewrite Hrun in Hok. pose proof Hok as (_ & _ & (_ & Hlist & _) & _).
  destruct (proj1 (Forall_forall _ _) Hlist item
              (list_elem_of_lookup_2 _ _ _ Hrow)) as (r0 & Hr0 & ->).
  destruct (show_restaurant_by_id_opens d0 w r0 Hok Hr0)
    as (r & Hr & Hid & Hopen).
  exists r. split; [done|]. split; [by rewrite Hid|].
  unfold step. rewrite Hpg. cbv beta iota zeta. rewrite Hrow.
  cbn [show_restaurant]. by rewrite Hopen.
Qed.

Lemma restaurant_click_opens_page_witness :
  ∃ w r,
    run_events lower_ascii strip_ascii Qplus format_2f_exact
      [login_btn_clicked "bob" "hunter2"] (new_window sample_shop)
    = Running w ∧
    restaurant_name r = "Trattoria" ∧
    step lower_ascii strip_ascii Qplus format_2f_exact
      (restaurant_clicked 1) w
    = Running (opened r w).
Proof.
  assert (Forall well_formed_account (users_file sample_shop)) as Hwf
    by (repeat constructor; by eexists).
  destruct (run_events lower_ascii strip_ascii Qplus format_2f_exact
              [login_btn_clicked "bob" "hunter2"] (new_window sample_shop))
    as [w|f] eqn:E; [|by vm_compute in E].
  exists w.
  assert (stacked_widget (app w) = main_page ∧
          restaurant_list (app w) !! 1 = Some (restaurant_item 2))
    as [Hpg Hrow].
  { vm_compute in E. by injection E as <-. }
  destruct (restaurant_click_opens_page lower_ascii strip_ascii Qplus
              format_2f_exact sample_shop
              [login_btn_clicked "bob" "hunter2"] w 1 (restaurant_item 2)
              Hwf E Hpg Hrow)
    as (r & Hr & Hitem & Hstep).
  exists r. split; [reflexivity|]. split; [|exact Hstep].
  apply elem_of_cons in Hr as [->|Hr]; [by vm_compute in Hitem|].
  apply elem_of_cons in Hr as [->|Hr]; [reflexivity|].
  by apply elem_of_nil in Hr.
Defined.

(** X20. A row of the result list, on the main page of every window
    the user can reach: either it is the text row shown when nothing
    was found, and clicking it raises [TypeError]; or it refers to a
    restaurant of the catalogue, as a restaurant or as the restaurant
    of a dish, and clicking it opens the restaurant page of a
    restaurant stored under that id. *)
Theorem search_result_click_outcome
    (lower strip : string → string) (num_add : Q → Q → Q)
    (format_2f : Q → string) (d0 : Database) (events : list event)
    (w : Window) (row : nat) (item : list_item) :
  Forall well_formed_account (users_file d0) →
  run_events lower strip num_add format_2f events (new_window d0)
  = Running w →
  stacked_widget (app w) = main_page →
  search_results_list_shown (app w) = true →
  search_results_list (app w) !! row = Some item →
  ((∃ t, item = text_item t) ∧
   step lower strip num_add format_2f (search_result_clicked row) w
   = Crashed TypeError) ∨
  (∃ r, r ∈ restaurants_file d0 ∧
        (item = restaurant_item (restaurant_id r) ∨
         item = dish_item (restaurant_id r)) ∧
        step lower strip num_add format_2f (search_result_clicked row) w
        = Running (opened r w)).
Proof.
  intros Hwf Hrun Hpg Hshown Hrow.
  pose proof (run_events_ok lower strip num_add format_2f d0 events _
                (new_window_ok d0 Hwf)) as Hok.
  rewrite Hrun in Hok. pose proof Hok as (_ & _ & (_ & _ & Hrows) & _).
  assert (step lower strip num_add format_2f (search_result_clicked row) w
          = handle_search_result_click item w) as ->.
  { unfold step. rewrite Hpg. cbv beta iota zeta. by rewrite Hshown, Hrow. }
  destruct (proj1 (Forall_forall _ _) Hrows item
              (list_elem_of_lookup_2 _ _ _ Hrow))
    as [[t ->]|(r0 & Hr0 & Hitem)].
  - left. split; [by exists t|done].
  - right.
    destruct (show_restaurant_by_id_opens d0 w r0 Hok Hr0)
      as (r & Hr & Hid & Hopen).
    exists r. split; [done|]. rewrite Hid.
    destruct Hitem as [-> | ->]; cbn [handle_search_result_click];
      rewrite Hopen; (split; [|done]); [by left|by right].
Qed.

Lemma search_result_click_outcome_witness :
  ∃ w,
    run_events lower_ascii strip_ascii Qplus format_2f_exact
      [login_btn_clicked "bob" "hunter2"; search_input_edited "sushi"]
      (new_window sample_shop)
    = Running w ∧
    step lower_ascii strip_ascii Qplus format_2f_exact
      (search_result_clicked 0) w
    = Crashed TypeError.
Proof.
  assert (Forall well_formed_account (users_file sample_shop)) as Hwf
    by (repeat constructor; by eexists).
  destruct (run_events lower_ascii strip_ascii Qplus format_2f_exact
              [login_btn_clicked "bob" "hunter2"; search_input_edited "sushi"]
              (new_window sample_shop))
    as [w|f] eqn:E; [|by vm_compute in E].
  exists w. split; [reflexivity|].
  assert (stacked_widget (app w) = main_page ∧
          search_results_list_shown (app w) = true ∧
          search_results_list (app w) !! 0
          = Some (text_item "Ничего не найдено"))
    as (Hpg & Hshown & Hrow).
  { vm_compute in E. by injection E as <-. }
  destruct (search_result_click_outcome lower_ascii strip_ascii Qplus
              format_2f_exact sample_shop
              [login_btn_clicked "bob" "hunter2"; search_input_edited "sushi"]
              w 0 (text_item "Ничего не найдено") Hwf E Hpg Hshown Hrow)
    as [[_ Hstep]|(r & _ & [Hitem|Hitem] & _)];
    [exact Hstep|discriminate Hitem..].
Defined.
